(** * cardata_mock: the simulation engine of [src/simulation.ts]

    A shallow embedding of the [Simulation] class: the seeded generators,
    the raw-event accumulator with its flush into the snapshot, the hotspot
    generator with its temporal distribution, the query layer, the
    statistics updates, the event producer and the two timers; and of the
    two filtering routes of [src/server.ts].

    Conventions of the embedding.
    - A JavaScript [number] is a binary64 value: Rocq's primitive [float].
      [NaN], the infinities and the two zeros are therefore part of the model.
    - The 32-bit integer arithmetic of the generators ([Math.imul], [^], [|],
      [>>>]) is carried out on [Z] with the wrap-around written out.
    - A draw [r()] of [#seededRand] is the dyadic rational [z / 2^32] for a
      uint32 [z]; the model keeps [z].  [Math.floor(r() * k)] for a small
      integer [k] is exact in binary64 and equals [z * k / 2^32] on [Z];
      integer-valued results of that shape are kept in [Z].
    - [Map] objects are [gmap string _]: the order in which a [Map], or
      an object built from one, lists its entries is not modelled.
    - Clock readings ([Date.now()], [new Date()]) and [crypto.randomUUID()]
      are arguments of the operation that performs them.
    - Library code outside the repository ([h3-js], [Math.log], [Math.cos],
      [Math.sin], [Math.atan2], [Date.prototype.toISOString],
      [Number::toString]) enters as section variables, taken as total
      functions: their own exceptions are not modelled.  The one exception
      is [toISOString] in the flush, whose argument comes from the callers
      of [pushRawEvent]: there the [RangeError] of a date without a time
      value is part of the model, and the flush has an [outcome].
      Everywhere else [toISOString] is applied to a date computed from a
      clock reading.
    - The two timers of [start()] are kept in a record of their own, next
      to the intervals that are active in the runtime; the identifiers
      that [setInterval] returns are arguments of [start].
    - A route of [src/server.ts] is embedded as the body of its handler
      for a query that has passed validation. *)

From Stdlib Require Import ZArith Floats Lia Bool Ascii String.
From stdpp Require Import gmap strings list fin_maps pretty.

Set Warnings "-inexact-float,-clear-no-such-hyp".
Local Open Scope Z_scope.

(* ===================================================================== *)
(** ** JavaScript numbers *)
(* ===================================================================== *)

Module JS.

Abbreviation number := float.

(** The double nearest to [m * 2^e] (ties to even). *)
Definition of_scaled (m e : Z) : number :=
  SF2Prim (binary_normalize prec emax m e false).

(** The double nearest to the integer [z]; exact when [|z| <= 2^53]. *)
Definition of_Z (z : Z) : number := of_scaled z 0.

(** A finite double as [m * 2^e]; [None] for NaN and the infinities. *)
Definition to_scaled (x : number) : option (Z * Z) :=
  match Prim2SF x with
  | S754_zero _ => Some (0, 0)
  | S754_finite s m e => Some (if s then Z.neg m else Z.pos m, e)
  | S754_infinity _ | S754_nan => None
  end.

Definition is_neg_zero (x : number) : bool :=
  match Prim2SF x with S754_zero true => true | _ => false end.

Definition is_zero_or_nan (x : number) : bool :=
  PrimFloat.is_nan x || PrimFloat.is_zero x.

(** [a || b] on numbers: [a] unless it is falsy ([0], [-0], [NaN]). *)
Definition or_else (a b : number) : number :=
  if is_zero_or_nan a then b else a.

(** [floor] of [m * 2^e] as an integer. *)
Definition floor_scaled (m e : Z) : Z :=
  if 0 <=? e then m * 2 ^ e else m / 2 ^ (- e).

(** [Math.floor]: NaN, infinities, zeros and integers are returned as they
    are; a value in (0,1) gives [+0]. *)
Definition Math_floor (x : number) : number :=
  match to_scaled x with
  | None => x
  | Some (m, e) =>
      if (0 <=? e) || (m =? 0) then x else of_Z (floor_scaled m e)
  end.

(** [Math.round]: the nearest integer, ties towards [+∞]; a result of zero
    keeps the sign of a negative argument ([Math.round(-0.2)] is [-0]). *)
Definition Math_round (x : number) : number :=
  match to_scaled x with
  | None => x
  | Some (m, e) =>
      if (0 <=? e) || (m =? 0) then x
      else
        let n := (2 * m + 2 ^ (- e)) / 2 ^ (- e + 1) in
        if (n =? 0) && (m <? 0) then (-0)%float else of_Z n
  end.

(** [Math.max(a, b)] and [Math.min(a, b)]: NaN if either is NaN; [+0] is
    larger than [-0]. *)
Definition Math_max (a b : number) : number :=
  if PrimFloat.is_nan a || PrimFloat.is_nan b then nan
  else if (a <? b)%float then b
  else if (b <? a)%float then a
  else if is_neg_zero a then b else a.

Definition Math_min (a b : number) : number :=
  if PrimFloat.is_nan a || PrimFloat.is_nan b then nan
  else if (a <? b)%float then a
  else if (b <? a)%float then b
  else if is_neg_zero a then a else b.

(** [a % b] on numbers (the exact remainder, with the sign of [a]). *)
Definition rem (a b : number) : number :=
  match Prim2SF a, Prim2SF b with
  | S754_nan, _ | _, S754_nan => nan
  | S754_infinity _, _ => nan
  | _, S754_zero _ => nan
  | _, S754_infinity _ => a
  | S754_zero _, _ => a
  | S754_finite sa ma ea, S754_finite _ mb eb =>
      let e := Z.min ea eb in
      let r := Z.rem (Z.pos ma * 2 ^ (ea - e)) (Z.pos mb * 2 ^ (eb - e)) in
      if r =? 0 then (if sa then (-0)%float else 0%float)
      else of_scaled (if sa then - r else r) e
  end.

(** [ToInt32] and [ToUint32] of an integer, and [ToUint32] of a number. *)
Definition ToUint32 (z : Z) : Z := z mod 2 ^ 32.
Definition ToInt32 (z : Z) : Z := (z + 2 ^ 31) mod 2 ^ 32 - 2 ^ 31.

Definition trunc_scaled (m e : Z) : Z :=
  if 0 <=? e then m * 2 ^ e else Z.quot m (2 ^ (- e)).

Definition number_ToUint32 (x : number) : Z :=
  match to_scaled x with
  | None => 0
  | Some (m, e) => ToUint32 (trunc_scaled m e)
  end.

(** [Math.imul(a, b)], [a ^ b], [a | b] and [a >>> n] on integers. *)
Definition Math_imul (a b : Z) : Z := ToInt32 (ToInt32 a * ToInt32 b).
Definition xor (a b : Z) : Z := Z.lxor (ToInt32 a) (ToInt32 b).
Definition bor (a b : Z) : Z := Z.lor (ToInt32 a) (ToInt32 b).
Definition ushr (a n : Z) : Z := Z.shiftr (ToUint32 a) n.

End JS.

(* ===================================================================== *)
(** ** Strings of numbers: [String(n)], [padStart], [toFixed], [parseFloat] *)
(* ===================================================================== *)

Module JSString.
Import JS.
Local Open Scope string_scope.

(** [String(n)] for an integer [n]. *)
Definition String_of_int (n : Z) : string := pretty n.

Fixpoint replicate_char (n : nat) (c : ascii) : string :=
  match n with O => EmptyString | S k => String c (replicate_char k c) end.

(** [s.padStart(w, c)] for a one-character pad string. *)
Definition padStart (w : nat) (c : ascii) (s : string) : string :=
  replicate_char (w - String.length s) c +:+ s.

(** The digits of [n / 10^d] with exactly [d] decimals, for [0 <= n]. *)
Definition fixed_digits (n : Z) (d : nat) : string :=
  match d with
  | O => String_of_int n
  | S _ =>
      let s := padStart (S d) "0"%char (String_of_int n) in
      let k := (String.length s - d)%nat in
      String.substring 0 k s +:+ "." +:+ String.substring k d s
  end.

Section ToFixed.
(** [Number::toString], used by [toFixed] from [1e21] on. *)
Variable Number_toString : number → string.

(** [x.toFixed(d)]: the integer [n] nearest to [|x| * 10^d] (the larger
    one on a tie), written with [d] decimals. *)
Definition Number_toFixed (x : number) (d : nat) : string :=
  match Prim2SF x with
  | S754_nan => "NaN"
  | S754_infinity s => if s then "-Infinity" else "Infinity"
  | S754_zero _ => fixed_digits 0 d
  | S754_finite s m e =>
      if (1e21 <=? abs x)%float then Number_toString x
      else
        let p := Z.pos m * 10 ^ Z.of_nat d in
        let n := if (0 <=? e)%Z then p * 2 ^ e
                 else (2 * p + 2 ^ (- e)) / 2 ^ (- e + 1) in
        (if s then "-" else "") +:+ fixed_digits n d
  end.
End ToFixed.

(** The double nearest to [n / d], for [0 <= n] and [0 < d]: a quotient of
    more than 64 bits with a sticky last bit, rounded once. *)
Definition of_ratio (n d : Z) : number :=
  if (n =? 0)%Z then 0%float
  else
    let k := Z.max 0 (Z.log2 d + 66 - Z.log2 n) in
    let q := (n * 2 ^ k) / d in
    let sticky := if ((n * 2 ^ k) mod d =? 0)%Z then 0 else 1 in
    of_scaled (2 * q + sticky) (- k - 1).

Definition digit_of (c : ascii) : option Z :=
  let n := Z.of_nat (nat_of_ascii c) in
  if ((48 <=? n) && (n <=? 57))%Z then Some (n - 48) else None.

(** The longest run of digits at the head of [s]: its value, its length
    and the rest. *)
Fixpoint take_digits (s : string) (acc : Z) (len : nat) : Z * nat * string :=
  match s with
  | String c rest =>
      match digit_of c with
      | Some v => take_digits rest (10 * acc + v) (S len)
      | None => (acc, len, s)
      end
  | EmptyString => (acc, len, s)
  end.

Definition take_sign (s : string) : bool * string :=
  match s with
  | String "-" rest => (true, rest)
  | String "+" rest => (false, rest)
  | _ => (false, s)
  end.

(** The exponent part [e[+-]ddd] at the head of [s], or [0]. *)
Definition take_exponent (s : string) : Z :=
  match s with
  | String c rest =>
      if (Ascii.eqb c "e" || Ascii.eqb c "E")%char then
        let '(neg, rest') := take_sign rest in
        let '(v, len, _) := take_digits rest' 0 0 in
        match len with O => 0 | _ => if neg then - v else v end
      else 0
  | EmptyString => 0
  end.

(** [parseFloat(s)] for a string without leading white space: the longest
    decimal literal at its head, [NaN] when there is none. *)
Definition parseFloat (s : string) : number :=
  let '(neg, s1) := take_sign s in
  let signed (x : number) := if neg then (- x)%float else x in
  if String.prefix "Infinity" s1 then signed infinity
  else
    let '(ip, ilen, s2) := take_digits s1 0 0 in
    let '(fp, flen, s3) :=
      match s2 with
      | String "." rest => take_digits rest ip 0
      | _ => (ip, 0%nat, s2)
      end in
    match (ilen + flen)%nat with
    | O => nan
    | _ =>
        let ex := (take_exponent s3 - Z.of_nat flen)%Z in
        signed (if (0 <=? ex)%Z then of_ratio (fp * 10 ^ ex) 1
                else of_ratio fp (10 ^ (- ex)))
    end.

End JSString.

(* ===================================================================== *)
(** ** The data model ([types.ts]) *)
(* ===================================================================== *)

Import JS.

Module RainIntensity.
Inductive t := NONE | LOW | MEDIUM | HIGH | UNRECOGNIZED.
End RainIntensity.

Module RoadCondition.
Inductive t := DRY | WET | SLIPPERY | SLIPPERY_ICE | SLIPPERY_WET | UNRECOGNIZED.
End RoadCondition.

(** [BoundingBox], as it arrives at run time: possibly absent, of any
    length.  The declared type is the four-tuple
    [minLng, minLat, maxLng, maxLat]. *)
Definition BoundingBox := option (list number).

Module CellStatistics.
Record Extreme := { value : number; timestamp : string }.
Record Temperature := { lowest : option Extreme; highest : option Extreme }.
Record Rain := { low : number; medium : number; high : number }.
Record DayCounts :=
  { rain : Rain; slippery_road : number; fog : number; cross_wind : number }.
Record t := { temperature : Temperature; day_counts : DayCounts }.
End CellStatistics.

Module Cell.
Record Location := { h3_index : string }.
Record Timeframe := { last : string }.
Record Metadata := { confidence : number; total_count : number }.
Record Conditions :=
  { rain_intensity : RainIntensity.t;
    road_condition : RoadCondition.t;
    fog : bool;
    cross_wind : bool }.
Record Environment :=
  { temperature : number; is_night : bool; conditions : Conditions }.
Record t :=
  { location : Location;
    timeframe : Timeframe;
    metadata : Metadata;
    environment : Environment;
    statistics : option CellStatistics.t }.
End Cell.

(** A histogram entry of a hotspot: an integer count, or the [NaN] that
    [x[k]++] stores when [x[k]] is [undefined]. *)
Inductive Count := Int (n : Z) | NaN.

Module RiskHotspot.
Record Location := { latitude : number; longitude : number; std_dev : number }.
Record Risk :=
  { type : string; importance : Z; confidence : Z; residual_confidence : Z }.
Record Metadata :=
  { id : string;
    risk : Risk;
    total_count : Z;
    weather_impact : Z;
    time_of_day_impact : Z }.
Record Timeframe := { first : string; last : string }.
Record AvgStd := { avg : number; avg_std_dev : number }.
Record Vehicle := { heading : AvgStd }.
Record Presence := { is_present : bool; count : number }.
Record Conditions :=
  { dry_road : Presence;
    wet_road : Presence;
    rain : Presence;
    slippery_road : Presence;
    fog : Presence;
    crosswind : Presence }.
Record Environment :=
  { air_temperature : AvgStd; sun_position : AvgStd; conditions : Conditions }.
Record Distribution :=
  { by_week : gmap Z Count; by_day : gmap string Count; by_time : gmap string Count }.
Record Statistics := { distribution : Distribution }.
Record t :=
  { location : Location;
    metadata : Metadata;
    timeframe : Timeframe;
    vehicle : Vehicle;
    environment : Environment;
    statistics : Statistics }.
End RiskHotspot.

(** One entry of [#rawAgg]. *)
Record RawAgg :=
  { sumTemp : number;
    count : number;
    lastTs : number;
    sumConfidence : number;
    sumCounts : number;
    fogVotes : number;
    crossWindVotes : number;
    rainScore : number;
    roadScore : number }.

(** The argument of [pushRawEvent]; an absent field is [None]. *)
Record RawEvent :=
  { ev_temperature : number;
    ev_confidence : option number;
    ev_count : option number;
    ev_fog : option bool;
    ev_cross_wind : option bool;
    ev_rain_intensity : option RainIntensity.t;
    ev_road_condition : option RoadCondition.t;
    ev_timestamp : option number }.

Record CellLocation := { lat : number; lng : number; h3 : string }.

(** The state of a [Simulation] object (the two timers are left out). *)
Record Simulation :=
  { targetCellCount : nat;
    targetHotspotCount : nat;
    snapshotIntervalMs : Z;
    resolution : Z;
    seed : Z;
    rngState : Z;
    rawAgg : gmap string RawAgg;
    snapshot : gmap string Cell.t;
    hotspots : gmap string RiskHotspot.t;
    stats : gmap string CellStatistics.t;
    cellLocations : list CellLocation }.

(** [new Simulation({targetCellCount, targetHotspotCount, snapshotIntervalMs,
    seed, resolution})] for an integer [seed]. *)
Definition new_Simulation
    (cells hots : nat) (interval sd res : Z) : Simulation :=
  {| targetCellCount := cells;
     targetHotspotCount := hots;
     snapshotIntervalMs := interval;
     resolution := res;
     seed := ToUint32 sd;
     rngState := ToUint32 sd;
     rawAgg := ∅;
     snapshot := ∅;
     hotspots := ∅;
     stats := ∅;
     cellLocations := [] |}.

(* ===================================================================== *)
(** ** Reference geography ([data.ts]) *)
(* ===================================================================== *)

Record City :=
  { name : string; city_lat : number; city_lng : number;
    weight : number; sigma : number }.

Definition mkCity (n : string) (la ln w s : number) : City :=
  {| name := n; city_lat := la; city_lng := ln; weight := w; sigma := s |}.

Definition cities : list City :=
  [ mkCity "Prague" 50.0755 14.4378 5 0.035;
    mkCity "Brno" 49.1951 16.6068 3 0.03;
    mkCity "Ostrava" 49.8209 18.2625 2 0.03;
    mkCity "Plzen" 49.7465 13.3776 1.5 0.025;
    mkCity "Liberec" 50.7671 15.0562 1 0.02;
    mkCity "Olomouc" 49.5938 17.2509 1 0.02;
    mkCity "CeskeBudejovice" 48.9747 14.4749 0.8 0.02;
    mkCity "HradecKralove" 50.2092 15.8328 0.9 0.02;
    mkCity "Pardubice" 50.0343 15.7812 0.7 0.02;
    mkCity "Usti" 50.66 14.0416 0.8 0.02;
    mkCity "KarlovyVary" 50.2311 12.8716 0.5 0.015;
    mkCity "Zlin" 49.2264 17.6706 0.6 0.015 ]%float.

Definition highways : list (list (number * number)) :=
  [ [ (50.0755, 14.4378); (49.7813, 14.6850); (49.5420, 15.3590);
      (49.3964, 15.5912); (49.3540, 16.0100); (49.2775, 16.5660);
      (49.1951, 16.6068); (49.4100, 17.0000); (49.8209, 18.2625) ];
    [ (49.1951, 16.6068); (48.9393, 16.7406); (48.7595, 16.8820) ];
    [ (50.0755, 14.4378); (49.7813, 14.6850); (49.4144, 14.6588);
      (49.1850, 14.7000); (48.9747, 14.4747) ];
    [ (50.0755, 14.4378); (49.9643, 14.0741); (49.7390, 13.5910);
      (49.7465, 13.3776); (49.7090, 13.0000); (49.6631, 12.7777) ];
    [ (50.0755, 14.4378); (50.1510, 13.7900); (50.2321, 12.8714);
      (50.0796, 12.3739) ];
    [ (50.0755, 14.4378); (50.2300, 14.0850); (50.3500, 13.7970);
      (50.4069, 13.4188); (50.4920, 13.0258) ];
    [ (50.0755, 14.4378); (50.5175, 14.0450); (50.66, 14.0416);
      (50.7750, 14.1000); (50.9013, 14.2540) ];
    [ (50.0755, 14.4378); (50.4106, 14.9070); (50.5865, 15.1496);
      (50.7670, 15.0670) ];
    [ (50.0755, 14.4378); (50.1430, 15.1170); (50.2092, 15.8328);
      (50.0343, 15.7812); (49.7890, 16.9170); (49.5938, 17.2509);
      (49.5178, 17.5833) ];
    [ (49.1951, 16.6068); (48.9870, 16.5230); (48.8052, 16.6376) ];
    [ (49.5938, 17.2509); (49.4550, 17.4500); (49.2236, 17.5320);
      (49.2264, 17.6707); (49.0681, 17.4634) ] ]%float.

(* ===================================================================== *)
(** ** The two generators of pseudo-random numbers *)
(* ===================================================================== *)

(** Code that draws from a generator threads the generator's state, an
    integer: [Gen A] is a computation that returns an [A] and the new state. *)
Definition Gen (A : Type) : Type := Z → A * Z.

Definition ret {A} (a : A) : Gen A := λ s, (a, s).
Definition bind {A B} (m : Gen A) (k : A → Gen B) : Gen B :=
  λ s, let (a, s') := m s in k a s'.

Notation "'let*' x ':=' m 'in' k" := (bind m (λ x, k))
  (at level 10, x name, m at level 100, k at level 200).

(** [#seededRand(seed)] returns a closure over the variable [seed]; the
    closure is represented by the current value of that variable.  One call
    of the closure: [seed += 0x6D2B79F5] (never wrapped; an integer, exact in
    binary64 below 2^53), then the mixing on 32 bits.  The result is the
    numerator [z] of the draw [z / 2^32]. *)
Definition seededRand (seed0 : Z) : Z := seed0.

Definition draw : Gen Z := λ seed,
  let seed' := seed + 0x6D2B79F5 in
  let t := seed' in
  let t := Math_imul (xor t (ushr t 15)) (bor t 1) in
  let t := xor t (t + Math_imul (xor t (ushr t 7)) (bor t 61)) in
  (ToUint32 (xor t (ushr t 14)), seed').

(** The number [z / 4294967296]. *)
Definition unit_interval (z : Z) : number := (of_Z z / 4294967296)%float.

(** [r()] as a number. *)
Definition r : Gen number := let* z := draw in ret (unit_interval z).

(** [Math.floor(r() * k)] for an integer [0 < k < 2^21]: the product is
    exact in binary64, and so is the floor. *)
Definition floor_r_times (k : Z) : Gen Z :=
  let* z := draw in ret (z * k / 2 ^ 32).

(** [Math.floor(r() ** 3 * 500)], with the cube taken exactly ([Math.pow]
    is implementation-approximated in ECMAScript).  The theorems use only
    that the result is an integer from 0 to 499. *)
Definition floor_r_cubed_times_500 : Gen Z :=
  let* z := draw in ret (z ^ 3 * 500 / 2 ^ 96).

(** [#randUniform(seedOffset)] on the state [#rngState]; the addition of the
    constant is the binary64 one.  The numerator [k] of the result
    [k / 1000000] is returned. *)
Definition randUniform_num (seedOffset : Z) : Gen Z := λ rngState,
  let rngState' :=
    number_ToUint32 (of_Z rngState + 0x9E3779B97F4A7C15)%float in
  let t := Math_imul (xor rngState' seedOffset) 0x85EBCA6B in
  let t := xor t (ushr t 13) in
  (ToUint32 t mod 1000000, rngState').

Definition randUniform (seedOffset : Z) : Gen number :=
  let* k := randUniform_num seedOffset in ret (of_Z k / 1000000)%float.

(* ===================================================================== *)
(** ** Calendar arithmetic of [Date] (UTC) *)
(* ===================================================================== *)

Module Date.
Definition msPerDay : Z := 1000 * 60 * 60 * 24.

(** Days since the epoch of the first of January of year [y]. *)
Definition days_of_year_start (y : Z) : Z :=
  let y' := y - 1 in
  365 * y' + y' / 4 - y' / 100 + y' / 400 - 719162.

(** [new Date(ms).getUTCFullYear()]. *)
Definition getUTCFullYear (ms : Z) : Z :=
  let days := ms / msPerDay in
  let y := (days + 719162) * 400 / 146097 + 1 in
  if days <? days_of_year_start y then y - 1
  else if days_of_year_start (y + 1) <=? days then y + 1
  else y.

(** [new Date(ms).getUTCHours()]. *)
Definition getUTCHours (ms : Z) : Z := (ms / 3600000) mod 24.

(** [Date.UTC(y, 0, 0)]: the last day of the year before [y]; a year from
    0 to 99 stands for 1900 + [y]. *)
Definition UTC_y_0_0 (y : Z) : Z :=
  let yr := if (0 <=? y) && (y <=? 99) then 1900 + y else y in
  (days_of_year_start yr - 1) * msPerDay.
End Date.

(** [#dayOfYear(d)] for the time value [ms] of [d]. *)
Definition dayOfYear (ms : Z) : Z :=
  let start := Date.UTC_y_0_0 (Date.getUTCFullYear ms) in
  (ms - start) / (1000 * 60 * 60 * 24).

(** [#rainIntensityToScore] and [#roadConditionToScore]. *)
Definition rainIntensityToScore (x : RainIntensity.t) : number :=
  match x with
  | RainIntensity.NONE => 0
  | RainIntensity.LOW => 1
  | RainIntensity.MEDIUM => 2
  | RainIntensity.HIGH => 4
  | _ => 0
  end%float.

Definition roadConditionToScore (x : RoadCondition.t) : number :=
  match x with
  | RoadCondition.DRY => 0
  | RoadCondition.WET => 1
  | RoadCondition.SLIPPERY => 2
  | RoadCondition.SLIPPERY_ICE => 3
  | RoadCondition.SLIPPERY_WET => 2
  | _ => 0
  end%float.

(* ===================================================================== *)
(** ** The geo sampler and the environment model *)
(* ===================================================================== *)

Definition Math_PI : number := 3.141592653589793%float.

Section Sampler.
Variable Math_log Math_cos Math_sin : number → number.
Variable Math_atan2 : number → number → number.

(** [normal(r, mean, std)]: Box-Muller on two draws. *)
Definition normal (mean std : number) : Gen number :=
  let* u1 := r in
  let u1 := or_else u1 1e-9%float in
  let* u2 := r in
  let u2 := or_else u2 1e-9%float in
  let z0 := (PrimFloat.sqrt (-2.0 * Math_log u1) * Math_cos (2 * Math_PI * u2))%float in
  ret (mean + z0 * std)%float.

(** The loop of [pickCity]: the first city whose weight is not below what
    is left of [v]. *)
Fixpoint pickCity_walk (cs : list City) (v : number) : option City :=
  match cs with
  | [] => None
  | c :: cs' =>
      if (v <=? weight c)%float then Some c
      else pickCity_walk cs' (v - weight c)%float
  end.

Definition pickCity : Gen City :=
  let total := foldl (λ s c, (s + weight c)%float) 0%float cities in
  let* u := r in
  let v := (u * total)%float in
  ret (default (mkCity "Prague" 50.0755 14.4378 5 0.035)
               (pickCity_walk cities v)).

Record PolyPoint := { pt_lat : number; pt_lng : number; pt_heading : number }.

Definition segment_length (a b : number * number) : number :=
  let dx := (fst b - fst a)%float in
  let dy := (snd b - snd a)%float in
  PrimFloat.sqrt (dx * dx + dy * dy)%float.

Definition segment_heading (a b : number * number) : number :=
  rem (Math_atan2 (snd b - snd a) (fst b - fst a) * 180 / Math_PI + 360)%float
      360%float.

(** The segments [poly[i], poly[i + 1]] in order. *)
Fixpoint segments (poly : list (number * number))
    : list ((number * number) * (number * number)) :=
  match poly with
  | a :: (b :: _) as rest => (a, b) :: segments rest
  | _ => []
  end.

(** The second loop of [sampleAlongPolyline]. *)
Fixpoint polyline_walk (segs : list ((number * number) * (number * number)))
    (t : number) : option PolyPoint :=
  match segs with
  | [] => None
  | (a, b) :: segs' =>
      let L := segment_length a b in
      if (t <=? L)%float then
        let frac := (t / L)%float in
        Some {| pt_lat := (fst a + (fst b - fst a) * frac)%float;
                pt_lng := (snd a + (snd b - snd a) * frac)%float;
                pt_heading := segment_heading a b |}
      else polyline_walk segs' (t - L)%float
  end.

(** [sampleAlongPolyline(poly, r)], for a polyline of two points or more
    (those of [highways] have three or more). *)
Definition sampleAlongPolyline (poly : list (number * number)) : Gen PolyPoint :=
  let segs := segments poly in
  let total :=
    foldl (λ s ab, (s + segment_length ab.1 ab.2)%float) 0%float segs in
  let* u := r in
  let t := (u * total)%float in
  match polyline_walk segs t with
  | Some p => ret p
  | None =>
      let n := length poly in
      let last := nth (n - 1) poly (0, 0)%float in
      let prev := nth (n - 2) poly (0, 0)%float in
      ret {| pt_lat := fst last; pt_lng := snd last;
             pt_heading := segment_heading prev last |}
  end.

(** [highways[Math.floor(r() * highways.length)]]. *)
Definition pickHighway : Gen (list (number * number)) :=
  let* hIdx := floor_r_times (Z.of_nat (length highways)) in
  ret (nth (Z.to_nat hIdx) highways []).

(** The body of the [map] callback of [generateInitialCells] up to the
    grid lookup: the coordinates of sample [i]. *)
Definition sampleLocation : Gen (number * number) :=
  let* choice := r in
  if (choice <? 0.50)%float then
    let* city := pickCity in
    let* lat := normal (city_lat city) (sigma city) in
    let* lng := normal (city_lng city) (sigma city * 2)%float in
    ret (lat, lng)
  else if (choice <? 0.75)%float then
    let* city := pickCity in
    let* lat := normal (city_lat city) (sigma city * 5)%float in
    let* lng := normal (city_lng city) (sigma city * 2 * 5)%float in
    ret (lat, lng)
  else if (choice <? 0.80)%float then
    let* poly := pickHighway in
    let* base := sampleAlongPolyline poly in
    let* lat := normal (pt_lat base) 0.01%float in
    let* lng := normal (pt_lng base) 0.01%float in
    ret (lat, lng)
  else if (choice <? 0.92)%float then
    let* poly := pickHighway in
    let* base := sampleAlongPolyline poly in
    let* lat := normal (pt_lat base) 0.05%float in
    let* lng := normal (pt_lng base) 0.05%float in
    ret (lat, lng)
  else
    let* city := pickCity in
    let* lat := normal (city_lat city) (sigma city * 10)%float in
    let* lng := normal (city_lng city) (sigma city * 2 * 10)%float in
    ret (lat, lng).

(** [Simulation.#BOUNDS.minLat] and [Simulation.#BOUNDS.maxLat]. *)
Definition BOUNDS_minLat : number := 48.55%float.
Definition BOUNDS_maxLat : number := 51.06%float.

(** [#generateEnvironmentForLocation(lat, lng, timestampMs, rngSeed)], on
    the state [#rngState]. *)
Definition generateEnvironmentForLocation
    (lat lng : number) (timestampMs rngSeed : Z) : Gen Cell.Environment :=
  let doy := of_Z (dayOfYear timestampMs) in
  let latFactor := ((lat - BOUNDS_minLat) / (BOUNDS_maxLat - BOUNDS_minLat))%float in
  let seasonal := (Math_sin (2 * Math_PI * (doy / 365)) * 12)%float in
  let baseline := (6 - latFactor * 3)%float in
  let* u := randUniform rngSeed in
  let noise := ((u - 0.5) * 4)%float in
  let temperature := (Math_round ((baseline + seasonal + noise) * 10) / 10)%float in
  let localHour := (Date.getUTCHours timestampMs + 1) mod 24 in
  let isNight := (localHour <? 6) || (21 <=? localHour) in
  let rainChanceBase := (0.15 + 0.1 * Math_max 0 (seasonal / 12))%float in
  let* rainRoll := randUniform (rngSeed + 1) in
  let rainIntensity :=
    if (rainRoll <? rainChanceBase * 0.7)%float then RainIntensity.LOW
    else if (rainRoll <? rainChanceBase * 0.9)%float then RainIntensity.MEDIUM
    else if (rainRoll <? rainChanceBase * 1.0)%float then RainIntensity.HIGH
    else RainIntensity.NONE in
  let roadCondition :=
    match rainIntensity with
    | RainIntensity.MEDIUM | RainIntensity.HIGH =>
        let c := if (temperature <=? 0)%float
                 then RoadCondition.SLIPPERY else RoadCondition.WET in
        let c := if (temperature <=? -5)%float
                 then RoadCondition.SLIPPERY_ICE else c in
        match rainIntensity with
        | RainIntensity.HIGH =>
            if (0 <? temperature)%float then RoadCondition.SLIPPERY_WET else c
        | _ => c
        end
    | _ =>
        if (temperature <=? -8)%float
        then RoadCondition.SLIPPERY_ICE else RoadCondition.DRY
    end in
  let* fog1 :=
    if isNight && (temperature <? 6)%float then
      let* u2 := randUniform (rngSeed + 2) in ret (u2 <? 0.08)%float
    else ret false in
  let* fog :=
    if fog1 then ret true
    else let* u3 := randUniform (rngSeed + 3) in ret (u3 <? 0.01)%float in
  let* u4 := randUniform (rngSeed + 4) in
  let crossWind := (u4 <? 0.05)%float in
  ret {| Cell.temperature := temperature;
         Cell.is_night := isNight;
         Cell.conditions :=
           {| Cell.rain_intensity := rainIntensity;
              Cell.road_condition := roadCondition;
              Cell.fog := fog;
              Cell.cross_wind := crossWind |} |}.

End Sampler.

(* ===================================================================== *)
(** ** The hotspot generator *)
(* ===================================================================== *)

(** [x[k]++] on a histogram object: an entry that is missing reads as
    [undefined], whose successor is [NaN]. *)
Definition increment `{Countable K} (k : K) (m : gmap K Count) : gmap K Count :=
  <[k := match m !! k with Some (Int n) => Int (n + 1) | _ => NaN end]> m.

(** [x[k] = (x[k] ?? 0) + 1]. *)
Definition increment_or_init `{Countable K} (k : K) (m : gmap K Count)
    : gmap K Count :=
  <[k := match m !! k with
         | None => Int 1
         | Some (Int n) => Int (n + 1)
         | Some NaN => NaN
         end]> m.

(** [`${String(hour).padStart(2, "0")}:${String(minute).padStart(2, "0")}`]. *)
Definition timeStr (hour minute : Z) : string :=
  JSString.padStart 2 "0"%char (JSString.String_of_int hour) +:+ ":" +:+
  JSString.padStart 2 "0"%char (JSString.String_of_int minute).

Definition DAYS : list string := ["Mo"; "Tu"; "We"; "Th"; "Fr"; "Sa"; "Su"].

(** [DAYS[dayIdx]]; an index out of range reads [undefined], which as a
    property key is ["undefined"]. *)
Definition dayAt (dayIdx : Z) : string := nth (Z.to_nat dayIdx) DAYS "undefined".

Definition by_day_init : gmap string Count :=
  list_to_map ((λ d, (d, Int 0)) <$> DAYS).

(** The first loop of [#generateHotspotStatistics]: one zero entry for each
    half hour [i] of the day. *)
Definition by_time_init : gmap string Count :=
  foldl (λ m i, <[timeStr (Z.of_nat i / 2) (Z.of_nat i mod 2 * 30) := Int 0]> m)
        ∅ (seq 0 48).

(** One round of the [while] loop of [#generateHotspotStatistics]. *)
Definition assignOccurrence (time_impact : Z) (d : RiskHotspot.Distribution)
    : Gen RiskHotspot.Distribution :=
  let* w := floor_r_times 52 in
  let week := 1 + w in
  let by_week := increment_or_init week (RiskHotspot.by_week d) in
  let* dayRoll := r in
  let* dayIdx :=
    if (dayRoll <? 0.7)%float then floor_r_times 5
    else (let* k := floor_r_times 2 in ret (5 + k)) in
  let day := dayAt dayIdx in
  let by_day := increment day (RiskHotspot.by_day d) in
  let* timeRoll := r in
  let* hour :=
    if (3 <=? time_impact) && (timeRoll <? 0.6)%float then
      let* coin := r in
      if (coin <? 0.5)%float
      then (let* k := floor_r_times 2 in ret (7 + k))
      else (let* k := floor_r_times 3 in ret (16 + k))
    else if (4 <=? time_impact) && (timeRoll <? 0.8)%float then
      let* k := floor_r_times 6 in
      let hour := 22 + k in
      ret (if 24 <=? hour then hour - 24 else hour)
    else floor_r_times 24 in
  let* coin := r in
  let minute := if (coin <? 0.5)%float then 0 else 30 in
  let by_time := increment (timeStr hour minute) (RiskHotspot.by_time d) in
  ret {| RiskHotspot.by_week := by_week;
         RiskHotspot.by_day := by_day;
         RiskHotspot.by_time := by_time |}.

(** [while (remaining > 0) { ...; remaining-- }]. *)
Fixpoint assignOccurrences (remaining : nat) (time_impact : Z)
    (d : RiskHotspot.Distribution) : Gen RiskHotspot.Distribution :=
  match remaining with
  | O => ret d
  | S n =>
      let* d' := assignOccurrence time_impact d in
      assignOccurrences n time_impact d'
  end.

(** [#generateHotspotStatistics(r, total_count, time_impact)] for an integer
    [total_count]: the loop runs [total_count] times (not at all when it is
    negative). *)
Definition generateHotspotStatistics (total_count time_impact : Z)
    : Gen RiskHotspot.Statistics :=
  let* d :=
    assignOccurrences (Z.to_nat total_count) time_impact
      {| RiskHotspot.by_week := ∅;
         RiskHotspot.by_day := by_day_init;
         RiskHotspot.by_time := by_time_init |} in
  ret {| RiskHotspot.distribution := d |}.

Definition RISK_TYPES : list string :=
  ["BDV"; "VA"; "GW"; "HL"; "SR"; "FOG"; "HR"; "EB"; "CW"; "PH"; "BUM"].

Definition presence (n : number) : RiskHotspot.Presence :=
  {| RiskHotspot.is_present := (0 <? n)%float; RiskHotspot.count := n |}.

Section Hotspots.
Variable Math_atan2 : number → number → number.
Variable Number_toString : number → string.
Variable Date_toISOString : number → string.

Let toFixed := JSString.Number_toFixed Number_toString.

(** The key under which a hotspot is stored in [#hotspots]. *)
Definition hotspotKey (h : RiskHotspot.t) : string :=
  toFixed (RiskHotspot.latitude (RiskHotspot.location h)) 5 +:+ "_" +:+
  toFixed (RiskHotspot.longitude (RiskHotspot.location h)) 5.

(** The body of the loop of [generateInitialHotspots] up to the insertion:
    the hotspot of round [i], for the clock reading [now] and the
    identifier [uuid] drawn in that round. *)
Definition generateHotspot (now : Z) (uuid : string) : Gen RiskHotspot.t :=
  let* poly := pickHighway in
  let* base := sampleAlongPolyline Math_atan2 poly in
  let* u := r in
  let lat := (pt_lat base + (u - 0.5) * 0.001)%float in
  let* u := r in
  let lng := (pt_lng base + (u - 0.5) * 0.001)%float in
  let* c := floor_r_cubed_times_500 in
  let total_count := 5 + c in
  let* u := r in
  let lastTs := (of_Z now - Math_floor (u * 30 * 24 * 3600 * 1000))%float in
  let* u := r in
  let firstTs :=
    (lastTs - Math_floor ((30 + u * 300) * 24 * 3600 * 1000))%float in
  let* k := floor_r_times 5 in
  let weather_impact := 1 + k in
  let* k := floor_r_times 5 in
  let time_of_day_impact := 1 + k in
  let* u := r in
  let dry_road_count :=
    Math_floor (of_Z total_count
                * (if (weather_impact <=? 2)%Z then 0.8 else 0.3) * u)%float in
  let* u := r in
  let wet_road_count :=
    Math_floor (of_Z total_count
                * (if (3 <=? weather_impact)%Z then 0.7 else 0.2) * u)%float in
  let* u := r in
  let rain_count :=
    Math_floor (wet_road_count
                * (if (3 <=? weather_impact)%Z then 0.8 else 0.3) * u)%float in
  let* u := r in
  let slippery_road_count :=
    Math_floor (of_Z total_count
                * (if (4 <=? weather_impact)%Z then 0.5 else 0.1) * u)%float in
  let* u := r in
  let fog_count :=
    Math_floor (of_Z total_count
                * (if (4 <=? weather_impact)%Z then 0.3 else 0.05) * u)%float in
  let* u := r in
  let crosswind_count := Math_floor (of_Z total_count * 0.1 * u)%float in
  let* u := r in
  let location :=
    {| RiskHotspot.latitude := JSString.parseFloat (toFixed lat 6);
       RiskHotspot.longitude := JSString.parseFloat (toFixed lng 6);
       RiskHotspot.std_dev := (5 + u * 25)%float |} in
  let* ty := floor_r_times (Z.of_nat (length RISK_TYPES)) in
  let* imp := floor_r_times 5 in
  let* conf := floor_r_times 50 in
  let* res := floor_r_times 80 in
  let metadata :=
    {| RiskHotspot.id := uuid;
       RiskHotspot.risk :=
         {| RiskHotspot.type := nth (Z.to_nat ty) RISK_TYPES "undefined";
            RiskHotspot.importance := 1 + imp;
            RiskHotspot.confidence := 50 + conf;
            RiskHotspot.residual_confidence := 10 + res |};
       RiskHotspot.total_count := total_count;
       RiskHotspot.weather_impact := weather_impact;
       RiskHotspot.time_of_day_impact := time_of_day_impact |} in
  let timeframe :=
    {| RiskHotspot.first := Date_toISOString firstTs;
       RiskHotspot.last := Date_toISOString lastTs |} in
  let* u := r in
  let heading_avg := Math_round (pt_heading base + (u - 0.5) * 10)%float in
  let* u := r in
  let heading_std := (2 + u * 15)%float in
  let* u := r in
  let air_avg := (-5 + u * 25)%float in
  let* u := r in
  let air_std := (1 + u * 5)%float in
  let* u := r in
  let sun_avg := (u * 360)%float in
  let* u := r in
  let sun_std := (10 + u * 40)%float in
  let* statistics := generateHotspotStatistics total_count time_of_day_impact in
  ret {| RiskHotspot.location := location;
         RiskHotspot.metadata := metadata;
         RiskHotspot.timeframe := timeframe;
         RiskHotspot.vehicle :=
           {| RiskHotspot.heading :=
                {| RiskHotspot.avg := heading_avg;
                   RiskHotspot.avg_std_dev := heading_std |} |};
         RiskHotspot.environment :=
           {| RiskHotspot.air_temperature :=
                {| RiskHotspot.avg := air_avg; RiskHotspot.avg_std_dev := air_std |};
              RiskHotspot.sun_position :=
                {| RiskHotspot.avg := sun_avg; RiskHotspot.avg_std_dev := sun_std |};
              RiskHotspot.conditions :=
                {| RiskHotspot.dry_road := presence dry_road_count;
                   RiskHotspot.wet_road := presence wet_road_count;
                   RiskHotspot.rain := presence rain_count;
                   RiskHotspot.slippery_road := presence slippery_road_count;
                   RiskHotspot.fog := presence fog_count;
                   RiskHotspot.crosswind := presence crosswind_count |} |};
         RiskHotspot.statistics := statistics |}.

(** The hotspot of round [i]: a fresh generator seeded with
    [i ^ this.#seed ^ 0xABCDEF]. *)
Definition hotspotAt (sd : Z) (nowAt : nat → Z) (uuidAt : nat → string)
    (i : nat) : RiskHotspot.t :=
  fst (generateHotspot (nowAt i) (uuidAt i)
         (seededRand (xor (xor (Z.of_nat i) sd) 0xABCDEF))).

(** The rounds [i = 0, ..., count - 1] in order, each storing its hotspot
    with [this.#hotspots.set(id, hotspot)]. *)
Definition storeHotspots (sd : Z) (nowAt : nat → Z) (uuidAt : nat → string)
    (count : nat) (m : gmap string RiskHotspot.t) : gmap string RiskHotspot.t :=
  foldl (λ m i, let h := hotspotAt sd nowAt uuidAt i in <[hotspotKey h := h]> m)
        m (seq 0 count).

(** [generateInitialHotspots(forceCount)]; [nowAt i] and [uuidAt i] are
    what [Date.now()] and [crypto.randomUUID()] return in round [i]. *)
Definition generateInitialHotspots (sim : Simulation) (forceCount : option nat)
    (nowAt : nat → Z) (uuidAt : nat → string) : Simulation :=
  let count := default (targetHotspotCount sim) forceCount in
  {| targetCellCount := targetCellCount sim;
     targetHotspotCount := targetHotspotCount sim;
     snapshotIntervalMs := snapshotIntervalMs sim;
     resolution := resolution sim;
     seed := seed sim;
     rngState := rngState sim;
     rawAgg := rawAgg sim;
     snapshot := snapshot sim;
     hotspots := storeHotspots (seed sim) nowAt uuidAt count ∅;
     stats := stats sim;
     cellLocations := cellLocations sim |}.

End Hotspots.

(* ===================================================================== *)
(** ** Initial cells, ingestion, flush and the query layer *)
(* ===================================================================== *)

(** The result of a method that may throw. *)
Inductive outcome (A : Type) :=
  | Returned (a : A)
  | Thrown (message : string).
Arguments Returned {A} a.
Arguments Thrown {A} message.

Definition bbox_error : string :=
  "Invalid bounding box provided. Must be an array of [minLng, minLat, maxLng, maxLat].".

(** Assignments to one private field of the object. *)
Definition set_rngState (s : Z) (sim : Simulation) : Simulation :=
  {| targetCellCount := targetCellCount sim;
     targetHotspotCount := targetHotspotCount sim;
     snapshotIntervalMs := snapshotIntervalMs sim;
     resolution := resolution sim;
     seed := seed sim;
     rngState := s;
     rawAgg := rawAgg sim;
     snapshot := snapshot sim;
     hotspots := hotspots sim;
     stats := stats sim;
     cellLocations := cellLocations sim |}.

Definition set_rawAgg (m : gmap string RawAgg) (sim : Simulation) : Simulation :=
  {| targetCellCount := targetCellCount sim;
     targetHotspotCount := targetHotspotCount sim;
     snapshotIntervalMs := snapshotIntervalMs sim;
     resolution := resolution sim;
     seed := seed sim;
     rngState := rngState sim;
     rawAgg := m;
     snapshot := snapshot sim;
     hotspots := hotspots sim;
     stats := stats sim;
     cellLocations := cellLocations sim |}.

Definition set_snapshot (m : gmap string Cell.t) (sim : Simulation) : Simulation :=
  {| targetCellCount := targetCellCount sim;
     targetHotspotCount := targetHotspotCount sim;
     snapshotIntervalMs := snapshotIntervalMs sim;
     resolution := resolution sim;
     seed := seed sim;
     rngState := rngState sim;
     rawAgg := rawAgg sim;
     snapshot := m;
     hotspots := hotspots sim;
     stats := stats sim;
     cellLocations := cellLocations sim |}.

Definition set_stats (m : gmap string CellStatistics.t) (sim : Simulation)
    : Simulation :=
  {| targetCellCount := targetCellCount sim;
     targetHotspotCount := targetHotspotCount sim;
     snapshotIntervalMs := snapshotIntervalMs sim;
     resolution := resolution sim;
     seed := seed sim;
     rngState := rngState sim;
     rawAgg := rawAgg sim;
     snapshot := snapshot sim;
     hotspots := hotspots sim;
     stats := m;
     cellLocations := cellLocations sim |}.

Definition set_cellLocations (l : list CellLocation) (sim : Simulation)
    : Simulation :=
  {| targetCellCount := targetCellCount sim;
     targetHotspotCount := targetHotspotCount sim;
     snapshotIntervalMs := snapshotIntervalMs sim;
     resolution := resolution sim;
     seed := seed sim;
     rngState := rngState sim;
     rawAgg := rawAgg sim;
     snapshot := snapshot sim;
     hotspots := hotspots sim;
     stats := stats sim;
     cellLocations := l |}.

Definition vote (b : bool) : number := if b then 1%float else 0%float.

(** The thresholds of the flush on the mean rain score and on the mean road
    score. *)
Definition classifyRain (averageRainScore : number) : RainIntensity.t :=
  if (3.0 <=? averageRainScore)%float then RainIntensity.HIGH
  else if (1.2 <=? averageRainScore)%float then RainIntensity.MEDIUM
  else if (0.6 <=? averageRainScore)%float then RainIntensity.LOW
  else RainIntensity.NONE.

Definition classifyRoad (avgRoad : number) : RoadCondition.t :=
  if (2.5 <=? avgRoad)%float then RoadCondition.SLIPPERY_ICE
  else if (1.8 <=? avgRoad)%float then RoadCondition.SLIPPERY
  else if (0.8 <=? avgRoad)%float then RoadCondition.WET
  else RoadCondition.DRY.

(** [pushRawEvent(h3Index, event)]; [now] is what [Date.now()] returns. *)
Definition emptyBucket : RawAgg :=
  {| sumTemp := 0; count := 0; lastTs := 0; sumConfidence := 0; sumCounts := 0;
     fogVotes := 0; crossWindVotes := 0; rainScore := 0; roadScore := 0 |}%float.

Definition pushRawEvent (sim : Simulation) (h3Index : string) (event : RawEvent)
    (now : Z) : Simulation :=
  let ts := default (of_Z now) (ev_timestamp event) in
  let bucket := default emptyBucket (rawAgg sim !! h3Index) in
  let bucket' :=
    {| sumTemp := (sumTemp bucket + ev_temperature event)%float;
       count := (count bucket + 1)%float;
       lastTs := Math_max (lastTs bucket) ts;
       sumConfidence :=
         (sumConfidence bucket + default 80%float (ev_confidence event))%float;
       sumCounts := (sumCounts bucket + default 1%float (ev_count event))%float;
       fogVotes := (fogVotes bucket + vote (default false (ev_fog event)))%float;
       crossWindVotes :=
         (crossWindVotes bucket + vote (default false (ev_cross_wind event)))%float;
       rainScore :=
         (rainScore bucket
          + rainIntensityToScore
              (default RainIntensity.NONE (ev_rain_intensity event)))%float;
       roadScore :=
         (roadScore bucket
          + roadConditionToScore
              (default RoadCondition.DRY (ev_road_condition event)))%float |} in
  set_rawAgg (<[h3Index := bucket']> (rawAgg sim)) sim.

(** [new Date(t)] holds the time value [TimeClip(t)]: a number when [t]
    is finite with [|t| <= 8.64e15], and [NaN] otherwise.  On a date whose
    time value is [NaN], [toISOString()] throws a [RangeError]. *)
Definition Date_valid (t : number) : bool :=
  (PrimFloat.abs t <=? 8.64e15)%float.

Definition invalid_time_error : string := "Invalid time value".

(** Every entry of the accumulator gives [new Date(agg.lastTs || now)] a
    time value; [now] is the clock reading of the flush. *)
Definition flushable (sim : Simulation) (now : Z) : Prop :=
  map_Forall (λ _ agg, Date_valid (or_else (lastTs agg) (of_Z now)) = true)
             (rawAgg sim).

#[global] Instance flushable_dec (sim : Simulation) (now : Z)
    : Decision (flushable sim now).
Proof. unfold flushable. apply _. Defined.

Section Engine.
Variable Math_log Math_cos Math_sin : number → number.
Variable Math_atan2 : number → number → number.
Variable Date_toISOString : number → string.
Variable h3_latLngToCell : number → number → Z → string.
Variable h3_cellToLatLng : string → number * number.

(** [#h3IndexFromLatLng(lat, lng, res)]. *)
Definition h3IndexFromLatLng (lat lng : number) (res : Z) : string :=
  h3_latLngToCell lat lng res.

(** The callback of the [map] in [generateInitialCells]: location [i]. *)
Definition cellLocationAt (sd res : Z) (i : nat) : CellLocation :=
  let '(la, ln) :=
    fst (sampleLocation Math_log Math_cos Math_atan2
           (seededRand (xor (Z.of_nat i) sd))) in
  {| lat := la; lng := ln; h3 := h3IndexFromLatLng la ln res |}.

(** One round of the second loop of [generateInitialCells]. *)
Definition seedCell (now : Z) (i : nat) (loc : CellLocation)
    (sim : Simulation) : Simulation :=
  let '(env, s1) :=
    generateEnvironmentForLocation Math_sin (lat loc) (lng loc) now
      (Z.of_nat i) (rngState sim) in
  let '(u, s2) := randUniform (Z.of_nat i) s1 in
  let confidence := Math_floor (70 + u * 30)%float in
  let '(u, s3) := randUniform (Z.of_nat i + 1) s2 in
  let total_count := Math_max 1 (Math_floor (1 + u * 200)%float) in
  let cell :=
    {| Cell.location := {| Cell.h3_index := h3 loc |};
       Cell.timeframe := {| Cell.last := Date_toISOString (of_Z now) |};
       Cell.metadata :=
         {| Cell.confidence := confidence; Cell.total_count := total_count |};
       Cell.environment := env;
       Cell.statistics := None |} in
  let agg :=
    {| sumTemp := Cell.temperature env;
       count := 1;
       lastTs := of_Z now;
       sumConfidence := confidence;
       sumCounts := total_count;
       fogVotes := vote (Cell.fog (Cell.conditions env));
       crossWindVotes := vote (Cell.cross_wind (Cell.conditions env));
       rainScore :=
         rainIntensityToScore (Cell.rain_intensity (Cell.conditions env));
       roadScore :=
         roadConditionToScore (Cell.road_condition (Cell.conditions env)) |} in
  set_rngState s3
    (set_rawAgg (<[h3 loc := agg]> (rawAgg sim))
       (set_snapshot (<[h3 loc := cell]> (snapshot sim)) sim)).

Fixpoint seedCells (now : Z) (i : nat) (locs : list CellLocation)
    (sim : Simulation) : Simulation :=
  match locs with
  | [] => sim
  | loc :: rest => seedCells now (S i) rest (seedCell now i loc sim)
  end.

(** [generateInitialCells(forceCount)]; [now] is what [Date.now()]
    returns. *)
Definition generateInitialCells (sim : Simulation) (forceCount : option nat)
    (now : Z) : Simulation :=
  let count := default (targetCellCount sim) forceCount in
  let locs := cellLocationAt (seed sim) (resolution sim) <$> seq 0 count in
  seedCells now 0 locs (set_cellLocations locs sim).

(** The summary that the flush builds from one accumulator entry whose
    [new Date(agg.lastTs || now)] has a time value; [hereNow] is the time
    value of the [new Date()] of that entry. *)
Definition summarise (old : gmap string Cell.t) (now : Z) (hereNow : Z)
    (h3index : string) (agg : RawAgg) : Cell.t :=
  let n := Math_max 1 (count agg) in
  let avgTemp := (sumTemp agg / n)%float in
  let confidence :=
    Math_max 0 (Math_min 100 (Math_round (sumConfidence agg / n)%float)) in
  let total_count := Math_max 1 (Math_round (sumCounts agg)) in
  let averageRainScore := (rainScore agg / n)%float in
  let avgRoad := (roadScore agg / n)%float in
  let fog := (0.5 <=? fogVotes agg / n)%float in
  let crossWind := (0.2 <=? crossWindVotes agg / n)%float in
  {| Cell.location := {| Cell.h3_index := h3index |};
     Cell.timeframe :=
       {| Cell.last := Date_toISOString (or_else (lastTs agg) (of_Z now)) |};
     Cell.metadata :=
       {| Cell.confidence := confidence; Cell.total_count := total_count |};
     Cell.environment :=
       {| Cell.temperature := (Math_round (avgTemp * 10) / 10)%float;
          Cell.is_night :=
            match old !! h3index with
            | Some c => Cell.is_night (Cell.environment c)
            | None => (Date.getUTCHours hereNow + 1) mod 24 <? 6
            end;
          Cell.conditions :=
            {| Cell.rain_intensity := classifyRain averageRainScore;
               Cell.road_condition := classifyRoad avgRoad;
               Cell.fog := fog;
               Cell.cross_wind := crossWind |} |};
     Cell.statistics := None |}.

(** [#applyRawAggToSnapshotBatch()]: the flush.  [now] is what [Date.now()]
    returns, [clock k] the time value of the [new Date()] evaluated for
    the entry of cell [k].  The loop fills a local map and assigns to no
    field of the object: when [toISOString()] throws for one entry the
    flush ends there, before the two assignments that follow the loop, and
    the object is as it was. *)
Definition applyRawAggToSnapshotBatch (sim : Simulation) (now : Z)
    (clock : string → Z) : outcome Simulation :=
  if decide (flushable sim now) then
    let newSnapshot :=
      map_imap (λ k agg, Some (summarise (snapshot sim) now (clock k) k agg))
               (rawAgg sim) in
    Returned (set_rawAgg ∅ (set_snapshot newSnapshot sim))
  else Thrown invalid_time_error.

(** [#generateInitialStatisticsForCell(cell)], on the state [#rngState]. *)
Definition generateInitialStatisticsForCell (cell : Cell.t) (now : Z)
    : Gen CellStatistics.t :=
  let t := Cell.temperature (Cell.environment cell) in
  let* u := randUniform 0 in
  let lowestVal := (Math_round ((t - (5 + u * 15)) * 10) / 10)%float in
  let* u := randUniform 0 in
  let highestVal := (Math_round ((t + (10 + u * 15)) * 10) / 10)%float in
  let* u := randUniform 0 in
  let lowestTs := (of_Z now - Math_floor (u * 365) * 24 * 3600 * 1000)%float in
  let* u := randUniform 0 in
  let highestTs := (of_Z now - Math_floor (u * 200) * 24 * 3600 * 1000)%float in
  let baseDays :=
    Math_max 1 (Math_round (Cell.total_count (Cell.metadata cell) / 10)%float) in
  let* u := randUniform 0 in
  let rainLow := Math_round (baseDays * Math_min 1 (u * 0.6))%float in
  let* u := randUniform 0 in
  let rainMed := Math_round (baseDays * Math_min 1 (u * 0.3))%float in
  let* u := randUniform 0 in
  let rainHigh := Math_round (baseDays * Math_min 1 (u * 0.05))%float in
  let* u := randUniform 0 in
  let slippery :=
    Math_round (baseDays * (if t <=? 0 then 0.4 else 0.05) * u)%float in
  let* u := randUniform 0 in
  let fog :=
    Math_round
      (baseDays
       * (if Cell.fog (Cell.conditions (Cell.environment cell))
          then 0.6 else 0.05) * u)%float in
  let* u := randUniform 0 in
  let crossWind := Math_round (baseDays * 0.1 * u)%float in
  ret {| CellStatistics.temperature :=
           {| CellStatistics.lowest :=
                Some {| CellStatistics.value := lowestVal;
                        CellStatistics.timestamp := Date_toISOString lowestTs |};
              CellStatistics.highest :=
                Some {| CellStatistics.value := highestVal;
                        CellStatistics.timestamp := Date_toISOString highestTs |} |};
         CellStatistics.day_counts :=
           {| CellStatistics.rain :=
                {| CellStatistics.low := rainLow;
                   CellStatistics.medium := rainMed;
                   CellStatistics.high := rainHigh |};
              CellStatistics.slippery_road := slippery;
              CellStatistics.fog := fog;
              CellStatistics.cross_wind := crossWind |} |}.

Definition with_statistics (cell : Cell.t) (s : option CellStatistics.t)
    : Cell.t :=
  {| Cell.location := Cell.location cell;
     Cell.timeframe := Cell.timeframe cell;
     Cell.metadata := Cell.metadata cell;
     Cell.environment := Cell.environment cell;
     Cell.statistics := s |}.

(** [getCell(h3Index, opts)]: the value returned ([None] is [undefined])
    and the state afterwards.  [opts] is absent, or an object whose
    [includeStatistics] is absent or a boolean. *)
Definition getCell (sim : Simulation) (h3Index : string)
    (opts : option (option bool)) (now : Z) : option Cell.t * Simulation :=
  match snapshot sim !! h3Index with
  | None => (None, sim)
  | Some cell =>
      if negb (default false (default None opts)) then (Some cell, sim)
      else
        match stats sim !! h3Index with
        | Some st => (Some (with_statistics cell (Some st)), sim)
        | None =>
            let '(st, s') :=
              generateInitialStatisticsForCell cell now (rngState sim) in
            (Some (with_statistics cell (Some st)),
             set_stats (<[h3Index := st]> (stats sim)) (set_rngState s' sim))
        end
  end.

(** The containment test of both bounding-box queries. *)
Definition inBbox (minLng minLat maxLng maxLat la ln : number) : bool :=
  (minLat <=? la)%float && (la <=? maxLat)%float
  && (minLng <=? ln)%float && (ln <=? maxLng)%float.

(** [getSnapshotInBbox(bbox)]. *)
Definition getSnapshotInBbox (sim : Simulation) (bbox : BoundingBox)
    : outcome (gmap string Cell.t) :=
  match bbox with
  | Some [minLng; minLat; maxLng; maxLat] =>
      Returned
        (filter (λ kv, let '(la, ln) := h3_cellToLatLng kv.1 in
                       inBbox minLng minLat maxLng maxLat la ln = true)
                (snapshot sim))
  | _ => Thrown bbox_error
  end.

(** [getHotspotsInBbox(bbox)]. *)
Definition getHotspotsInBbox (sim : Simulation) (bbox : BoundingBox)
    : outcome (gmap string RiskHotspot.t) :=
  match bbox with
  | Some [minLng; minLat; maxLng; maxLat] =>
      Returned
        (filter (λ kv, inBbox minLng minLat maxLng maxLat
                         (RiskHotspot.latitude (RiskHotspot.location kv.2))
                         (RiskHotspot.longitude (RiskHotspot.location kv.2))
                       = true)
                (hotspots sim))
  | _ => Thrown bbox_error
  end.

(** [getSnapshot()] and [getHotspots()]: copies of the two stores. *)
Definition getSnapshot (sim : Simulation) : gmap string Cell.t := snapshot sim.
Definition getHotspots (sim : Simulation) : gmap string RiskHotspot.t :=
  hotspots sim.

End Engine.

(* ===================================================================== *)
(** ** Statistics updates, the event producer and the routes *)
(* ===================================================================== *)

(** [#generateInitialStatisticsPlaceholder()]. *)
Definition generateInitialStatisticsPlaceholder : CellStatistics.t :=
  {| CellStatistics.temperature :=
       {| CellStatistics.lowest := None; CellStatistics.highest := None |};
     CellStatistics.day_counts :=
       {| CellStatistics.rain :=
            {| CellStatistics.low := 0;
               CellStatistics.medium := 0;
               CellStatistics.high := 0 |};
          CellStatistics.slippery_road := 0;
          CellStatistics.fog := 0;
          CellStatistics.cross_wind := 0 |} |}%float.

(** The [update] argument of [#mergeStatistics] as the method reads it:
    every object on the way to a field may be missing ([?.]), and so may
    the field; [null] and [undefined] are both [None].  The declared type
    [Partial<CellStatistics>] is the case where only [temperature] and
    [day_counts] may be missing. *)
Module StatisticsUpdate.
Record Temperature :=
  { lowest : option CellStatistics.Extreme;
    highest : option CellStatistics.Extreme }.
Record Rain := { low : option number; medium : option number; high : option number }.
Record DayCounts :=
  { rain : option Rain;
    slippery_road : option number;
    fog : option number;
    cross_wind : option number }.
Record t := { temperature : option Temperature; day_counts : option DayCounts }.
End StatisticsUpdate.

(** [a ?? b], for a field that is a number and for one that may be [null]. *)
Definition nullish {A} (a : option A) (b : A) : A :=
  match a with Some x => x | None => b end.

Definition nullish_or_null {A} (a b : option A) : option A :=
  match a with Some x => Some x | None => b end.

(** [#mergeStatistics(prev, update)]. *)
Definition mergeStatistics (prev : CellStatistics.t)
    (update : StatisticsUpdate.t) : CellStatistics.t :=
  let temperature := StatisticsUpdate.temperature update in
  let day_counts := StatisticsUpdate.day_counts update in
  let rain := day_counts ≫= StatisticsUpdate.rain in
  let prev_counts := CellStatistics.day_counts prev in
  {| CellStatistics.temperature :=
       {| CellStatistics.lowest :=
            nullish_or_null (temperature ≫= StatisticsUpdate.lowest)
              (CellStatistics.lowest (CellStatistics.temperature prev));
          CellStatistics.highest :=
            nullish_or_null (temperature ≫= StatisticsUpdate.highest)
              (CellStatistics.highest (CellStatistics.temperature prev)) |};
     CellStatistics.day_counts :=
       {| CellStatistics.rain :=
            {| CellStatistics.low :=
                 nullish (rain ≫= StatisticsUpdate.low)
                   (CellStatistics.low (CellStatistics.rain prev_counts));
               CellStatistics.medium :=
                 nullish (rain ≫= StatisticsUpdate.medium)
                   (CellStatistics.medium (CellStatistics.rain prev_counts));
               CellStatistics.high :=
                 nullish (rain ≫= StatisticsUpdate.high)
                   (CellStatistics.high (CellStatistics.rain prev_counts)) |};
          CellStatistics.slippery_road :=
            nullish (day_counts ≫= StatisticsUpdate.slippery_road)
              (CellStatistics.slippery_road prev_counts);
          CellStatistics.fog :=
            nullish (day_counts ≫= StatisticsUpdate.fog)
              (CellStatistics.fog prev_counts);
          CellStatistics.cross_wind :=
            nullish (day_counts ≫= StatisticsUpdate.cross_wind)
              (CellStatistics.cross_wind prev_counts) |} |}.

(** [addOrMergeStatistics(h3Index, stats)]. *)
Definition addOrMergeStatistics (sim : Simulation) (h3Index : string)
    (update : StatisticsUpdate.t) : Simulation :=
  let prev :=
    nullish (stats sim !! h3Index) generateInitialStatisticsPlaceholder in
  set_stats (<[h3Index := mergeStatistics prev update]> (stats sim)) sim.

(** [xs[i]] for a number [i]: the element at [i] when [i] is an integer
    from 0 to [xs.length - 1], and [undefined] otherwise. *)
Definition array_at {A} (xs : list A) (i : number) : option A :=
  match to_scaled i with
  | Some (m, e) =>
      let n := floor_scaled m e in
      if (0 <=? m) && ((0 <=? e) || (m mod 2 ^ (- e) =? 0))
         && (n <? Z.of_nat (length xs))
      then xs !! Z.to_nat n
      else None
  | None => None
  end.

(** The [TypeError] of reading [loc.h3] when [loc] is [undefined]. *)
Definition undefined_h3_error : string :=
  "Cannot read properties of undefined (reading 'h3')".

(** The event that [#produceRandomRawEvent] builds for the location at
    [idx], on the state [#rngState]; [base] is the snapshot entry of the
    location's cell, [now] what [Date.now()] returned. *)
Definition randomRawEvent (idx : number) (base : option Cell.t) (now : Z)
    : Gen RawEvent :=
  let seed := xor (number_ToUint32 idx) (Z.rem now 100000) in
  let* temp :=
    match base with
    | Some cell => ret (Cell.temperature (Cell.environment cell))
    | None => let* u := randUniform seed in ret (5 + u * 15)%float
    end in
  let* u := randUniform (seed + 1) in
  let temp := (temp + (u - 0.5) * 0.6)%float in
  let* u := randUniform (seed + 2) in
  let fog := (u <? 0.01)%float in
  let* u := randUniform (seed + 3) in
  let crossWind := (u <? 0.02)%float in
  let* u := randUniform (seed + 4) in
  let heavy := (u <? 0.002)%float in
  let* rainRoll := randUniform (seed + 5) in
  let rain :=
    if heavy
    then (if (rainRoll <? 0.7)%float
          then RainIntensity.HIGH else RainIntensity.MEDIUM)
    else (if (rainRoll <? 0.02)%float
          then RainIntensity.LOW else RainIntensity.NONE) in
  let* u := randUniform (seed + 6) in
  ret {| ev_temperature := (Math_round (temp * 10) / 10)%float;
         ev_confidence := Some (Math_floor (60 + u * 40)%float);
         ev_count := Some 1%float;
         ev_fog := Some fog;
         ev_cross_wind := Some crossWind;
         ev_rain_intensity := Some rain;
         ev_road_condition :=
           Some match rain with
                | RainIntensity.NONE =>
                    if (temp <=? -8)%float
                    then RoadCondition.SLIPPERY_ICE else RoadCondition.DRY
                | _ =>
                    if (temp <=? 0)%float
                    then RoadCondition.SLIPPERY else RoadCondition.WET
                end;
         ev_timestamp := Some (of_Z now) |}.

(** [#produceRandomRawEvent()]; [now] is what [Date.now()] returns. *)
Definition produceRandomRawEvent (sim : Simulation) (now : Z)
    : outcome Simulation :=
  match cellLocations sim with
  | [] => Returned sim
  | _ :: _ =>
      let '(u, s1) := randUniform 0 (rngState sim) in
      let idx :=
        Math_floor (u * of_Z (Z.of_nat (length (cellLocations sim))))%float in
      match array_at (cellLocations sim) idx with
      | None => Thrown undefined_h3_error
      | Some loc =>
          let '(event, s2) :=
            randomRawEvent idx (snapshot sim !! h3 loc) now s1 in
          Returned (pushRawEvent (set_rngState s2 sim) (h3 loc) event now)
      end
  end.

(** The two jobs that [start()] hands to [setInterval]: the batch of
    produced events and the flush. *)
Inductive Job := ProduceEvents | PublishSnapshot.

(** The two timer fields of the object, and the intervals of the object
    that are active in the runtime, each with its job and its delay in
    milliseconds. *)
Record Timers :=
  { rawTimerId : option Z;
    snapshotTimerId : option Z;
    intervals : gmap Z (Job * Z) }.

Definition no_timers : Timers :=
  {| rawTimerId := None; snapshotTimerId := None; intervals := ∅ |}.

(** A timer field as a condition: [undefined] and 0 are falsy. *)
Definition is_set (id : option Z) : bool :=
  match id with
  | Some n => negb (n =? 0)
  | None => false
  end.

(** [start()]; [id1] and [id2] are what the two calls of [setInterval]
    return. *)
Definition start (sim : Simulation) (t : Timers) (id1 id2 : Z) : Timers :=
  if is_set (rawTimerId t) then t
  else
    {| rawTimerId := Some id1;
       snapshotTimerId := Some id2;
       intervals :=
         <[id2 := (PublishSnapshot, snapshotIntervalMs sim)]>
           (<[id1 := (ProduceEvents, 200)]> (intervals t)) |}.

(** [clearInterval(id)] on the intervals of the runtime. *)
Definition clearInterval (id : option Z) (m : gmap Z (Job * Z))
    : gmap Z (Job * Z) :=
  match id with
  | Some n => delete n m
  | None => m
  end.

(** [stop()]. *)
Definition stop (t : Timers) : Timers :=
  let t :=
    if is_set (rawTimerId t)
    then {| rawTimerId := None;
            snapshotTimerId := snapshotTimerId t;
            intervals := clearInterval (rawTimerId t) (intervals t) |}
    else t in
  if is_set (snapshotTimerId t)
  then {| rawTimerId := rawTimerId t;
          snapshotTimerId := None;
          intervals := clearInterval (snapshotTimerId t) (intervals t) |}
  else t.

(** The validated query of [GET /mock/v1/road-safety/hotspots]:
    [min_confidence] is an integer from 0 to 100; [type] is absent or a
    list of codes. *)
Record HotspotsQuery :=
  { q_bbox : BoundingBox;
    q_min_confidence : Z;
    q_type : option (list string) }.

(** The callback of the [filter] in that route. *)
Definition hotspotPasses (q : HotspotsQuery) (hotspot : RiskHotspot.t) : bool :=
  let risk := RiskHotspot.risk (RiskHotspot.metadata hotspot) in
  (q_min_confidence q <? RiskHotspot.confidence risk)
  && match q_type q with
     | Some types => bool_decide (RiskHotspot.type risk ∈ types)
     | None => true
     end.

(** The body of the route: the hotspots of the response, or the error
    that is caught and sent instead.  The order of [Object.values] is not
    modelled. *)
Definition roadSafetyHotspots (sim : Simulation) (q : HotspotsQuery)
    : outcome (list RiskHotspot.t) :=
  match getHotspotsInBbox sim (q_bbox q) with
  | Returned out =>
      Returned (filter (λ h, hotspotPasses q h = true) (map_to_list out).*2)
  | Thrown e => Thrown e
  end.

Section Routes.
Variable Math_log Math_cos Math_sin : number → number.
Variable Math_atan2 : number → number → number.
Variable Number_toString : number → string.
Variable Date_toISOString : number → string.
Variable h3_latLngToCell : number → number → Z → string.
Variable h3_cellToLatLng : string → number * number.

(** [generateInitialData()]. *)
Definition generateInitialData (sim : Simulation) (now : Z)
    (nowAt : nat → Z) (uuidAt : nat → string) : Simulation :=
  generateInitialHotspots Math_atan2 Number_toString Date_toISOString
    (generateInitialCells Math_log Math_cos Math_sin Math_atan2
       Date_toISOString h3_latLngToCell sim None now)
    None nowAt uuidAt.

(** [h3_indexes.map((h3Index) => simulation.getCell(h3Index,
    {includeStatistics: true})).filter(Boolean)]; [nowAt i] is the clock
    reading of the call for the identifier at position [i]. *)
Fixpoint cellsByIds (sim : Simulation) (h3_indexes : list string)
    (nowAt : nat → Z) (i : nat) : list Cell.t * Simulation :=
  match h3_indexes with
  | [] => ([], sim)
  | h3Index :: rest =>
      let '(cell, sim1) :=
        getCell Date_toISOString sim h3Index (Some (Some true)) (nowAt i) in
      let '(cells, sim2) := cellsByIds sim1 rest nowAt (S i) in
      (match cell with Some c => c :: cells | None => cells end, sim2)
  end.

(** The two shapes of the response of [GET /mock/v1/weather/cells]. *)
Inductive CellsResponse :=
  | CellList (cells : list Cell.t)
  | CellRecord (cells : gmap string Cell.t).

Definition missing_parameters_error : string :=
  "must include either bbox or h3_indexes".

(** The body of that route for the validated query. *)
Definition weatherCells (sim : Simulation) (h3_indexes : option (list string))
    (bbox : option (list number)) (nowAt : nat → Z)
    : outcome CellsResponse * Simulation :=
  match h3_indexes with
  | Some ids =>
      let '(cells, sim') := cellsByIds sim ids nowAt 0 in
      (Returned (CellList cells), sim')
  | None =>
      match bbox with
      | Some b =>
          (match getSnapshotInBbox h3_cellToLatLng sim (Some b) with
           | Returned out => Returned (CellRecord out)
           | Thrown e => Thrown e
           end, sim)
      | None => (Thrown missing_parameters_error, sim)
      end
  end.

End Routes.

(* ===================================================================== *)
(** ** Vocabulary of the statements *)
(* ===================================================================== *)

(** A bounding-box argument that is missing or does not have four entries. *)
Definition wrong_arity (bbox : BoundingBox) : Prop :=
  match bbox with
  | None => True
  | Some l => length l ≠ 4%nat
  end.

(** A list of numbers with a NaN in it. *)
Definition has_nan (l : list number) : Prop :=
  Exists (λ x, PrimFloat.is_nan x = true) l.

(** The object after a call that, when it throws, has assigned to no
    field before. *)
Definition settle (before : Simulation) (o : outcome Simulation) : Simulation :=
  match o with
  | Returned after => after
  | Thrown _ => before
  end.

(** An event that carries only the required temperature. *)
Definition temperatureOnly (t : number) : RawEvent :=
  {| ev_temperature := t;
     ev_confidence := None;
     ev_count := None;
     ev_fog := None;
     ev_cross_wind := None;
     ev_rain_intensity := None;
     ev_road_condition := None;
     ev_timestamp := None |}.

(** A run of [pushRawEvent] calls, each with its cell, its event and the
    clock reading of the call. *)
Definition pushAll (sim : Simulation) (calls : list (string * RawEvent * Z))
    : Simulation :=
  foldl (λ s c, pushRawEvent s c.1.1 c.1.2 c.2) sim calls.

(** The sum of two histogram entries, and of all entries of a histogram
    object. *)
Definition cadd (a b : Count) : Count :=
  match a, b with
  | Int x, Int y => Int (x + y)
  | _, _ => NaN
  end.

Definition total `{Countable K} (m : gmap K Count) : Count :=
  map_fold (λ _ v acc, cadd v acc) (Int 0) m.

(** The keys of [by_time]: the forty-eight half hours of a day. *)
Definition halfHours : list string :=
  (λ i, timeStr (Z.of_nat i / 2) (Z.of_nat i mod 2 * 30)) <$> seq 0 48.

(** All three histograms of [d] sum to [c], and [by_day] and [by_time] have
    their seven and forty-eight entries. *)
Record conserved (d : RiskHotspot.Distribution) (c : Z) : Prop :=
  { total_by_week : total (RiskHotspot.by_week d) = Int c;
    total_by_day : total (RiskHotspot.by_day d) = Int c;
    total_by_time : total (RiskHotspot.by_time d) = Int c;
    days_present : Forall (λ k, is_Some (RiskHotspot.by_day d !! k)) DAYS;
    halfHours_present :
      Forall (λ k, is_Some (RiskHotspot.by_time d !! k)) halfHours }.

(** The three histograms of a hotspot sum to its [metadata.total_count]. *)
Definition distributions_conserved (h : RiskHotspot.t) : Prop :=
  total (RiskHotspot.by_day (RiskHotspot.distribution (RiskHotspot.statistics h)))
  = Int (RiskHotspot.total_count (RiskHotspot.metadata h))
  ∧ total (RiskHotspot.by_week
             (RiskHotspot.distribution (RiskHotspot.statistics h)))
    = Int (RiskHotspot.total_count (RiskHotspot.metadata h))
  ∧ total (RiskHotspot.by_time
             (RiskHotspot.distribution (RiskHotspot.statistics h)))
    = Int (RiskHotspot.total_count (RiskHotspot.metadata h)).

(** A hotspot without the two things that [generateInitialHotspots] takes
    from outside the seeded generator: the identifier drawn by
    [crypto.randomUUID()] and the two time stamps counted back from
    [Date.now()]. *)
Definition seededPart (h : RiskHotspot.t) : RiskHotspot.t :=
  {| RiskHotspot.location := RiskHotspot.location h;
     RiskHotspot.metadata :=
       {| RiskHotspot.id := "";
          RiskHotspot.risk := RiskHotspot.risk (RiskHotspot.metadata h);
          RiskHotspot.total_count :=
            RiskHotspot.total_count (RiskHotspot.metadata h);
          RiskHotspot.weather_impact :=
            RiskHotspot.weather_impact (RiskHotspot.metadata h);
          RiskHotspot.time_of_day_impact :=
            RiskHotspot.time_of_day_impact (RiskHotspot.metadata h) |};
     RiskHotspot.timeframe := {| RiskHotspot.first := ""; RiskHotspot.last := "" |};
     RiskHotspot.vehicle := RiskHotspot.vehicle h;
     RiskHotspot.environment := RiskHotspot.environment h;
     RiskHotspot.statistics := RiskHotspot.statistics h |}.

(** [Math.floor(r() * k)] computed on binary64, to compare [floor_r_times]
    with. *)
Definition floor_r_times_binary64 (z k : Z) : number :=
  Math_floor (unit_interval z * of_Z k)%float.

(** Stand-ins for the library functions, for examples on concrete inputs.
    No theorem depends on what they return. *)
Module Sample.
Definition Math_log (x : number) : number := (x - 1)%float.
Definition Math_cos (x : number) : number := 1%float.
Definition Math_sin (x : number) : number := 0%float.
Definition Math_atan2 (y x : number) : number := 0%float.
Definition Number_toString (x : number) : string := "1e+21".
(** The time value in milliseconds, in digits. *)
Definition Date_toISOString (t : number) : string :=
  JSString.Number_toFixed Number_toString t 0.
(** A grid of hundredths of a degree: the cell of a point is named by its
    two coordinates with two decimals. *)
Definition h3_latLngToCell (la ln : number) (res : Z) : string :=
  JSString.Number_toFixed Number_toString la 2 +:+ ":" +:+
  JSString.Number_toFixed Number_toString ln 2.
Definition h3_cellToLatLng (cell : string) : number * number :=
  (JSString.parseFloat (String.substring 0 5 cell),
   JSString.parseFloat (String.substring 6 5 cell)).

(** [new Simulation({targetCellCount: 100, targetHotspotCount: 50,
    snapshotIntervalMs: 900000, seed: 42, resolution: 9})]. *)
Definition sim0 : Simulation := new_Simulation 100 50 900000 42 9.

Definition clock (i : nat) : Z := 1793558400000.
Definition uuidsA (i : nat) : string := "3b241101-e2bb-4255-8caf-4136c566a962".
Definition uuidsB (i : nat) : string := "0d8f4f2e-95a1-4c5b-9d3e-7a1f0c2b6e44".

(** One hotspot generated on [sim0]. *)
Definition withHotspot (uuids : nat → string) : Simulation :=
  generateInitialHotspots Math_atan2 Number_toString Date_toISOString
    sim0 (Some 1%nat) clock uuids.

(** [sim0] after one event for the cell ["50.00:14.44"] and a flush. *)
Definition withCell : Simulation :=
  let pushed :=
    pushRawEvent sim0 "50.00:14.44" (temperatureOnly 10.0) 1793558400000 in
  settle pushed
    (applyRawAggToSnapshotBatch Date_toISOString pushed
       1793559300000 (λ _, 1793559300000)).

(** An event that reports rain and road condition only. *)
Definition weatherEvent (x : RainIntensity.t) (y : RoadCondition.t) : RawEvent :=
  {| ev_temperature := (-6)%float; ev_confidence := None; ev_count := None;
     ev_fog := None; ev_cross_wind := None; ev_rain_intensity := Some x;
     ev_road_condition := Some y; ev_timestamp := None |}.

(** Four events for one cell with rain scores 4, 4, 4 and 2 and road scores
    3, 3, 3 and 1: the means are 3.5 and 2.5. *)
Definition stormEvents : list (string * RawEvent * Z) :=
  [ ("50.00:14.44", weatherEvent RainIntensity.HIGH RoadCondition.SLIPPERY_ICE,
     1793558400000);
    ("50.00:14.44", weatherEvent RainIntensity.HIGH RoadCondition.SLIPPERY_ICE,
     1793558400200);
    ("50.00:14.44", weatherEvent RainIntensity.HIGH RoadCondition.SLIPPERY_ICE,
     1793558400400);
    ("50.00:14.44", weatherEvent RainIntensity.MEDIUM RoadCondition.WET,
     1793558400600) ].

(** An event with a confidence, and one with a count. *)
Definition withConfidence (x : number) : RawEvent :=
  {| ev_temperature := 10; ev_confidence := Some x; ev_count := None;
     ev_fog := None; ev_cross_wind := None; ev_rain_intensity := None;
     ev_road_condition := None; ev_timestamp := None |}.

Definition withCount (x : number) : RawEvent :=
  {| ev_temperature := 10; ev_confidence := None; ev_count := Some x;
     ev_fog := None; ev_cross_wind := None; ev_rain_intensity := None;
     ev_road_condition := None; ev_timestamp := None |}.
End Sample.

(** An update without any field, and the update that carries every field
    of a statistics record. *)
Definition noUpdate : StatisticsUpdate.t :=
  {| StatisticsUpdate.temperature := None; StatisticsUpdate.day_counts := None |}.

Definition fullUpdate (s : CellStatistics.t) : StatisticsUpdate.t :=
  let t := CellStatistics.temperature s in
  let d := CellStatistics.day_counts s in
  let r := CellStatistics.rain d in
  {| StatisticsUpdate.temperature :=
       Some {| StatisticsUpdate.lowest := CellStatistics.lowest t;
               StatisticsUpdate.highest := CellStatistics.highest t |};
     StatisticsUpdate.day_counts :=
       Some {| StatisticsUpdate.rain :=
                 Some {| StatisticsUpdate.low := Some (CellStatistics.low r);
                         StatisticsUpdate.medium := Some (CellStatistics.medium r);
                         StatisticsUpdate.high := Some (CellStatistics.high r) |};
               StatisticsUpdate.slippery_road :=
                 Some (CellStatistics.slippery_road d);
               StatisticsUpdate.fog := Some (CellStatistics.fog d);
               StatisticsUpdate.cross_wind := Some (CellStatistics.cross_wind d) |} |}.

(** One flush interval: the events pushed during it, then the clock
    readings of the flush that ends it. *)
Record Interval :=
  { events : list (string * RawEvent * Z);
    flushedAt : Z;
    flushClock : string → Z }.

(** What the flush does to a reported road condition and rain intensity
    when the report is the only one of its cell. *)
Definition publishedRoad (x : RoadCondition.t) : RoadCondition.t :=
  match x with
  | RoadCondition.SLIPPERY_WET => RoadCondition.SLIPPERY
  | RoadCondition.UNRECOGNIZED => RoadCondition.DRY
  | _ => x
  end.

Definition publishedRain (x : RainIntensity.t) : RainIntensity.t :=
  match x with
  | RainIntensity.UNRECOGNIZED => RainIntensity.NONE
  | _ => x
  end.

(** An accumulator entry that stands for one event reporting what the
    cell shows: what [generateInitialCells] stores next to a cell. *)
Definition seededFrom (c : Cell.t) (agg : RawAgg) : Prop :=
  let env := Cell.environment c in
  let cond := Cell.conditions env in
  sumTemp agg = Cell.temperature env
  ∧ count agg = 1%float
  ∧ sumConfidence agg = Cell.confidence (Cell.metadata c)
  ∧ sumCounts agg = Cell.total_count (Cell.metadata c)
  ∧ fogVotes agg = vote (Cell.fog cond)
  ∧ crossWindVotes agg = vote (Cell.cross_wind cond)
  ∧ rainScore agg = rainIntensityToScore (Cell.rain_intensity cond)
  ∧ roadScore agg = roadConditionToScore (Cell.road_condition cond).

(** The pairs of rain intensity and road condition that the environment
    model produces. *)
Definition road_fits_rain (rain : RainIntensity.t) (road : RoadCondition.t)
    : bool :=
  match rain, road with
  | (RainIntensity.NONE | RainIntensity.LOW),
    (RoadCondition.DRY | RoadCondition.SLIPPERY_ICE) => true
  | RainIntensity.MEDIUM,
    (RoadCondition.WET | RoadCondition.SLIPPERY | RoadCondition.SLIPPERY_ICE) =>
      true
  | RainIntensity.HIGH,
    (RoadCondition.WET | RoadCondition.SLIPPERY | RoadCondition.SLIPPERY_ICE
     | RoadCondition.SLIPPERY_WET) => true
  | _, _ => false
  end.

(** The cell [k] as [generateInitialCells] leaves it: a snapshot entry
    that names [k], has no statistics and pairs rain and road condition
    as the environment model does, next to an accumulator entry that
    stands for one event reporting it. *)
Definition seeded (sim : Simulation) (k : string) : Prop :=
  ∃ c agg,
    snapshot sim !! k = Some c
    ∧ rawAgg sim !! k = Some agg
    ∧ Cell.h3_index (Cell.location c) = k
    ∧ Cell.statistics c = None
    ∧ seededFrom c agg
    ∧ road_fits_rain
        (Cell.rain_intensity (Cell.conditions (Cell.environment c)))
        (Cell.road_condition (Cell.conditions (Cell.environment c))) = true.

(** The shape of the three histograms of a hotspot: weeks from 1 to 52,
    each with a count of at least one; exactly the seven days and the
    forty-eight half hours, each with a count that is a number and not
    negative. *)
Record well_formed (d : RiskHotspot.Distribution) : Prop :=
  { weeks_in_range :
      ∀ w v, RiskHotspot.by_week d !! w = Some v →
             1 ≤ w ≤ 52 ∧ ∃ n, v = Int n ∧ 1 ≤ n;
    days_exact : dom (RiskHotspot.by_day d) = list_to_set DAYS;
    halfHours_exact : dom (RiskHotspot.by_time d) = list_to_set halfHours;
    days_counted :
      ∀ k v, RiskHotspot.by_day d !! k = Some v → ∃ n, v = Int n ∧ 0 ≤ n;
    halfHours_counted :
      ∀ k v, RiskHotspot.by_time d !! k = Some v → ∃ n, v = Int n ∧ 0 ≤ n }.

(** A call of [start()], with the identifiers that the runtime hands out
    when the call schedules its two intervals, or a call of [stop()]. *)
Inductive LifecycleCall :=
  | Start (id1 id2 : Z)
  | Stop.

Definition lifecycleCall (sim : Simulation) (t : Timers) (c : LifecycleCall)
    : Timers :=
  match c with
  | Start id1 id2 => start sim t id1 id2
  | Stop => stop t
  end.

(** The identifiers of a runtime: never 0, and never the same for two
    intervals. *)
Definition runtime_ids (c : LifecycleCall) : Prop :=
  match c with
  | Start id1 id2 => id1 ≠ 0 ∧ id2 ≠ 0 ∧ id1 ≠ id2
  | Stop => True
  end.

(** The object either runs, with its two intervals active and recorded,
    or it does not, with none. *)
Inductive lifecycle_state (sim : Simulation) (t : Timers) : Prop :=
  | stopped :
      rawTimerId t = None → snapshotTimerId t = None → intervals t = ∅ →
      lifecycle_state sim t
  | running (id1 id2 : Z) :
      id1 ≠ 0 → id2 ≠ 0 → id1 ≠ id2 →
      rawTimerId t = Some id1 → snapshotTimerId t = Some id2 →
      intervals t
      = <[id2 := (PublishSnapshot, snapshotIntervalMs sim)]>
          (<[id1 := (ProduceEvents, 200)]> ∅) →
      lifecycle_state sim t.

(** One activation of a timer of [start()]: the producer (one event of
    the batch) or the flush, with the clock readings it makes. *)
Inductive Tick :=
  | Produce (now : Z)
  | Flush (now : Z) (clock : string → Z).

Section Runs.
Variable Date_toISOString : number → string.

(** The events of one interval and the flush that ends it; when the
    flush throws, the object stays as the events left it.  A run of
    intervals. *)
Definition runInterval (sim : Simulation) (i : Interval) : Simulation :=
  let pushed := pushAll sim (events i) in
  settle pushed
    (applyRawAggToSnapshotBatch Date_toISOString pushed
       (flushedAt i) (flushClock i)).

Definition runIntervals (sim : Simulation) (l : list Interval) : Simulation :=
  foldl runInterval sim l.

(** A run of timer activations; an exception ends it. *)
Definition tick (sim : Simulation) (t : Tick) : outcome Simulation :=
  match t with
  | Produce now => produceRandomRawEvent sim now
  | Flush now clock => applyRawAggToSnapshotBatch Date_toISOString sim now clock
  end.

Fixpoint runTicks (sim : Simulation) (ticks : list Tick) : outcome Simulation :=
  match ticks with
  | [] => Returned sim
  | t :: rest =>
      match tick sim t with
      | Returned sim' => runTicks sim' rest
      | Thrown e => Thrown e
      end
  end.
End Runs.

(** Further objects for examples on concrete inputs, built with the
    stand-ins of [Sample]. *)
Module Scenario.
(** The cell of [Sample.withCell]. *)
Definition cell : string := "50.00:14.44".

(** Two initial cells on [Sample.sim0]. *)
Definition seededCells : Simulation :=
  generateInitialCells Sample.Math_log Sample.Math_cos Sample.Math_sin
    Sample.Math_atan2 Sample.Date_toISOString Sample.h3_latLngToCell
    Sample.sim0 (Some 2%nat) 1793558400000.

(** [generateInitialData()] on a new object of two cells and one hotspot. *)
Definition served : Simulation :=
  generateInitialData Sample.Math_log Sample.Math_cos Sample.Math_sin
    Sample.Math_atan2 Sample.Number_toString Sample.Date_toISOString
    Sample.h3_latLngToCell (new_Simulation 2 1 900000 42 9)
    1793558400000 Sample.clock Sample.uuidsA.

(** [Sample.withCell] after a [getCell] with [includeStatistics]. *)
Definition withStatistics : Simulation :=
  (getCell Sample.Date_toISOString Sample.withCell cell (Some (Some true))
     1793559400000).2.

(** An interval with one event for [cell]. *)
Definition nextInterval : Interval :=
  {| events := [(cell, temperatureOnly 12.0, 1793559400000)];
     flushedAt := 1793560200000;
     flushClock := λ _, 1793560200000 |}.

(** The producer, the flush, the producer. *)
Definition ticks : list Tick :=
  [ Produce 1793558400200;
    Flush 1793559300000 (λ _, 1793559300000);
    Produce 1793559300200 ].

(** [served] after one call of the producer. *)
Definition fed : Simulation :=
  settle served
    (runTicks Sample.Date_toISOString served [Produce 1793558400200]).

(** A query for the box of the hotspot of [Sample.withHotspot]. *)
Definition query (min_confidence : Z) : HotspotsQuery :=
  {| q_bbox := Some [12.0; 49.0; 13.0; 50.0]%float;
     q_min_confidence := min_confidence;
     q_type := None |}.

Definition calls : list LifecycleCall :=
  [Start 1 2; Start 3 4; Stop; Start 5 6].

(** [{temperature: 10, timestamp: 1e16}]. *)
Definition farFuture : RawEvent :=
  {| ev_temperature := 10%float; ev_confidence := None; ev_count := None;
     ev_fog := None; ev_cross_wind := None; ev_rain_intensity := None;
     ev_road_condition := None; ev_timestamp := Some 1e16%float |}.
End Scenario.

(** Case analysis along the draws of a generator. *)
Ltac step_gen :=
  match goal with
  | H : context [let (_, _) := ?m in _] |- _ =>
      let E := fresh "E" in destruct m as [? ?] eqn:E
  | |- context [let (_, _) := ?m in _] =>
      let E := fresh "E" in destruct m as [? ?] eqn:E
  | H : context [if ?b then _ else _] |- _ =>
      let E := fresh "E" in destruct b eqn:E
  | |- context [if ?b then _ else _] =>
      let E := fresh "E" in destruct b eqn:E
  end.

Ltac step_let :=
  match goal with
  | |- context [let (_, _) := ?m in _] =>
      let E := fresh "E" in destruct m as [? ?] eqn:E
  end.

(* ===================================================================== *)
(** ** Comparisons of numbers *)
(* ===================================================================== *)

Section Comparisons.
Local Open Scope float_scope.

Lemma ltb_leb (a b : number) : (a <? b) = true → (a <=? b) = true.
Proof.
  rewrite FloatAxioms.ltb_spec, FloatAxioms.leb_spec.
  unfold SFltb, SFleb. destruct (SFcompare _ _) as [[]|]; congruence.
Qed.

Lemma eqb_leb (a b : number) : (a =? b) = true → (a <=? b) = true.
Proof.
  rewrite FloatAxioms.eqb_spec, FloatAxioms.leb_spec.
  unfold SFeqb, SFleb. destruct (SFcompare _ _) as [[]|]; congruence.
Qed.

Lemma is_nan_Prim2SF (a : number) :
  PrimFloat.is_nan a = true → Prim2SF a = S754_nan.
Proof. unfold Prim2SF. intros ->. reflexivity. Qed.

Lemma leb_nan_l (a b : number) :
  PrimFloat.is_nan a = true → (a <=? b) = false.
Proof.
  intros Ha. rewrite FloatAxioms.leb_spec, (is_nan_Prim2SF a Ha). reflexivity.
Qed.

Lemma leb_nan_r (a b : number) :
  PrimFloat.is_nan b = true → (a <=? b) = false.
Proof.
  intros Hb. rewrite FloatAxioms.leb_spec, (is_nan_Prim2SF b Hb).
  unfold SFleb, SFcompare. destruct (Prim2SF a); reflexivity.
Qed.
End Comparisons.

(* ===================================================================== *)
(** ** The flush replaces the snapshot and clears the accumulator *)
(* ===================================================================== *)

Section Flush.
Variable Date_toISOString : number → string.

Lemma flush_returns (sim : Simulation) (now : Z) (clock : string → Z) :
  flushable sim now →
  applyRawAggToSnapshotBatch Date_toISOString sim now clock
  = Returned
      (set_rawAgg ∅
         (set_snapshot
            (map_imap
               (λ k agg, Some (summarise Date_toISOString (snapshot sim) now
                                 (clock k) k agg))
               (rawAgg sim)) sim)).
Proof.
  intros H. unfold applyRawAggToSnapshotBatch.
  destruct (decide (flushable sim now)); [reflexivity|contradiction].
Qed.

Lemma flush_throws (sim : Simulation) (now : Z) (clock : string → Z) :
  ¬ flushable sim now →
  applyRawAggToSnapshotBatch Date_toISOString sim now clock
  = Thrown invalid_time_error.
Proof.
  intros H. unfold applyRawAggToSnapshotBatch.
  destruct (decide (flushable sim now)); [contradiction|reflexivity].
Qed.

(** A flush returns exactly when the accumulator is flushable, and then
    only the snapshot and the accumulator are assigned. *)
Lemma flush_inv (sim sim' : Simulation) (now : Z) (clock : string → Z) :
  applyRawAggToSnapshotBatch Date_toISOString sim now clock = Returned sim' →
  flushable sim now
  ∧ sim' = set_rawAgg ∅
             (set_snapshot
                (map_imap
                   (λ k agg, Some (summarise Date_toISOString (snapshot sim)
                                     now (clock k) k agg))
                   (rawAgg sim)) sim).
Proof.
  unfold applyRawAggToSnapshotBatch.
  destruct (decide (flushable sim now)) as [H|H]; [|discriminate].
  intros [= <-]. split; [exact H|reflexivity].
Qed.

Lemma flush_lookup (sim sim' : Simulation) (now : Z) (clock : string → Z)
    (k : string) :
  applyRawAggToSnapshotBatch Date_toISOString sim now clock = Returned sim' →
  snapshot sim' !! k
  = summarise Date_toISOString (snapshot sim) now (clock k) k <$> rawAgg sim !! k.
Proof.
  intros E. apply flush_inv in E as [_ ->]. cbn.
  rewrite map_lookup_imap. destruct (rawAgg sim !! k); reflexivity.
Qed.

End Flush.

(* ===================================================================== *)
(** ** The query layer *)
(* ===================================================================== *)

Section Queries.
Variable Date_toISOString : number → string.
Variable h3_cellToLatLng : string → number * number.

(** C10. [getCell] on an identifier that the snapshot does not hold
    returns [undefined] and leaves the object as it was, with or without
    [includeStatistics]: no statistics are computed or cached. *)
Theorem getCell_absent (sim : Simulation) (h3Index : string)
    (opts : option (option bool)) (now : Z) :
  snapshot sim !! h3Index = None →
  getCell Date_toISOString sim h3Index opts now = (None, sim).
Proof. intros H. unfold getCell. rewrite H. reflexivity. Qed.

Lemma inBbox_nan (a b c d la ln : number) :
  has_nan [a; b; c; d] → inBbox a b c d la ln = false.
Proof.
  unfold has_nan, inBbox. rewrite !Exists_cons, Exists_nil.
  intros [H | [H | [H | [H | []]]]].
  - rewrite (leb_nan_l a ln H). rewrite andb_false_r. reflexivity.
  - rewrite (leb_nan_l b la H). reflexivity.
  - rewrite (leb_nan_r ln c H). apply andb_false_r.
  - rewrite (leb_nan_r la d H). rewrite andb_false_r. reflexivity.
Qed.

(** With a NaN among its four entries a bounding box passes the check of
    both queries, and no entry passes the containment test. *)
Lemma nan_bbox_returns_nothing (sim : Simulation) (a b c d : number) :
  has_nan [a; b; c; d] →
  getSnapshotInBbox h3_cellToLatLng sim (Some [a; b; c; d]) = Returned ∅
  ∧ getHotspotsInBbox sim (Some [a; b; c; d]) = Returned ∅.
Proof.
  intros Hnan. unfold getSnapshotInBbox, getHotspotsInBbox.
  split; apply (f_equal Returned); apply map_empty; intros k;
    apply map_lookup_filter_None_2; right; intros x _; cbn.
  - destruct (h3_cellToLatLng k) as [la ln].
    rewrite (inBbox_nan a b c d la ln Hnan). discriminate.
  - rewrite inBbox_nan by exact Hnan. discriminate.
Qed.

(** C7, as the engine has it. An argument that is missing or does not
    have exactly four entries makes both bounding-box queries throw,
    whatever the two stores hold. Four entries are not inspected further:
    with a NaN among them both queries return normally, and the result is
    empty. *)
Theorem bbox_arity_is_the_only_check (sim : Simulation) (bbox : BoundingBox) :
  (wrong_arity bbox →
     getSnapshotInBbox h3_cellToLatLng sim bbox = Thrown bbox_error
     ∧ getHotspotsInBbox sim bbox = Thrown bbox_error)
  ∧ (∀ a b c d, bbox = Some [a; b; c; d] → has_nan [a; b; c; d] →
     getSnapshotInBbox h3_cellToLatLng sim bbox = Returned ∅
     ∧ getHotspotsInBbox sim bbox = Returned ∅).
Proof.
  split.
  - destruct bbox as [[|a [|b [|c [|d [|e l]]]]]|]; cbn; intros H;
      try (split; reflexivity). contradiction.
  - intros a b c d -> Hnan. apply nan_bbox_returns_nothing, Hnan.
Qed.

(** C8. A snapshot cell whose representative coordinate lies within the
    four bounds, each bound included, is part of the result of
    [getSnapshotInBbox]; so is a cell with [lat == maxLat]. *)
Theorem bbox_bounds_inclusive (sim : Simulation) (k : string) (cell : Cell.t)
    (minLng minLat maxLng maxLat : number) :
  snapshot sim !! k = Some cell →
  (minLat <=? (h3_cellToLatLng k).1)%float = true →
  ((h3_cellToLatLng k).1 <=? maxLat)%float = true
    ∨ ((h3_cellToLatLng k).1 =? maxLat)%float = true →
  (minLng <=? (h3_cellToLatLng k).2)%float = true →
  ((h3_cellToLatLng k).2 <=? maxLng)%float = true →
  ∃ out,
    getSnapshotInBbox h3_cellToLatLng sim (Some [minLng; minLat; maxLng; maxLat])
    = Returned out
    ∧ out !! k = Some cell.
Proof.
  intros Hk H1 H2 H3 H4. eexists. split; [reflexivity|].
  apply map_lookup_filter_Some_2; [exact Hk|]. cbn.
  destruct (h3_cellToLatLng k) as [la ln]. cbn in *. unfold inBbox.
  assert ((la <=? maxLat)%float = true) as H2'.
  { destruct H2 as [H2 | H2]; [exact H2 | apply eqb_leb, H2]. }
  rewrite H1, H2', H3, H4. reflexivity.
Qed.
End Queries.

(* ===================================================================== *)
(** ** Ingestion followed by a flush *)
(* ===================================================================== *)

Section Ingestion.
Variable Date_toISOString : number → string.

Abbreviation flush := (applyRawAggToSnapshotBatch Date_toISOString).

(** C5. A flush of an accumulator whose entries all have a valid time
    value returns, and the summary that it publishes for a cell classifies
    the mean rain score with the thresholds 3.0, 1.2 and 0.6 and the mean
    road score with 2.5, 1.8 and 0.8; a mean rain score of 3.5 gives HIGH
    and 1.0 gives LOW, a mean road score of 2.6 gives SLIPPERY_ICE and 0.9
    gives WET. *)
Theorem flush_classification (sim : Simulation) (now : Z) (clock : string → Z)
    (k : string) (agg : RawAgg) :
  rawAgg sim !! k = Some agg →
  flushable sim now →
  ∃ sim' c,
    flush sim now clock = Returned sim'
    ∧ snapshot sim' !! k = Some c
    ∧ let meanRain := (rainScore agg / Math_max 1 (count agg))%float in
      let meanRoad := (roadScore agg / Math_max 1 (count agg))%float in
      let cond := Cell.conditions (Cell.environment c) in
      Cell.rain_intensity cond
        = (if (3.0 <=? meanRain)%float then RainIntensity.HIGH
           else if (1.2 <=? meanRain)%float then RainIntensity.MEDIUM
           else if (0.6 <=? meanRain)%float then RainIntensity.LOW
           else RainIntensity.NONE)
      ∧ Cell.road_condition cond
        = (if (2.5 <=? meanRoad)%float then RoadCondition.SLIPPERY_ICE
           else if (1.8 <=? meanRoad)%float then RoadCondition.SLIPPERY
           else if (0.8 <=? meanRoad)%float then RoadCondition.WET
           else RoadCondition.DRY)
      ∧ (meanRain = 3.5%float → Cell.rain_intensity cond = RainIntensity.HIGH)
      ∧ (meanRain = 1.0%float → Cell.rain_intensity cond = RainIntensity.LOW)
      ∧ (meanRoad = 2.6%float →
           Cell.road_condition cond = RoadCondition.SLIPPERY_ICE)
      ∧ (meanRoad = 0.9%float → Cell.road_condition cond = RoadCondition.WET).
Proof.
  intros Hk Hf. pose proof (flush_returns Date_toISOString sim now clock Hf) as E.
  eexists _, _. split; [exact E|]. split.
  { rewrite (flush_lookup _ _ _ _ _ k E), Hk. reflexivity. }
  cbn. unfold classifyRain, classifyRoad.
  repeat split; try reflexivity; intros ->; reflexivity.
Qed.

Lemma pushRawEvent_other (sim : Simulation) (h k : string) (ev : RawEvent)
    (now : Z) :
  h ≠ k → rawAgg (pushRawEvent sim h ev now) !! k = rawAgg sim !! k.
Proof. intros Hne. cbn. apply lookup_insert_ne, Hne. Qed.

Lemma pushAll_other (calls : list (string * RawEvent * Z)) (sim : Simulation)
    (k : string) :
  Forall (λ c, c.1.1 ≠ k) calls →
  rawAgg (pushAll sim calls) !! k = rawAgg sim !! k.
Proof.
  revert sim. induction calls as [|c calls IH]; intros sim Hall; [reflexivity|].
  inversion Hall as [|? ? Hc Hrest]; subst. cbn.
  unfold pushAll in IH. rewrite IH by exact Hrest.
  apply pushRawEvent_other, Hc.
Qed.

(** C4. [pushRawEvent(cellX, {temperature: 10.0})] on a cell without an
    accumulator entry, then events for other cells only, then a flush for
    which every accumulated time value is a valid date: the flush returns,
    and the summary of [cellX] has confidence 80, total_count 1,
    temperature 10.0, rain intensity NONE and road condition DRY.  And
    [pushRawEvent] accepts every event, whichever optional fields are
    missing: the cell has an accumulator entry afterwards. *)
Theorem temperature_only_event_summary (sim : Simulation) (cellX : string)
    (now now' : Z) (clock : string → Z)
    (others : list (string * RawEvent * Z)) :
  rawAgg sim !! cellX = None →
  Forall (λ c, c.1.1 ≠ cellX) others →
  flushable
    (pushAll (pushRawEvent sim cellX (temperatureOnly 10.0) now) others) now' →
  (∃ sim' c,
     flush (pushAll (pushRawEvent sim cellX (temperatureOnly 10.0) now) others)
           now' clock = Returned sim'
     ∧ snapshot sim' !! cellX = Some c
     ∧ Cell.confidence (Cell.metadata c) = 80%float
     ∧ Cell.total_count (Cell.metadata c) = 1%float
     ∧ Cell.temperature (Cell.environment c) = 10.0%float
     ∧ Cell.rain_intensity (Cell.conditions (Cell.environment c))
       = RainIntensity.NONE
     ∧ Cell.road_condition (Cell.conditions (Cell.environment c))
       = RoadCondition.DRY)
  ∧ (∀ (s : Simulation) (h : string) (ev : RawEvent) (t : Z),
       is_Some (rawAgg (pushRawEvent s h ev t) !! h)).
Proof.
  intros Hnone Hothers Hf. split.
  - pose proof (flush_returns Date_toISOString _ _ clock Hf) as E.
    eexists _, _. split; [exact E|]. split.
    + rewrite (flush_lookup _ _ _ _ _ cellX E), pushAll_other by exact Hothers.
      cbn. rewrite lookup_insert_eq, Hnone. cbn. reflexivity.
    + cbn. repeat split; vm_compute; reflexivity.
  - intros s h ev t. cbn. rewrite lookup_insert_eq. eauto.
Qed.
End Ingestion.

(* ===================================================================== *)
(** ** Draws and their ranges *)
(* ===================================================================== *)

Lemma draw_range (s z s' : Z) : draw s = (z, s') → 0 ≤ z < 2 ^ 32.
Proof.
  unfold draw. intros [= <- _]. unfold ToUint32.
  apply Z.mod_pos_bound. lia.
Qed.

Lemma floor_r_times_range (k s n s' : Z) :
  0 < k → floor_r_times k s = (n, s') → 0 ≤ n < k.
Proof.
  unfold floor_r_times, bind, ret. intros Hk.
  destruct (draw s) as [z s1] eqn:Hd. intros [= <- _].
  apply draw_range in Hd. split.
  - apply Z.div_pos; lia.
  - apply Z.div_lt_upper_bound; nia.
Qed.

Lemma floor_r_cubed_range (s n s' : Z) :
  floor_r_cubed_times_500 s = (n, s') → 0 ≤ n < 500.
Proof.
  unfold floor_r_cubed_times_500, bind, ret.
  destruct (draw s) as [z s1] eqn:Hd. intros [= <- _].
  apply draw_range in Hd.
  assert (0 ≤ z ^ 3 < 2 ^ 96) as Hz.
  { replace (2 ^ 96) with ((2 ^ 32) ^ 3) by reflexivity.
    split; [apply Z.pow_nonneg; lia|].
    apply Z.pow_lt_mono_l; lia. }
  split.
  - apply Z.div_pos; lia.
  - apply Z.div_lt_upper_bound; lia.
Qed.

(** On binary64 [Math.floor(r() * k)] is the integer of [floor_r_times]:
    checked for the multipliers of the generators at draws around the
    places where a product comes close to an integer. *)
Example floor_r_times_on_binary64 :
  forallb (λ k,
    forallb (λ z, (floor_r_times_binary64 z k =? of_Z (z * k / 2 ^ 32))%float)
      [0; 1; 2 ^ 31 - 1; 2 ^ 31; 2 ^ 31 + 1; 2 ^ 32 - 1; 2 ^ 32 - 2;
       858993459; 858993460; 1431655765; 1431655766; 2863311530; 2863311531;
       3435973836; 3435973837; 4131183238; 4212803599; 4294967295 - 4294967295 / 52])
    [2; 3; 5; 6; 11; 24; 50; 52; 80]
  = true.
Proof. vm_compute. reflexivity. Qed.

(* ===================================================================== *)
(** ** Totals of histograms *)
(* ===================================================================== *)

Section Totals.
Context `{Countable K}.
Implicit Types m : gmap K Count.

Lemma cadd_comm_assoc (a b c : Count) : cadd a (cadd b c) = cadd b (cadd a c).
Proof. destruct a, b, c; cbn; f_equal; lia. Qed.

Lemma total_empty : total (∅ : gmap K Count) = Int 0.
Proof. apply map_fold_empty. Qed.

Lemma total_insert_fresh m k v :
  m !! k = None → total (<[k := v]> m) = cadd v (total m).
Proof.
  intros Hk. unfold total. rewrite map_fold_insert_L; [reflexivity| |exact Hk].
  intros. apply cadd_comm_assoc.
Qed.

Lemma total_split m k v :
  m !! k = Some v → total m = cadd v (total (delete k m)).
Proof.
  intros Hk. rewrite <- (insert_delete_id m k v Hk) at 1.
  apply total_insert_fresh, lookup_delete_eq.
Qed.

Lemma total_insert m k v :
  total (<[k := v]> m) = cadd v (total (delete k m)).
Proof.
  rewrite <- insert_delete_eq. apply total_insert_fresh, lookup_delete_eq.
Qed.

(** An entry of a histogram whose total is a number is a number. *)
Lemma total_Int_lookup m k v c :
  total m = Int c → m !! k = Some v → ∃ n, v = Int n.
Proof.
  intros Ht Hk. rewrite (total_split m k v Hk) in Ht.
  destruct v; [eauto | discriminate].
Qed.

Lemma total_increment m k c :
  is_Some (m !! k) → total m = Int c → total (increment k m) = Int (c + 1).
Proof.
  intros [v Hk] Ht. destruct (total_Int_lookup m k v c Ht Hk) as [n ->].
  unfold increment. rewrite Hk, total_insert.
  rewrite (total_split m k _ Hk) in Ht.
  destruct (total (delete k m)); [|discriminate].
  cbn in *. injection Ht as Ht. f_equal. lia.
Qed.

Lemma total_increment_or_init m k c :
  total m = Int c → total (increment_or_init k m) = Int (c + 1).
Proof.
  intros Ht. unfold increment_or_init. rewrite total_insert.
  destruct (m !! k) as [v|] eqn:Hk.
  - destruct (total_Int_lookup m k v c Ht Hk) as [n ->].
    rewrite (total_split m k _ Hk) in Ht.
    destruct (total (delete k m)); [|discriminate].
    cbn in *. injection Ht as Ht. f_equal. lia.
  - rewrite delete_id by exact Hk. rewrite Ht. cbn. f_equal. lia.
Qed.

Lemma increment_keeps_keys m k k' :
  is_Some (m !! k') → is_Some (increment k m !! k').
Proof.
  intros Hk'. unfold increment.
  destruct (decide (k = k')) as [->|Hne].
  - rewrite lookup_insert_eq. eauto.
  - rewrite lookup_insert_ne by exact Hne. exact Hk'.
Qed.
End Totals.

(* ===================================================================== *)
(** ** Conservation of the temporal distribution *)
(* ===================================================================== *)

Lemma day_in_DAYS (i : Z) : 0 ≤ i < 7 → dayAt i ∈ DAYS.
Proof.
  intros Hi.
  assert (i = 0 ∨ i = 1 ∨ i = 2 ∨ i = 3 ∨ i = 4 ∨ i = 5 ∨ i = 6) as Hc by lia.
  unfold dayAt, DAYS. clear Hi.
  repeat (destruct Hc as [Hc | Hc]; [subst i; cbn; set_solver|]).
  subst i; cbn; set_solver.
Qed.

Lemma timeStr_in_halfHours (hour minute : Z) :
  0 ≤ hour < 24 → minute = 0 ∨ minute = 30 → timeStr hour minute ∈ halfHours.
Proof.
  intros Hh Hm.
  assert (∃ i : nat, (i < 48)%nat ∧ hour = Z.of_nat i / 2
                     ∧ minute = Z.of_nat i mod 2 * 30) as (i & Hi & -> & ->).
  { destruct Hm as [-> | ->].
    - exists (Z.to_nat (2 * hour)). split; [lia|].
      rewrite Z2Nat.id by lia. split; Z.div_mod_to_equations; lia.
    - exists (Z.to_nat (2 * hour + 1)). split; [lia|].
      rewrite Z2Nat.id by lia. split; Z.div_mod_to_equations; lia. }
  unfold halfHours. apply list_elem_of_fmap.
  exists i. split; [reflexivity|]. apply elem_of_seq. lia.
Qed.

Lemma conserved_init :
  conserved {| RiskHotspot.by_week := ∅;
               RiskHotspot.by_day := by_day_init;
               RiskHotspot.by_time := by_time_init |} 0.
Proof.
  split; cbn.
  - apply total_empty.
  - vm_compute. reflexivity.
  - vm_compute. reflexivity.
  - apply Forall_forall. intros k Hk.
    destruct (by_day_init !! k) eqn:E; [eauto|].
    exfalso. revert E. unfold DAYS in Hk.
    repeat (apply elem_of_cons in Hk as [-> | Hk]; [vm_compute; discriminate|]).
    inversion Hk.
  - apply Forall_forall. intros k Hk.
    destruct (by_time_init !! k) eqn:E; [eauto|].
    exfalso. revert E.
    let l := eval vm_compute in halfHours in change halfHours with l in Hk.
    repeat (apply elem_of_cons in Hk as [-> | Hk]; [vm_compute; discriminate|]).
    inversion Hk.
Qed.

Lemma assignOccurrence_conserved (time_impact : Z)
    (d d' : RiskHotspot.Distribution) (c s s' : Z) :
  conserved d c →
  assignOccurrence time_impact d s = (d', s') →
  conserved d' (c + 1).
Proof.
  intros [Hw Hd Ht Hdays Hhalf].
  unfold assignOccurrence, bind, ret.
  destruct (floor_r_times 52 s) as [w s1] eqn:Ew.
  destruct (r s1) as [dayRoll s2] eqn:EdayRoll.
  intros Hrun.
  assert (∃ dayIdx hour minute,
            d' = {| RiskHotspot.by_week :=
                      increment_or_init (1 + w) (RiskHotspot.by_week d);
                    RiskHotspot.by_day :=
                      increment (dayAt dayIdx) (RiskHotspot.by_day d);
                    RiskHotspot.by_time :=
                      increment (timeStr hour minute) (RiskHotspot.by_time d) |}
            ∧ 0 ≤ dayIdx < 7 ∧ 0 ≤ hour < 24 ∧ (minute = 0 ∨ minute = 30))
    as (dayIdx & hour & minute & -> & HdI & Hh & Hm).
  { repeat step_gen; simplify_eq;
      repeat match goal with
             | E : floor_r_times ?k _ = _ |- _ =>
                 apply floor_r_times_range in E; [|lia]
             end;
      eexists _, _, _; (split; [reflexivity|]);
      rewrite ?andb_true_iff, ?andb_false_iff, ?Z.leb_le, ?Z.leb_gt in *; lia. }
  split; cbn.
  - apply total_increment_or_init, Hw.
  - apply total_increment; [|exact Hd].
    rewrite Forall_forall in Hdays. apply Hdays, day_in_DAYS, HdI.
  - apply total_increment; [|exact Ht].
    rewrite Forall_forall in Hhalf. apply Hhalf, timeStr_in_halfHours; assumption.
  - eapply Forall_impl; [exact Hdays|]. intros k. apply increment_keeps_keys.
  - eapply Forall_impl; [exact Hhalf|]. intros k. apply increment_keeps_keys.
Qed.

Lemma assignOccurrences_conserved (n : nat) (time_impact : Z)
    (d d' : RiskHotspot.Distribution) (c s s' : Z) :
  conserved d c →
  assignOccurrences n time_impact d s = (d', s') →
  conserved d' (c + Z.of_nat n).
Proof.
  revert d c s. induction n as [|n IH]; intros d c s Hd.
  - cbn. intros [= <- _]. rewrite Z.add_0_r. exact Hd.
  - cbn. unfold bind.
    destruct (assignOccurrence time_impact d s) as [d1 s1] eqn:E1. intros Hrun.
    replace (c + Z.of_nat (S n)) with ((c + 1) + Z.of_nat n) by lia.
    eapply IH; [|exact Hrun].
    eapply assignOccurrence_conserved; eassumption.
Qed.

Lemma generateHotspotStatistics_conserved (total_count time_impact s : Z) :
  0 ≤ total_count →
  conserved
    (RiskHotspot.distribution
       (generateHotspotStatistics total_count time_impact s).1)
    total_count.
Proof.
  intros Hpos. unfold generateHotspotStatistics, bind, ret.
  destruct (assignOccurrences _ _ _ s) as [d s'] eqn:E. cbn.
  pose proof (assignOccurrences_conserved _ _ _ _ 0 _ _ conserved_init E) as Hc.
  rewrite Z.add_0_l, Z2Nat.id in Hc by exact Hpos. exact Hc.
Qed.

(* ===================================================================== *)
(** ** The generated hotspots *)
(* ===================================================================== *)

Section GeneratedHotspots.
Variable Math_atan2 : number → number → number.
Variable Number_toString : number → string.
Variable Date_toISOString : number → string.

Abbreviation generateHotspot' :=
  (generateHotspot Math_atan2 Number_toString Date_toISOString).
Abbreviation hotspotAt' :=
  (hotspotAt Math_atan2 Number_toString Date_toISOString).
Abbreviation storeHotspots' :=
  (storeHotspots Math_atan2 Number_toString Date_toISOString).
Abbreviation hotspotKey' := (hotspotKey Number_toString).

(** What one round of the generator puts into the fields the claims are
    about. *)
Lemma generateHotspot_fields (now : Z) (uuid : string) (s : Z) :
  let h := (generateHotspot' now uuid s).1 in
  let md := RiskHotspot.metadata h in
  RiskHotspot.id md = uuid
  ∧ 5 ≤ RiskHotspot.total_count md < 505
  ∧ 1 ≤ RiskHotspot.weather_impact md ≤ 5
  ∧ 1 ≤ RiskHotspot.time_of_day_impact md ≤ 5
  ∧ 1 ≤ RiskHotspot.importance (RiskHotspot.risk md) ≤ 5
  ∧ 50 ≤ RiskHotspot.confidence (RiskHotspot.risk md) < 100
  ∧ 10 ≤ RiskHotspot.residual_confidence (RiskHotspot.risk md) < 90
  ∧ ∃ s', RiskHotspot.statistics h
          = (generateHotspotStatistics (RiskHotspot.total_count md)
               (RiskHotspot.time_of_day_impact md) s').1.
Proof.
  unfold generateHotspot, bind, ret. repeat step_let. cbn.
  repeat match goal with
         | E : floor_r_times ?k _ = _ |- _ =>
             apply floor_r_times_range in E; [|cbn; lia]
         | E : floor_r_cubed_times_500 _ = _ |- _ =>
             apply floor_r_cubed_range in E
         end.
  split_and!; try lia; try reflexivity.
  eexists. match goal with E : generateHotspotStatistics _ _ _ = _ |- _ =>
    rewrite E end. reflexivity.
Qed.

(** The clock reading and the identifier reach the time frame and the
    [id] field only. *)
Lemma generateHotspot_seededPart (now now' : Z) (uuid uuid' : string) (s : Z) :
  seededPart (generateHotspot' now uuid s).1
  = seededPart (generateHotspot' now' uuid' s).1.
Proof.
  unfold generateHotspot, bind, ret. repeat step_let. reflexivity.
Qed.

Lemma hotspotKey_seededPart (h : RiskHotspot.t) :
  hotspotKey' (seededPart h) = hotspotKey' h.
Proof. reflexivity. Qed.

Lemma storeHotspots_S (sd : Z) (nowAt : nat → Z) (uuidAt : nat → string)
    (n : nat) (m : gmap string RiskHotspot.t) :
  storeHotspots' sd nowAt uuidAt (S n) m
  = <[hotspotKey' (hotspotAt' sd nowAt uuidAt n) := hotspotAt' sd nowAt uuidAt n]>
      (storeHotspots' sd nowAt uuidAt n m).
Proof. unfold storeHotspots. rewrite seq_S, foldl_app. reflexivity. Qed.

(** Every stored hotspot is the hotspot of some round, stored under its
    own key. *)
Lemma storeHotspots_lookup (sd : Z) (nowAt : nat → Z) (uuidAt : nat → string)
    (n : nat) (k : string) (h : RiskHotspot.t) :
  storeHotspots' sd nowAt uuidAt n ∅ !! k = Some h →
  ∃ i, (i < n)%nat ∧ h = hotspotAt' sd nowAt uuidAt i ∧ k = hotspotKey' h.
Proof.
  induction n as [|n IH].
  - cbn. rewrite lookup_empty. discriminate.
  - rewrite storeHotspots_S.
    destruct (decide (hotspotKey' (hotspotAt' sd nowAt uuidAt n) = k)) as [<-|Hne].
    + rewrite lookup_insert_eq. intros [= <-]. exists n. auto with lia.
    + rewrite lookup_insert_ne by exact Hne. intros Hk.
      destruct (IH Hk) as (i & Hi & ? & ?). exists i. auto with lia.
Qed.

(** The hotspot of round [i] is found under its key unless a later round
    produced the same key; then the latest such round is found. *)
Lemma storeHotspots_latest (sd : Z) (nowAt : nat → Z) (uuidAt : nat → string)
    (n i : nat) :
  (i < n)%nat →
  let key j := hotspotKey' (hotspotAt' sd nowAt uuidAt j) in
  ∃ j, (i ≤ j < n)%nat
    ∧ key j = key i
    ∧ storeHotspots' sd nowAt uuidAt n ∅ !! key i
      = Some (hotspotAt' sd nowAt uuidAt j)
    ∧ ∀ j', (j < j' < n)%nat → key j' ≠ key i.
Proof.
  intros Hi key. induction n as [|n IH]; [lia|].
  rewrite storeHotspots_S. fold (key n).
  destruct (decide (key n = key i)) as [Heq|Hne].
  - exists n. rewrite Heq, lookup_insert_eq. split_and!; auto with lia.
  - assert (i < n)%nat as Hi'.
    { destruct (decide (i = n)) as [->|]; [contradiction|lia]. }
    destruct (IH Hi') as (j & Hj & Hkey & Hlook & Hlater).
    exists j. rewrite lookup_insert_ne by exact Hne.
    split_and!; auto with lia.
    intros j' Hj'. destruct (decide (j' = n)) as [->|]; [exact Hne|].
    apply Hlater. lia.
Qed.

(** Rounds that read the same clock values and identifiers store the
    same hotspots. *)
Lemma storeHotspots_ext (sd : Z) (nowAt nowAt' : nat → Z)
    (uuidAt uuidAt' : nat → string) (n : nat) (m : gmap string RiskHotspot.t) :
  (∀ i, (i < n)%nat → nowAt i = nowAt' i ∧ uuidAt i = uuidAt' i) →
  storeHotspots' sd nowAt uuidAt n m = storeHotspots' sd nowAt' uuidAt' n m.
Proof.
  induction n as [|n IH]; intros Hsame; [reflexivity|].
  rewrite !storeHotspots_S, IH by (intros i Hi; apply Hsame; lia).
  assert (hotspotAt' sd nowAt uuidAt n = hotspotAt' sd nowAt' uuidAt' n) as ->.
  { unfold hotspotAt. destruct (Hsame n ltac:(lia)) as [-> ->]. reflexivity. }
  reflexivity.
Qed.

(** The stored map without clock and identifier is the same whatever the
    clock and the identifiers were. *)
Lemma storeHotspots_seededPart (sd : Z) (nowAt nowAt' : nat → Z)
    (uuidAt uuidAt' : nat → string) (n : nat) :
  seededPart <$> storeHotspots' sd nowAt uuidAt n ∅
  = seededPart <$> storeHotspots' sd nowAt' uuidAt' n ∅.
Proof.
  induction n as [|n IH]; [reflexivity|].
  rewrite !storeHotspots_S, !fmap_insert, IH.
  assert (seededPart (hotspotAt' sd nowAt uuidAt n)
          = seededPart (hotspotAt' sd nowAt' uuidAt' n)) as Heq
    by apply generateHotspot_seededPart.
  rewrite <- (hotspotKey_seededPart (hotspotAt' sd nowAt uuidAt n)).
  rewrite <- (hotspotKey_seededPart (hotspotAt' sd nowAt' uuidAt' n)).
  rewrite Heq. reflexivity.
Qed.
End GeneratedHotspots.

(* ===================================================================== *)
(** ** Claims about the generated sets *)
(* ===================================================================== *)

Section Generation.
Variable Math_log Math_cos Math_sin : number → number.
Variable Math_atan2 : number → number → number.
Variable Number_toString : number → string.
Variable Date_toISOString : number → string.
Variable h3_latLngToCell : number → number → Z → string.

Abbreviation generateInitialHotspots' :=
  (generateInitialHotspots Math_atan2 Number_toString Date_toISOString).
Abbreviation generateInitialCells' :=
  (generateInitialCells Math_log Math_cos Math_sin Math_atan2
     Date_toISOString h3_latLngToCell).

(** C1. Conservation: the hotspot of every round of
    [generateInitialHotspots], and so every hotspot that it stores, has the
    entries of [by_day], of [by_week] and of [by_time] each sum to its
    [metadata.total_count]. *)
Theorem hotspot_distributions_conserved (sim : Simulation)
    (forceCount : option nat) (nowAt : nat → Z) (uuidAt : nat → string) :
  (∀ i, distributions_conserved
          (hotspotAt Math_atan2 Number_toString Date_toISOString
             (seed sim) nowAt uuidAt i))
  ∧ (∀ k h,
       hotspots (generateInitialHotspots' sim forceCount nowAt uuidAt) !! k
       = Some h →
       distributions_conserved h).
Proof.
  assert (∀ i, distributions_conserved
                 (hotspotAt Math_atan2 Number_toString Date_toISOString
                    (seed sim) nowAt uuidAt i)) as Hround.
  { intros i. unfold hotspotAt, distributions_conserved.
    destruct (generateHotspot_fields Math_atan2 Number_toString Date_toISOString
                (nowAt i) (uuidAt i)
                (seededRand (xor (xor (Z.of_nat i) (seed sim)) 0xABCDEF)))
      as (_ & Htc & _ & _ & _ & _ & _ & s' & ->).
    edestruct generateHotspotStatistics_conserved as [Hw Hd Ht _ _];
      [|split_and!; eassumption]. lia. }
  split; [exact Hround|].
  unfold generateInitialHotspots. cbn [hotspots].
  intros k h Hk. apply storeHotspots_lookup in Hk as (i & _ & -> & _).
  apply Hround.
Qed.

Lemma seedCells_cellLocations (now : Z) (locs : list CellLocation) (i : nat)
    (sim : Simulation) :
  cellLocations
    (seedCells Math_sin Date_toISOString now i locs sim)
  = cellLocations sim.
Proof.
  revert i sim. induction locs as [|loc locs IH]; intros i sim; [reflexivity|].
  cbn [seedCells]. rewrite IH. unfold seedCell.
  repeat step_let. reflexivity.
Qed.

(** C2, as the code has it. Two runs with the same seed, resolution and
    target counts produce the same list of cell locations, and hotspot
    sets that agree on their keys and on every field except
    [metadata.id] and [timeframe]; when both runs are also given the same
    clock readings and identifiers, the hotspot sets are equal. *)
Theorem generation_reproducible (sim1 sim2 : Simulation)
    (cells hots : option nat) (now1 now2 : Z)
    (nowAt1 nowAt2 : nat → Z) (uuidAt1 uuidAt2 : nat → string) :
  seed sim1 = seed sim2 →
  resolution sim1 = resolution sim2 →
  targetCellCount sim1 = targetCellCount sim2 →
  targetHotspotCount sim1 = targetHotspotCount sim2 →
  cellLocations (generateInitialCells' sim1 cells now1)
  = cellLocations (generateInitialCells' sim2 cells now2)
  ∧ seededPart <$> hotspots (generateInitialHotspots' sim1 hots nowAt1 uuidAt1)
    = seededPart <$> hotspots (generateInitialHotspots' sim2 hots nowAt2 uuidAt2)
  ∧ ((∀ i, nowAt1 i = nowAt2 i ∧ uuidAt1 i = uuidAt2 i) →
     hotspots (generateInitialHotspots' sim1 hots nowAt1 uuidAt1)
     = hotspots (generateInitialHotspots' sim2 hots nowAt2 uuidAt2)).
Proof.
  intros Hseed Hres Hcells Hhots. split_and!.
  - unfold generateInitialCells. rewrite !seedCells_cellLocations.
    cbn [cellLocations set_cellLocations].
    rewrite Hseed, Hres, Hcells. reflexivity.
  - unfold generateInitialHotspots. cbn [hotspots].
    rewrite Hseed, Hhots. apply storeHotspots_seededPart.
  - intros Hsame. unfold generateInitialHotspots. cbn [hotspots].
    rewrite Hseed, Hhots. apply storeHotspots_ext.
    intros i _. apply Hsame.
Qed.

(** C9, as the code has it. Every hotspot in [#hotspots] is the hotspot
    of some round of the generator, stored under the key made of its
    latitude and longitude with five decimals, joined by an underscore;
    its own [metadata.id] is the identifier that [crypto.randomUUID()]
    returned in that round.
    The hotspot of a round is found under its key unless a later round
    produced the same key, in which case the latest such round is found:
    a collision overwrites, and generation goes on. *)
Theorem hotspots_keyed_by_coordinates (sim : Simulation)
    (forceCount : option nat) (nowAt : nat → Z) (uuidAt : nat → string) :
  let n := default (targetHotspotCount sim) forceCount in
  let stored := hotspots (generateInitialHotspots' sim forceCount nowAt uuidAt) in
  let round := hotspotAt Math_atan2 Number_toString Date_toISOString
                 (seed sim) nowAt uuidAt in
  let key := hotspotKey Number_toString in
  (∀ h, key h
        = JSString.Number_toFixed Number_toString
            (RiskHotspot.latitude (RiskHotspot.location h)) 5
          +:+ "_" +:+
          JSString.Number_toFixed Number_toString
            (RiskHotspot.longitude (RiskHotspot.location h)) 5)
  ∧ (∀ k h, stored !! k = Some h →
     k = key h
     ∧ ∃ i, (i < n)%nat ∧ h = round i
            ∧ RiskHotspot.id (RiskHotspot.metadata h) = uuidAt i)
  ∧ (∀ i, (i < n)%nat →
     ∃ j, (i ≤ j < n)%nat
       ∧ key (round j) = key (round i)
       ∧ stored !! key (round i) = Some (round j)
       ∧ ∀ j', (j < j' < n)%nat → key (round j') ≠ key (round i)).
Proof.
  intros n stored round key. subst stored key round.
  unfold generateInitialHotspots. cbn [hotspots]. fold n. split_and!.
  - intros h. reflexivity.
  - intros k h Hk. apply storeHotspots_lookup in Hk as (i & Hi & -> & ->).
    split; [reflexivity|]. exists i. split_and!; [exact Hi|reflexivity|].
    apply generateHotspot_fields.
  - intros i Hi.
    apply (storeHotspots_latest Math_atan2 Number_toString Date_toISOString
             (seed sim) nowAt uuidAt n i Hi).
Qed.

(** Every stored hotspot has a confidence between 50 and 99 and a total
    count between 5 and 504. *)
Lemma hotspot_ranges (sim : Simulation) (forceCount : option nat)
    (nowAt : nat → Z) (uuidAt : nat → string) (k : string) (h : RiskHotspot.t) :
  hotspots (generateInitialHotspots' sim forceCount nowAt uuidAt) !! k = Some h →
  50 ≤ RiskHotspot.confidence (RiskHotspot.risk (RiskHotspot.metadata h)) < 100
  ∧ 5 ≤ RiskHotspot.total_count (RiskHotspot.metadata h) < 505.
Proof.
  unfold generateInitialHotspots. cbn [hotspots].
  intros Hk. apply storeHotspots_lookup in Hk as (i & _ & -> & _).
  unfold hotspotAt.
  destruct (generateHotspot_fields Math_atan2 Number_toString Date_toISOString
              (nowAt i) (uuidAt i)
              (seededRand (xor (xor (Z.of_nat i) (seed sim)) 0xABCDEF)))
    as (_ & Htc & _ & _ & _ & Hc & _).
  auto.
Qed.
End Generation.

(* ===================================================================== *)
(** ** The ranges of confidence and total count *)
(* ===================================================================== *)

Section Ranges.
Local Open Scope float_scope.

Lemma SFcompare_antisym (x y : spec_float) :
  SFcompare y x = CompOpp <$> SFcompare x y.
Proof.
  destruct x as [sx|sx| |sx mx ex], y as [sy|sy| |sy my ey]; cbn;
    try reflexivity; try (destruct sx; reflexivity);
    try (destruct sy; reflexivity);
    try (destruct sx, sy; reflexivity).
  destruct sx, sy; cbn; try reflexivity;
    rewrite (Z.compare_antisym ex ey); destruct (ex ?= ey)%Z; cbn;
    try reflexivity;
    change (Pos.compare_cont Eq my mx) with (my ?= mx)%positive;
    change (Pos.compare_cont Eq mx my) with (mx ?= my)%positive;
    rewrite (Pos.compare_antisym mx my); destruct (mx ?= my)%positive;
    reflexivity.
Qed.

Lemma not_nan_Prim2SF (a : number) :
  PrimFloat.is_nan a = false → Prim2SF a ≠ S754_nan.
Proof.
  intros Ha Hn. rewrite <- (FloatAxioms.SF2Prim_Prim2SF a), Hn in Ha.
  discriminate.
Qed.

Lemma SFcompare_Some (x y : spec_float) :
  x ≠ S754_nan → y ≠ S754_nan → ∃ c, SFcompare x y = Some c.
Proof. destruct x, y; cbn; intros; try contradiction; eauto. Qed.

(** Two numbers are comparable: when [a < b] fails, [b <= a] holds. *)
Lemma not_ltb_leb (a b : number) :
  PrimFloat.is_nan a = false → PrimFloat.is_nan b = false →
  (a <? b) = false → (b <=? a) = true.
Proof.
  intros Ha Hb. apply not_nan_Prim2SF in Ha, Hb.
  rewrite FloatAxioms.ltb_spec, FloatAxioms.leb_spec. unfold SFltb, SFleb.
  rewrite (SFcompare_antisym (Prim2SF a) (Prim2SF b)).
  destruct (SFcompare_Some _ _ Ha Hb) as [c ->].
  destruct c; cbn; congruence.
Qed.

Lemma Math_max_lower (a x : number) :
  PrimFloat.is_nan a = false → PrimFloat.is_nan x = false →
  (a <=? Math_max a x) = true.
Proof.
  intros Ha Hx. unfold Math_max. rewrite Ha, Hx. cbn.
  destruct (a <? x) eqn:E1; [apply ltb_leb, E1|].
  assert ((a <=? a) = true) as Hrefl.
  { apply not_ltb_leb; try assumption.
    destruct (a <? a) eqn:E; [|reflexivity].
    rewrite FloatAxioms.ltb_spec in E. unfold SFltb in E.
    pose proof (SFcompare_antisym (Prim2SF a) (Prim2SF a)) as Hs.
    destruct (SFcompare (Prim2SF a) (Prim2SF a)) as [[]|]; cbn in Hs;
      congruence. }
  destruct (x <? a) eqn:E2; [exact Hrefl|].
  destruct (is_neg_zero a); [|exact Hrefl].
  apply not_ltb_leb; assumption.
Qed.

Lemma Math_min_not_nan (a x : number) :
  PrimFloat.is_nan a = false → PrimFloat.is_nan x = false →
  PrimFloat.is_nan (Math_min a x) = false.
Proof.
  intros Ha Hx. unfold Math_min. rewrite Ha, Hx. cbn.
  repeat match goal with |- context [if ?b then _ else _] => destruct b end;
    assumption.
Qed.

Lemma Math_max_not_nan (a x : number) :
  PrimFloat.is_nan a = false → PrimFloat.is_nan x = false →
  PrimFloat.is_nan (Math_max a x) = false.
Proof.
  intros Ha Hx. unfold Math_max. rewrite Ha, Hx. cbn.
  repeat match goal with |- context [if ?b then _ else _] => destruct b end;
    assumption.
Qed.

Lemma Math_min_upper (a x : number) :
  PrimFloat.is_nan a = false → PrimFloat.is_nan x = false →
  (Math_min a x <=? a) = true.
Proof.
  intros Ha Hx. unfold Math_min. rewrite Ha, Hx. cbn.
  assert ((a <=? a) = true) as Hrefl.
  { apply not_ltb_leb; try assumption.
    destruct (a <? a) eqn:E; [|reflexivity].
    rewrite FloatAxioms.ltb_spec in E. unfold SFltb in E.
    pose proof (SFcompare_antisym (Prim2SF a) (Prim2SF a)) as Hs.
    destruct (SFcompare (Prim2SF a) (Prim2SF a)) as [[]|]; cbn in Hs;
      congruence. }
  destruct (a <? x) eqn:E1; [exact Hrefl|].
  destruct (x <? a) eqn:E2; [apply ltb_leb, E2|].
  destruct (is_neg_zero a); [exact Hrefl|].
  apply not_ltb_leb; assumption.
Qed.

(** [Math.max(lo, Math.min(hi, x))] lies between [lo] and [hi] for every
    [x] that is not NaN, when [lo <= hi]. *)
Lemma clamp_range (lo hi x : number) :
  PrimFloat.is_nan lo = false → PrimFloat.is_nan hi = false →
  (lo <=? hi) = true →
  PrimFloat.is_nan x = false →
  (lo <=? Math_max lo (Math_min hi x)) = true
  ∧ (Math_max lo (Math_min hi x) <=? hi) = true.
Proof.
  intros Hlo Hhi Hle Hx.
  pose proof (Math_min_not_nan hi x Hhi Hx) as Hm.
  split; [apply Math_max_lower; assumption|].
  pose proof (Math_min_upper hi x Hhi Hx) as Hup.
  unfold Math_max. rewrite Hlo, Hm. cbn.
  repeat match goal with |- context [if ?b then _ else _] => destruct b end;
    assumption.
Qed.

Lemma clamp_nan (lo hi : number) : Math_max lo (Math_min hi nan) = nan.
Proof.
  unfold Math_min. replace (PrimFloat.is_nan nan) with true by reflexivity.
  rewrite orb_true_r. unfold Math_max.
  replace (PrimFloat.is_nan nan) with true by reflexivity.
  rewrite orb_true_r. reflexivity.
Qed.
End Ranges.

Section FlushRanges.
Variable Date_toISOString : number → string.

(** What the flush publishes for a cell is within the ranges whenever the
    rounded mean confidence and the rounded sum of counts are numbers;
    when one of them is NaN, NaN is published. *)
Lemma summarise_ranges (old : gmap string Cell.t) (now hereNow : Z)
    (k : string) (agg : RawAgg) :
  let c := summarise Date_toISOString old now hereNow k agg in
  let meanConfidence :=
    Math_round (sumConfidence agg / Math_max 1 (count agg))%float in
  let counts := Math_round (sumCounts agg) in
  (if PrimFloat.is_nan meanConfidence
   then Cell.confidence (Cell.metadata c) = nan
   else (0 <=? Cell.confidence (Cell.metadata c))%float = true
        ∧ (Cell.confidence (Cell.metadata c) <=? 100)%float = true)
  ∧ (if PrimFloat.is_nan counts
     then Cell.total_count (Cell.metadata c) = nan
     else (1 <=? Cell.total_count (Cell.metadata c))%float = true).
Proof.
  cbn. split.
  - destruct (PrimFloat.is_nan (Math_round _)) eqn:E.
    + unfold Math_min. rewrite E. cbn. unfold Math_max. reflexivity.
    + apply clamp_range; try reflexivity. exact E.
  - destruct (PrimFloat.is_nan (Math_round _)) eqn:E.
    + unfold Math_max. rewrite E. reflexivity.
    + apply Math_max_lower; [reflexivity|exact E].
Qed.

(** C3 fails on the code when an event carries NaN. On a new object,
    [pushRawEvent(c, {temperature: 10, confidence: NaN})] and
    [pushRawEvent(d, {temperature: 10, count: NaN})] followed by a flush:
    the flush returns, and it publishes a confidence of NaN for [c] and a
    total count of NaN for [d]: neither [0 <= confidence], nor
    [confidence <= 100], nor [1 <= total_count] holds. *)
Theorem nan_event_breaks_ranges :
  let sim1 := pushRawEvent Sample.sim0 "8928308280fffff"
                (Sample.withConfidence nan) 1793558400000 in
  let sim2 := pushRawEvent sim1 "8928308287fffff"
                (Sample.withCount nan) 1793558400200 in
  ∃ sim3,
    applyRawAggToSnapshotBatch Date_toISOString sim2 1793559300000
      (λ _, 1793559300000) = Returned sim3
    ∧ (∃ c, snapshot sim3 !! "8928308280fffff" = Some c
          ∧ Cell.confidence (Cell.metadata c) = nan
          ∧ (0 <=? Cell.confidence (Cell.metadata c))%float = false
          ∧ (Cell.confidence (Cell.metadata c) <=? 100)%float = false)
    ∧ (∃ d, snapshot sim3 !! "8928308287fffff" = Some d
          ∧ Cell.total_count (Cell.metadata d) = nan
          ∧ (1 <=? Cell.total_count (Cell.metadata d))%float = false).
Proof.
  cbv zeta.
  match goal with
  | |- ∃ sim3, applyRawAggToSnapshotBatch _ ?s ?n ?c = _ ∧ _ =>
      assert (flushable s n) as Hf
        by (refine (bool_decide_unpack _ _); vm_compute; exact I);
      pose proof (flush_returns Date_toISOString s n c Hf) as E
  end.
  eexists. split; [exact E|]. split.
  - eexists. split; [rewrite (flush_lookup _ _ _ _ _ _ E); reflexivity|].
    split_and!; vm_compute; reflexivity.
  - eexists. split; [rewrite (flush_lookup _ _ _ _ _ _ E); reflexivity|].
    split_and!; vm_compute; reflexivity.
Qed.
End FlushRanges.

(* ===================================================================== *)
(** ** Closed examples *)
(* ===================================================================== *)

(** The hotspot of round 0 on [Sample.sim0] is stored under the string of
    its coordinates. *)
Example sample_hotspot_stored :
  hotspots (Sample.withHotspot Sample.uuidsA) !! "49.66293_12.77865"
  = Some (hotspotAt Sample.Math_atan2 Sample.Number_toString
            Sample.Date_toISOString (seed Sample.sim0) Sample.clock
            Sample.uuidsA 0).
Proof. vm_compute. reflexivity. Qed.

Lemma hotspot_distributions_conserved_witness :
  distributions_conserved
    (hotspotAt Sample.Math_atan2 Sample.Number_toString
       Sample.Date_toISOString (seed Sample.sim0) Sample.clock Sample.uuidsA 0).
Proof.
  refine (proj2 (hotspot_distributions_conserved
                   Sample.Math_atan2 Sample.Number_toString
                   Sample.Date_toISOString Sample.sim0 (Some 1%nat)
                   Sample.clock Sample.uuidsA) "49.66293_12.77865" _ _).
  vm_compute. reflexivity.
Defined.

Lemma generation_reproducible_witness :
  cellLocations
    (generateInitialCells Sample.Math_log Sample.Math_cos Sample.Math_sin
       Sample.Math_atan2 Sample.Date_toISOString Sample.h3_latLngToCell
       Sample.sim0 (Some 3%nat) 1793558400000)
  = cellLocations
      (generateInitialCells Sample.Math_log Sample.Math_cos Sample.Math_sin
         Sample.Math_atan2 Sample.Date_toISOString Sample.h3_latLngToCell
         Sample.withCell (Some 3%nat) 1793559999999).
Proof.
  refine (proj1 (generation_reproducible
                   Sample.Math_log Sample.Math_cos Sample.Math_sin
                   Sample.Math_atan2 Sample.Number_toString
                   Sample.Date_toISOString Sample.h3_latLngToCell
                   Sample.sim0 Sample.withCell (Some 3%nat) None
                   1793558400000 1793559999999
                   Sample.clock Sample.clock Sample.uuidsA Sample.uuidsB
                   _ _ _ _)); reflexivity.
Defined.

(** Two runs with the same seed and the same count store different hotspot
    sets when [crypto.randomUUID()] returns different identifiers. *)
Lemma hotspot_sets_differ_across_runs :
  seed Sample.sim0 = seed Sample.sim0
  ∧ getHotspots (Sample.withHotspot Sample.uuidsA)
    ≠ getHotspots (Sample.withHotspot Sample.uuidsB).
Proof.
  split; [reflexivity|]. intros Heq.
  assert ((RiskHotspot.id ∘ RiskHotspot.metadata)
            <$> getHotspots (Sample.withHotspot Sample.uuidsA)
                !! "49.66293_12.77865"
          = Some "3b241101-e2bb-4255-8caf-4136c566a962") as HA
    by (vm_compute; reflexivity).
  assert ((RiskHotspot.id ∘ RiskHotspot.metadata)
            <$> getHotspots (Sample.withHotspot Sample.uuidsB)
                !! "49.66293_12.77865"
          = Some "0d8f4f2e-95a1-4c5b-9d3e-7a1f0c2b6e44") as HB
    by (vm_compute; reflexivity).
  rewrite Heq, HB in HA. discriminate HA.
Qed.

(** The [id] of a generated hotspot is what [crypto.randomUUID()] returned,
    not the string of its coordinates. *)
Lemma hotspot_id_is_not_the_coordinate_string :
  let stored :=
    hotspots (Sample.withHotspot Sample.uuidsA) !! "49.66293_12.77865" in
  hotspotKey Sample.Number_toString <$> stored = Some "49.66293_12.77865"
  ∧ (RiskHotspot.id ∘ RiskHotspot.metadata) <$> stored
    = Some "3b241101-e2bb-4255-8caf-4136c566a962"
  ∧ (RiskHotspot.id ∘ RiskHotspot.metadata) <$> stored
    ≠ hotspotKey Sample.Number_toString <$> stored.
Proof.
  cbv zeta.
  assert (hotspotKey Sample.Number_toString
            <$> hotspots (Sample.withHotspot Sample.uuidsA)
                !! "49.66293_12.77865"
          = Some "49.66293_12.77865") as Hkey by (vm_compute; reflexivity).
  assert ((RiskHotspot.id ∘ RiskHotspot.metadata)
            <$> hotspots (Sample.withHotspot Sample.uuidsA)
                !! "49.66293_12.77865"
          = Some "3b241101-e2bb-4255-8caf-4136c566a962") as Hid
    by (vm_compute; reflexivity).
  split_and!; [exact Hkey | exact Hid |].
  rewrite Hkey, Hid. intros Hsame. discriminate Hsame.
Qed.

Lemma hotspots_keyed_by_coordinates_witness :
  ∃ j, (0 ≤ j < 1)%nat
    ∧ hotspots (Sample.withHotspot Sample.uuidsA)
      !! hotspotKey Sample.Number_toString
           (hotspotAt Sample.Math_atan2 Sample.Number_toString
              Sample.Date_toISOString (seed Sample.sim0) Sample.clock
              Sample.uuidsA 0)
      = Some (hotspotAt Sample.Math_atan2 Sample.Number_toString
                Sample.Date_toISOString (seed Sample.sim0) Sample.clock
                Sample.uuidsA j).
Proof.
  destruct (proj2 (proj2 (hotspots_keyed_by_coordinates
                            Sample.Math_atan2 Sample.Number_toString
                            Sample.Date_toISOString Sample.sim0 (Some 1%nat)
                            Sample.clock Sample.uuidsA)) 0%nat ltac:(cbn; lia))
    as (j & Hj & _ & Hlook & _).
  exists j. split; [exact Hj | exact Hlook].
Defined.

Lemma temperature_only_event_summary_witness :
  ∃ c, snapshot Sample.withCell !! "50.00:14.44" = Some c
       ∧ Cell.confidence (Cell.metadata c) = 80%float
       ∧ Cell.total_count (Cell.metadata c) = 1%float
       ∧ Cell.temperature (Cell.environment c) = 10.0%float
       ∧ Cell.rain_intensity (Cell.conditions (Cell.environment c))
         = RainIntensity.NONE
       ∧ Cell.road_condition (Cell.conditions (Cell.environment c))
         = RoadCondition.DRY.
Proof.
  destruct (proj1 (temperature_only_event_summary Sample.Date_toISOString
                     Sample.sim0 "50.00:14.44" 1793558400000 1793559300000
                     (λ _, 1793559300000) [] eq_refl (Forall_nil_2 _)
                     ltac:(refine (bool_decide_unpack _ _); vm_compute; exact I)))
    as (sim' & c & E & Hc & H).
  exists c. split; [|exact H].
  unfold Sample.withCell. cbv zeta. cbn [pushAll foldl] in E.
  rewrite E. exact Hc.
Defined.

Lemma flush_classification_witness :
  ∃ sim' c,
    applyRawAggToSnapshotBatch Sample.Date_toISOString
      (pushAll Sample.sim0 Sample.stormEvents) 1793559300000
      (λ _, 1793559300000) = Returned sim'
    ∧ snapshot sim' !! "50.00:14.44" = Some c
    ∧ Cell.rain_intensity (Cell.conditions (Cell.environment c))
      = RainIntensity.HIGH
    ∧ Cell.road_condition (Cell.conditions (Cell.environment c))
      = RoadCondition.SLIPPERY_ICE.
Proof.
  destruct (flush_classification Sample.Date_toISOString
              (pushAll Sample.sim0 Sample.stormEvents) 1793559300000
              (λ _, 1793559300000) "50.00:14.44"
              {| sumTemp := (-24)%float; count := 4%float;
                 lastTs := 1793558400600%float;
                 sumConfidence := 320%float; sumCounts := 4%float;
                 fogVotes := 0%float; crossWindVotes := 0%float;
                 rainScore := 14%float; roadScore := 10%float |}
              ltac:(vm_compute; reflexivity)
              ltac:(refine (bool_decide_unpack _ _); vm_compute; exact I))
    as (sim' & c & E & Hc & _ & Hroad & Hrain & _ & _ & _).
  exists sim', c. split; [exact E|]. split; [exact Hc|].
  split; [apply Hrain; vm_compute; reflexivity|].
  rewrite Hroad. vm_compute. reflexivity.
Defined.


Lemma bbox_arity_is_the_only_check_witness :
  getSnapshotInBbox Sample.h3_cellToLatLng Sample.withCell
    (Some [14.0; 49.9; 14.8]%float) = Thrown bbox_error
  ∧ getHotspotsInBbox (Sample.withHotspot Sample.uuidsA)
      (Some [14.0; 49.9; 14.8]%float) = Thrown bbox_error.
Proof.
  split.
  - apply (proj1 (bbox_arity_is_the_only_check Sample.h3_cellToLatLng
                    Sample.withCell (Some [14.0; 49.9; 14.8]%float))).
    cbn. lia.
  - apply (proj1 (bbox_arity_is_the_only_check Sample.h3_cellToLatLng
                    (Sample.withHotspot Sample.uuidsA)
                    (Some [14.0; 49.9; 14.8]%float))).
    cbn. lia.
Defined.

(** A bounding box with a NaN in it is not rejected: both queries return,
    with nothing in the result. *)
Lemma nan_bbox_is_not_rejected :
  has_nan [nan; 49.0; 15.0; 51.0]%float
  ∧ getHotspotsInBbox (Sample.withHotspot Sample.uuidsA)
      (Some [nan; 49.0; 15.0; 51.0]%float) = Returned ∅
  ∧ getSnapshotInBbox Sample.h3_cellToLatLng Sample.withCell
      (Some [nan; 49.0; 15.0; 51.0]%float) = Returned ∅.
Proof.
  assert (has_nan [nan; 49.0; 15.0; 51.0]%float) as Hnan
    by (apply Exists_cons_hd; reflexivity).
  split; [exact Hnan|]. split.
  - apply (nan_bbox_returns_nothing Sample.h3_cellToLatLng), Hnan.
  - apply (nan_bbox_returns_nothing Sample.h3_cellToLatLng), Hnan.
Qed.

Lemma bbox_bounds_inclusive_witness :
  ∃ out,
    getSnapshotInBbox Sample.h3_cellToLatLng Sample.withCell
      (Some [14.0; 49.9; 14.8; 50.0]%float) = Returned out
    ∧ is_Some (out !! "50.00:14.44").
Proof.
  destruct (snapshot Sample.withCell !! "50.00:14.44") as [cell|] eqn:Hcell;
    [|vm_compute in Hcell; discriminate].
  destruct (bbox_bounds_inclusive Sample.h3_cellToLatLng Sample.withCell
              "50.00:14.44" cell 14.0 49.9 14.8 50.0 Hcell
              ltac:(vm_compute; reflexivity)
              ltac:(right; vm_compute; reflexivity)
              ltac:(vm_compute; reflexivity)
              ltac:(vm_compute; reflexivity))
    as (out & Hout & Hk).
  exists out. split; [exact Hout|]. rewrite Hk. eexists. reflexivity.
Defined.

Lemma getCell_absent_witness :
  getCell Sample.Date_toISOString Sample.withCell "49.00:13.00"
    (Some (Some true)) 1793559400000
  = (None, Sample.withCell).
Proof.
  apply (getCell_absent Sample.Date_toISOString Sample.withCell "49.00:13.00"
           (Some (Some true)) 1793559400000).
  vm_compute. reflexivity.
Defined.

(* ===================================================================== *)
(** * Further properties of the engine and of the routes *)
(* ===================================================================== *)

#[local] Set Default Proof Using "Type".
#[local] Set Proof Using Clear Unused.

(* ===================================================================== *)
(** ** Ingestion and flush over several intervals *)
(* ===================================================================== *)

Section Intervals.
Variable Date_toISOString : number → string.
Variable h3_cellToLatLng : string → number * number.

Abbreviation flush' := (applyRawAggToSnapshotBatch Date_toISOString).
Abbreviation getCell' := (getCell Date_toISOString).

Lemma flush_dom (sim sim' : Simulation) (now : Z) (clock : string → Z) :
  flush' sim now clock = Returned sim' →
  dom (snapshot sim') = dom (rawAgg sim).
Proof.
  intros E. apply set_eq. intros k.
  rewrite !elem_of_dom, (flush_lookup _ _ _ _ _ k E), fmap_is_Some.
  reflexivity.
Qed.

(** What a flush that returns leaves of the object. *)
Lemma flush_frame (sim sim' : Simulation) (now : Z) (clock : string → Z) :
  flush' sim now clock = Returned sim' →
  rawAgg sim' = ∅
  ∧ hotspots sim' = hotspots sim
  ∧ stats sim' = stats sim
  ∧ rngState sim' = rngState sim
  ∧ cellLocations sim' = cellLocations sim
  ∧ targetCellCount sim' = targetCellCount sim.
Proof.
  intros E. apply flush_inv in E as [_ ->]. split_and!; reflexivity.
Qed.

Lemma flushable_empty (sim : Simulation) (now : Z) :
  rawAgg sim = ∅ → flushable sim now.
Proof. intros He. unfold flushable. rewrite He. apply map_Forall_empty. Qed.

Lemma pushAll_snoc (sim : Simulation) (calls : list (string * RawEvent * Z))
    (c : string * RawEvent * Z) :
  pushAll sim (calls ++ [c]) = pushRawEvent (pushAll sim calls) c.1.1 c.1.2 c.2.
Proof. unfold pushAll. rewrite foldl_app. reflexivity. Qed.

Lemma pushAll_frame (sim : Simulation) (calls : list (string * RawEvent * Z)) :
  snapshot (pushAll sim calls) = snapshot sim
  ∧ hotspots (pushAll sim calls) = hotspots sim
  ∧ stats (pushAll sim calls) = stats sim
  ∧ rngState (pushAll sim calls) = rngState sim
  ∧ cellLocations (pushAll sim calls) = cellLocations sim.
Proof.
  induction calls as [|c calls IH] using rev_ind; [split_and!; reflexivity|].
  rewrite pushAll_snoc. exact IH.
Qed.

Lemma pushAll_dom (sim : Simulation) (calls : list (string * RawEvent * Z)) :
  dom (rawAgg (pushAll sim calls))
  = dom (rawAgg sim) ∪ list_to_set (calls.*1.*1).
Proof.
  induction calls as [|c calls IH] using rev_ind.
  - cbn. set_solver.
  - rewrite pushAll_snoc. cbn [pushRawEvent rawAgg set_rawAgg].
    rewrite dom_insert_L, IH, !fmap_app, list_to_set_app_L. cbn. set_solver.
Qed.

(** X1. Calls of [pushRawEvent] change the accumulator and nothing else: the
    snapshot, the hotspots, the statistics, [#rngState] and the cell
    locations stay as they were, and so does every answer of the query
    layer. The accumulator holds an entry for exactly the cells it held one
    for and the cells of the calls. *)
Theorem pushes_touch_only_the_accumulator (sim : Simulation)
    (calls : list (string * RawEvent * Z)) :
  let sim' := pushAll sim calls in
  snapshot sim' = snapshot sim
  ∧ hotspots sim' = hotspots sim
  ∧ stats sim' = stats sim
  ∧ rngState sim' = rngState sim
  ∧ cellLocations sim' = cellLocations sim
  ∧ dom (rawAgg sim') = dom (rawAgg sim) ∪ list_to_set (calls.*1.*1)
  ∧ (∀ bbox, getSnapshotInBbox h3_cellToLatLng sim' bbox
             = getSnapshotInBbox h3_cellToLatLng sim bbox)
  ∧ (∀ bbox, getHotspotsInBbox sim' bbox = getHotspotsInBbox sim bbox)
  ∧ (∀ k now, (getCell' sim' k None now).1 = snapshot sim !! k).
Proof.
  cbv zeta. destruct (pushAll_frame sim calls) as (Hs & Hh & Hst & Hr & Hc).
  split_and!; try assumption.
  - apply pushAll_dom.
  - intros bbox. unfold getSnapshotInBbox. rewrite Hs. reflexivity.
  - intros bbox. unfold getHotspotsInBbox. rewrite Hh. reflexivity.
  - intros k now. unfold getCell. rewrite Hs.
    destruct (snapshot sim !! k); reflexivity.
Qed.

(** X3. The first report of a cell in an interval, when it stays the only
    one and the flush returns, is published as it was made: rain intensity,
    fog and cross wind as reported, an absent field as NONE or [false]; the
    road condition as reported except that SLIPPERY_WET is published as
    SLIPPERY; UNRECOGNIZED is published as NONE and as DRY. *)
Theorem single_report_published (sim : Simulation) (k : string)
    (ev : RawEvent) (t now : Z) (clock : string → Z) :
  rawAgg sim !! k = None →
  flushable (pushRawEvent sim k ev t) now →
  ∃ sim' c,
    flush' (pushRawEvent sim k ev t) now clock = Returned sim'
    ∧ snapshot sim' !! k = Some c
    ∧ Cell.rain_intensity (Cell.conditions (Cell.environment c))
      = publishedRain (default RainIntensity.NONE (ev_rain_intensity ev))
    ∧ Cell.road_condition (Cell.conditions (Cell.environment c))
      = publishedRoad (default RoadCondition.DRY (ev_road_condition ev))
    ∧ Cell.fog (Cell.conditions (Cell.environment c))
      = default false (ev_fog ev)
    ∧ Cell.cross_wind (Cell.conditions (Cell.environment c))
      = default false (ev_cross_wind ev).
Proof.
  intros Hnone Hf.
  pose proof (flush_returns Date_toISOString _ _ clock Hf) as E.
  eexists _, _. split; [exact E|]. split.
  { rewrite (flush_lookup _ _ _ _ _ k E). cbn [pushRawEvent rawAgg set_rawAgg].
    rewrite lookup_insert_eq, Hnone. reflexivity. }
  cbn. split_and!.
  - destruct (ev_rain_intensity ev) as [[]|]; vm_compute; reflexivity.
  - destruct (ev_road_condition ev) as [[]|]; vm_compute; reflexivity.
  - destruct (ev_fog ev) as [[]|]; vm_compute; reflexivity.
  - destruct (ev_cross_wind ev) as [[]|]; vm_compute; reflexivity.
Qed.

(** X4. Every summary that a flush publishes carries the key it is stored
    under as its [location.h3_index] and has no [statistics] field; its rain
    intensity is never UNRECOGNIZED and its road condition is never
    SLIPPERY_WET or UNRECOGNIZED, whatever was reported. *)
Theorem published_summary_shape (sim sim' : Simulation) (now : Z)
    (clock : string → Z) (k : string) (c : Cell.t) :
  flush' sim now clock = Returned sim' →
  snapshot sim' !! k = Some c →
  Cell.h3_index (Cell.location c) = k
  ∧ Cell.statistics c = None
  ∧ Cell.rain_intensity (Cell.conditions (Cell.environment c))
    ≠ RainIntensity.UNRECOGNIZED
  ∧ Cell.road_condition (Cell.conditions (Cell.environment c))
    ≠ RoadCondition.SLIPPERY_WET
  ∧ Cell.road_condition (Cell.conditions (Cell.environment c))
    ≠ RoadCondition.UNRECOGNIZED.
Proof.
  intros E. rewrite (flush_lookup _ _ _ _ _ k E).
  destruct (rawAgg sim !! k) as [agg|]; [|discriminate].
  intros [= <-]. cbn. unfold classifyRain, classifyRoad.
  split_and!; try reflexivity;
    repeat match goal with |- context [if ?b then _ else _] => destruct b end;
    discriminate.
Qed.

(** X5. A flush that finds the accumulator empty, as does the flush that
    follows a flush that returned when no event came in between, returns and
    publishes an empty snapshot: every cell is gone, and [getCell] answers
    [undefined] for every identifier. *)
Theorem flush_without_events_empties (sim : Simulation) (now : Z)
    (clock : string → Z) :
  rawAgg sim = ∅ →
  ∃ sim',
    flush' sim now clock = Returned sim'
    ∧ snapshot sim' = ∅
    ∧ rawAgg sim' = ∅
    ∧ (∀ k opts t, getCell' sim' k opts t = (None, sim'))
    ∧ (∀ a b c d,
         getSnapshotInBbox h3_cellToLatLng sim' (Some [a; b; c; d]) = Returned ∅).
Proof.
  intros Hempty.
  pose proof (flush_returns Date_toISOString sim now clock
                (flushable_empty sim now Hempty)) as E.
  eexists. split; [exact E|].
  match type of E with _ = Returned ?s => set (sim' := s) in * end.
  assert (snapshot sim' = ∅) as He.
  { apply map_empty. intros k. rewrite (flush_lookup _ _ _ _ _ k E), Hempty.
    reflexivity. }
  split_and!; [exact He|reflexivity| |].
  - intros k opts t. unfold getCell. rewrite He, lookup_empty. reflexivity.
  - intros a b c d. unfold getSnapshotInBbox. rewrite He.
    rewrite map_filter_empty. reflexivity.
Qed.

Lemma runIntervals_snoc (sim : Simulation) (l : list Interval) (i : Interval) :
  runIntervals Date_toISOString sim (l ++ [i])
  = runInterval Date_toISOString (runIntervals Date_toISOString sim l) i.
Proof. unfold runIntervals. rewrite foldl_app. reflexivity. Qed.

Lemma runIntervals_frame (sim : Simulation) (l : list Interval) :
  stats (runIntervals Date_toISOString sim l) = stats sim
  ∧ hotspots (runIntervals Date_toISOString sim l) = hotspots sim
  ∧ rngState (runIntervals Date_toISOString sim l) = rngState sim
  ∧ cellLocations (runIntervals Date_toISOString sim l) = cellLocations sim.
Proof.
  induction l as [|i l IH] using rev_ind; [split_and!; reflexivity|].
  rewrite runIntervals_snoc. unfold runInterval. cbv zeta.
  destruct (pushAll_frame (runIntervals Date_toISOString sim l) (events i))
    as (_ & Hh & Hst & Hr & Hc).
  destruct IH as (IH1 & IH2 & IH3 & IH4).
  destruct (flush' _ _ _) as [sim'|e] eqn:E; cbn [settle].
  - destruct (flush_frame _ _ _ _ E) as (_ & Hh' & Hst' & Hr' & Hc' & _).
    rewrite Hh', Hst', Hr', Hc', Hh, Hst, Hr, Hc. split_and!; assumption.
  - rewrite Hh, Hst, Hr, Hc. split_and!; assumption.
Qed.

(** X6. The [is_night] flag of a cell is frozen for as long as the cell gets
    at least one event in every interval: each flush copies it from the
    entry it replaces and never looks at the clock for such a cell; a flush
    that throws leaves the entry where it is. *)
Theorem is_night_is_frozen (sim : Simulation) (k : string) (c0 : Cell.t)
    (l : list Interval) :
  snapshot sim !! k = Some c0 →
  Forall (λ i, k ∈ (events i).*1.*1) l →
  ∃ c, snapshot (runIntervals Date_toISOString sim l) !! k = Some c
    ∧ Cell.is_night (Cell.environment c) = Cell.is_night (Cell.environment c0).
Proof.
  intros Hk. induction l as [|i l IH] using rev_ind; intros Hall.
  - exists c0. split; [exact Hk|reflexivity].
  - apply Forall_app in Hall as [Hl Hi]. apply Forall_inv in Hi.
    destruct (IH Hl) as (c & Hc & Hnight).
    rewrite runIntervals_snoc. unfold runInterval. cbv zeta.
    destruct (pushAll_frame (runIntervals Date_toISOString sim l)
                (events i)) as (Hsnap & _).
    destruct (flush' _ _ _) as [sim'|e] eqn:E; cbn [settle].
    + rewrite (flush_lookup _ _ _ _ _ k E).
      assert (is_Some (rawAgg (pushAll (runIntervals Date_toISOString sim l)
                                 (events i)) !! k)) as [agg Hagg].
      { apply elem_of_dom. rewrite pushAll_dom.
        apply elem_of_union_r, elem_of_list_to_set, Hi. }
      rewrite Hagg. eexists. split; [reflexivity|].
      cbn. rewrite Hsnap, Hc. exact Hnight.
    + exists c. rewrite Hsnap. split; [exact Hc|exact Hnight].
Qed.

(** X7. [getCell] with [includeStatistics] computes the statistics of a cell
    once: a second call returns what the first returned and changes nothing,
    whatever the clock shows. Without [includeStatistics] the call returns
    the snapshot entry and changes nothing. *)
Theorem statistics_computed_once (sim : Simulation) (k : string)
    (now1 now2 : Z) :
  let first := getCell' sim k (Some (Some true)) now1 in
  getCell' first.2 k (Some (Some true)) now2 = first
  ∧ (∀ c, first.1 = Some c → stats first.2 !! k = Cell.statistics c)
  ∧ getCell' sim k None now1 = (snapshot sim !! k, sim)
  ∧ getCell' sim k (Some None) now1 = (snapshot sim !! k, sim)
  ∧ getCell' sim k (Some (Some false)) now1 = (snapshot sim !! k, sim).
Proof.
  cbv zeta. unfold getCell. destruct (snapshot sim !! k) as [cell|] eqn:Hcell.
  2:{ cbn. rewrite Hcell. split_and!; try reflexivity. intros c Hc; discriminate Hc. }
  cbn [default negb]. destruct (stats sim !! k) as [st|] eqn:Hst.
  - cbn. rewrite Hcell, Hst. split_and!; try reflexivity.
    intros c [= <-]. reflexivity.
  - destruct (generateInitialStatisticsForCell _ _ _ _) as [st s'] eqn:Hgen.
    cbn. rewrite Hcell, lookup_insert_eq. split_and!; try reflexivity.
    intros c [= <-]. reflexivity.
Qed.

(** X8. The statistics cached for a cell are never refreshed by a flush:
    after any number of intervals [getCell] still returns the cached record,
    next to whatever summary the cell has by then. *)
Theorem cached_statistics_outlive_flushes (sim : Simulation) (k : string)
    (st : CellStatistics.t) (l : list Interval) (now : Z) (c : Cell.t) :
  stats sim !! k = Some st →
  snapshot (runIntervals Date_toISOString sim l) !! k = Some c →
  getCell' (runIntervals Date_toISOString sim l) k (Some (Some true)) now
  = (Some (with_statistics c (Some st)), runIntervals Date_toISOString sim l).
Proof.
  intros Hst Hc. unfold getCell. rewrite Hc. cbn [default negb].
  destruct (runIntervals_frame sim l) as (-> & _). rewrite Hst. reflexivity.
Qed.

End Intervals.

(* ===================================================================== *)
(** ** Statistics updates *)
(* ===================================================================== *)

(** X9. [#mergeStatistics]: an update without fields changes nothing;
    applying an update twice is applying it once; an update that carries all
    six day counts sets all six, zeros included; an extreme of the update
    replaces the stored one, but a [null] extreme does not erase it. *)
Theorem mergeStatistics_laws (prev s : CellStatistics.t)
    (update : StatisticsUpdate.t) :
  mergeStatistics prev noUpdate = prev
  ∧ mergeStatistics (mergeStatistics prev update) update
    = mergeStatistics prev update
  ∧ CellStatistics.day_counts (mergeStatistics prev (fullUpdate s))
    = CellStatistics.day_counts s
  ∧ CellStatistics.lowest
      (CellStatistics.temperature (mergeStatistics prev (fullUpdate s)))
    = match CellStatistics.lowest (CellStatistics.temperature s) with
      | Some x => Some x
      | None => CellStatistics.lowest (CellStatistics.temperature prev)
      end
  ∧ CellStatistics.highest
      (CellStatistics.temperature (mergeStatistics prev (fullUpdate s)))
    = match CellStatistics.highest (CellStatistics.temperature s) with
      | Some x => Some x
      | None => CellStatistics.highest (CellStatistics.temperature prev)
      end.
Proof.
  split_and!.
  - destruct prev as [[lo hi] [[a b c] d e f]]. reflexivity.
  - destruct update as [[[[lo|] [hi|]]|] [[[[[a|] [b|] [c|]]|] [d|] [e|] [f|]]|]];
      reflexivity.
  - destruct s as [[lo hi] [[a b c] d e f]]. reflexivity.
  - destruct s as [[[lo|] hi] [[a b c] d e f]]; reflexivity.
  - destruct s as [[lo [hi|]] [[a b c] d e f]]; reflexivity.
Qed.

Section Statistics.
Variable Date_toISOString : number → string.

(** X10. [addOrMergeStatistics] for a cell without cached statistics stores
    the update merged into the placeholder (zeros and no extremes). A later
    [getCell] with [includeStatistics] returns that record: statistics are
    not generated for the cell any more, and [#rngState] is not advanced.
    The snapshot is not touched. *)
Theorem merge_before_first_read (sim : Simulation) (k : string) (c : Cell.t)
    (update : StatisticsUpdate.t) (now : Z) :
  snapshot sim !! k = Some c →
  stats sim !! k = None →
  let sim' := addOrMergeStatistics sim k update in
  getCell Date_toISOString sim' k (Some (Some true)) now
  = (Some (with_statistics c
             (Some (mergeStatistics generateInitialStatisticsPlaceholder
                      update))), sim')
  ∧ rngState sim' = rngState sim
  ∧ snapshot sim' = snapshot sim
  ∧ rawAgg sim' = rawAgg sim.
Proof.
  intros Hc Hst sim'. split_and!; try reflexivity.
  unfold getCell, sim', addOrMergeStatistics.
  cbn [snapshot set_stats stats]. rewrite Hc, Hst, lookup_insert_eq.
  reflexivity.
Qed.
End Statistics.

(* ===================================================================== *)
(** ** The shape of the generated hotspots *)
(* ===================================================================== *)

Lemma dom_foldl_insert `{Countable K} {A B} (f : B → K) (v : A) (l : list B)
    (m : gmap K A) :
  dom (foldl (λ m i, <[f i := v]> m) m l) = dom m ∪ list_to_set (f <$> l).
Proof.
  revert m. induction l as [|x l IH]; intros m; cbn.
  - set_solver.
  - rewrite IH, dom_insert_L. set_solver.
Qed.

Lemma well_formed_init :
  well_formed {| RiskHotspot.by_week := ∅;
                 RiskHotspot.by_day := by_day_init;
                 RiskHotspot.by_time := by_time_init |}.
Proof.
  split; cbn [RiskHotspot.by_week RiskHotspot.by_day RiskHotspot.by_time].
  - intros w v Hw. rewrite lookup_empty in Hw. discriminate Hw.
  - unfold by_day_init. rewrite dom_list_to_map_L. reflexivity.
  - unfold by_time_init, halfHours. rewrite dom_foldl_insert, dom_empty_L.
    apply (left_id_L ∅ (∪)).
  - intros k v Hk.
    apply (map_Forall_lookup_1 (λ _ v, ∃ n, v = Int n ∧ 0 ≤ n) by_day_init k v);
      [|exact Hk].
    apply map_Forall_to_list.
    let l := eval vm_compute in (map_to_list by_day_init) in
    change (map_to_list by_day_init) with l.
    repeat (apply Forall_cons_2; [exists 0; split; [reflexivity|lia]|]).
    apply Forall_nil_2.
  - intros k v Hk.
    apply (map_Forall_lookup_1 (λ _ v, ∃ n, v = Int n ∧ 0 ≤ n) by_time_init k v);
      [|exact Hk].
    apply map_Forall_to_list.
    let l := eval vm_compute in (map_to_list by_time_init) in
    change (map_to_list by_time_init) with l.
    repeat (apply Forall_cons_2; [exists 0; split; [reflexivity|lia]|]).
    apply Forall_nil_2.
Qed.

Lemma assignOccurrence_shape (time_impact : Z)
    (d d' : RiskHotspot.Distribution) (s s' : Z) :
  assignOccurrence time_impact d s = (d', s') →
  ∃ w dayIdx hour minute,
    d' = {| RiskHotspot.by_week :=
              increment_or_init (1 + w) (RiskHotspot.by_week d);
            RiskHotspot.by_day :=
              increment (dayAt dayIdx) (RiskHotspot.by_day d);
            RiskHotspot.by_time :=
              increment (timeStr hour minute) (RiskHotspot.by_time d) |}
    ∧ 0 ≤ w < 52 ∧ 0 ≤ dayIdx < 7 ∧ 0 ≤ hour < 24
    ∧ (minute = 0 ∨ minute = 30).
Proof.
  unfold assignOccurrence, bind, ret.
  destruct (floor_r_times 52 s) as [w s1] eqn:Ew.
  destruct (r s1) as [dayRoll s2] eqn:EdayRoll.
  intros Hrun. exists w.
  apply floor_r_times_range in Ew; [|lia].
  repeat step_gen; simplify_eq;
    repeat match goal with
           | E : floor_r_times ?k _ = _ |- _ =>
               apply floor_r_times_range in E; [|lia]
           end;
    eexists _, _, _; (split; [reflexivity|]);
    rewrite ?andb_true_iff, ?andb_false_iff, ?Z.leb_le, ?Z.leb_gt in *; lia.
Qed.

Section Counted.
Context `{Countable K}.
Implicit Types m : gmap K Count.

Lemma increment_dom m k : k ∈ dom m → dom (increment k m) = dom m.
Proof.
  intros Hk. unfold increment. rewrite dom_insert_L. set_solver.
Qed.

Lemma increment_counted m k :
  k ∈ dom m →
  (∀ k' v, m !! k' = Some v → ∃ n, v = Int n ∧ 0 ≤ n) →
  ∀ k' v, increment k m !! k' = Some v → ∃ n, v = Int n ∧ 0 ≤ n.
Proof.
  intros Hk Hm k' v. unfold increment.
  destruct (decide (k = k')) as [<-|Hne].
  - rewrite lookup_insert_eq. apply elem_of_dom in Hk as [v0 Hv0].
    rewrite Hv0. destruct (Hm k v0 Hv0) as (n & -> & Hn).
    intros [= <-]. exists (n + 1). split; [reflexivity|lia].
  - rewrite lookup_insert_ne by exact Hne. apply Hm.
Qed.
End Counted.

Lemma assignOccurrence_well_formed (time_impact : Z)
    (d d' : RiskHotspot.Distribution) (s s' : Z) :
  well_formed d →
  assignOccurrence time_impact d s = (d', s') →
  well_formed d'.
Proof.
  intros [Hw Hd Ht Hdc Htc] Hrun.
  apply assignOccurrence_shape in Hrun
    as (w & dayIdx & hour & minute & -> & Hwr & HdI & Hh & Hm).
  assert (dayAt dayIdx ∈ dom (RiskHotspot.by_day d)) as Hday.
  { rewrite Hd. apply elem_of_list_to_set, day_in_DAYS, HdI. }
  assert (timeStr hour minute ∈ dom (RiskHotspot.by_time d)) as Htime.
  { rewrite Ht. apply elem_of_list_to_set, timeStr_in_halfHours; assumption. }
  split; cbn [RiskHotspot.by_week RiskHotspot.by_day RiskHotspot.by_time].
  - intros w' v. unfold increment_or_init.
    destruct (decide (1 + w = w')) as [<-|Hne].
    + rewrite lookup_insert_eq. split; [lia|].
      destruct (RiskHotspot.by_week d !! (1 + w)) as [v0|] eqn:Hv0.
      * destruct (Hw _ _ Hv0) as (_ & n & -> & Hn). simplify_eq.
        exists (n + 1). split; [reflexivity|lia].
      * simplify_eq. exists 1. split; [reflexivity|lia].
    + rewrite lookup_insert_ne by exact Hne. apply Hw.
  - rewrite increment_dom by exact Hday. exact Hd.
  - rewrite increment_dom by exact Htime. exact Ht.
  - apply increment_counted; assumption.
  - apply increment_counted; assumption.
Qed.

Lemma assignOccurrences_well_formed (n : nat) (time_impact : Z)
    (d d' : RiskHotspot.Distribution) (s s' : Z) :
  well_formed d →
  assignOccurrences n time_impact d s = (d', s') →
  well_formed d'.
Proof.
  revert d s. induction n as [|n IH]; intros d s Hd.
  - cbn. intros [= <- _]. exact Hd.
  - cbn. unfold bind.
    destruct (assignOccurrence time_impact d s) as [d1 s1] eqn:E1. intros Hrun.
    eapply IH; [|exact Hrun].
    eapply assignOccurrence_well_formed; eassumption.
Qed.

Lemma generateHotspotStatistics_well_formed (total_count time_impact s : Z) :
  well_formed
    (RiskHotspot.distribution
       (generateHotspotStatistics total_count time_impact s).1).
Proof.
  unfold generateHotspotStatistics, bind, ret.
  destruct (assignOccurrences _ _ _ s) as [d s'] eqn:E. cbn.
  exact (assignOccurrences_well_formed _ _ _ _ _ _ well_formed_init E).
Qed.

Lemma map_size_insert_bound `{Countable K} {A} (m : gmap K A) (k : K) (v : A) :
  (size (<[k := v]> m) ≤ S (size m))%nat.
Proof.
  destruct (m !! k) eqn:E.
  - rewrite map_size_insert_Some by eauto. lia.
  - rewrite map_size_insert_None by exact E. lia.
Qed.

Section HotspotShape.
Variable Math_atan2 : number → number → number.
Variable Number_toString : number → string.
Variable Date_toISOString : number → string.

Lemma generateHotspot_type (now : Z) (uuid : string) (s : Z) :
  RiskHotspot.type
    (RiskHotspot.risk
       (RiskHotspot.metadata
          (generateHotspot Math_atan2 Number_toString Date_toISOString
             now uuid s).1))
  ∈ RISK_TYPES.
Proof.
  unfold generateHotspot, bind, ret. repeat step_let. cbn.
  match goal with
  | E : floor_r_times (Z.of_nat (length RISK_TYPES)) _ = (?ty, _) |- _ =>
      apply floor_r_times_range in E; [|cbn; lia];
      cbn in E;
      assert (ty = 0 ∨ ty = 1 ∨ ty = 2 ∨ ty = 3 ∨ ty = 4 ∨ ty = 5 ∨ ty = 6
              ∨ ty = 7 ∨ ty = 8 ∨ ty = 9 ∨ ty = 10) as Hc by lia;
      clear E
  end.
  unfold RISK_TYPES.
  repeat (destruct Hc as [Hc | Hc]; [subst; cbn; set_solver|]).
  subst; cbn; set_solver.
Qed.

Lemma storeHotspots_size (sd : Z) (nowAt : nat → Z) (uuidAt : nat → string)
    (n : nat) :
  (size (storeHotspots Math_atan2 Number_toString Date_toISOString
           sd nowAt uuidAt n ∅) ≤ n)%nat.
Proof.
  induction n as [|n IH].
  { change (size (∅ : gmap string RiskHotspot.t) ≤ 0)%nat.
    rewrite map_size_empty. lia. }
  rewrite storeHotspots_S.
  etransitivity; [apply map_size_insert_bound|]. lia.
Qed.

(** X11. Every hotspot that [generateInitialHotspots] stores has a risk type
    from the table of eleven codes, importance, weather impact and
    time-of-day impact from 1 to 5, a confidence from 50 to 99, a residual
    confidence from 10 to 89 and a total count from 5 to 504; the store
    holds at most as many hotspots as were asked for. *)
Theorem stored_hotspot_fields (sim : Simulation) (forceCount : option nat)
    (nowAt : nat → Z) (uuidAt : nat → string) (k : string) (h : RiskHotspot.t) :
  let stored :=
    hotspots (generateInitialHotspots Math_atan2 Number_toString
                Date_toISOString sim forceCount nowAt uuidAt) in
  stored !! k = Some h →
  let md := RiskHotspot.metadata h in
  RiskHotspot.type (RiskHotspot.risk md) ∈ RISK_TYPES
  ∧ 1 ≤ RiskHotspot.importance (RiskHotspot.risk md) ≤ 5
  ∧ 50 ≤ RiskHotspot.confidence (RiskHotspot.risk md) ≤ 99
  ∧ 10 ≤ RiskHotspot.residual_confidence (RiskHotspot.risk md) ≤ 89
  ∧ 5 ≤ RiskHotspot.total_count md ≤ 504
  ∧ 1 ≤ RiskHotspot.weather_impact md ≤ 5
  ∧ 1 ≤ RiskHotspot.time_of_day_impact md ≤ 5
  ∧ (size stored ≤ default (targetHotspotCount sim) forceCount)%nat.
Proof.
  cbv zeta. unfold generateInitialHotspots. cbn [hotspots].
  intros Hk. apply storeHotspots_lookup in Hk as (i & _ & -> & _).
  unfold hotspotAt.
  destruct (generateHotspot_fields Math_atan2 Number_toString Date_toISOString
              (nowAt i) (uuidAt i)
              (seededRand (xor (xor (Z.of_nat i) (seed sim)) 0xABCDEF)))
    as (_ & Htc & Hw & Ht & Hi & Hc & Hr & _).
  split_and!; try lia.
  - apply generateHotspot_type.
  - apply storeHotspots_size.
Qed.

(** X12. The three histograms of every stored hotspot are well formed:
    [by_week] has keys from 1 to 52 only, each with a count of at least one;
    [by_day] has exactly the seven day keys and [by_time] exactly the
    forty-eight half-hour keys, and every count is a number that is not
    negative. *)
Theorem stored_hotspot_histograms (sim : Simulation) (forceCount : option nat)
    (nowAt : nat → Z) (uuidAt : nat → string) (k : string) (h : RiskHotspot.t) :
  hotspots (generateInitialHotspots Math_atan2 Number_toString
              Date_toISOString sim forceCount nowAt uuidAt) !! k = Some h →
  let d := RiskHotspot.distribution (RiskHotspot.statistics h) in
  well_formed d
  ∧ size (RiskHotspot.by_day d) = 7%nat
  ∧ size (RiskHotspot.by_time d) = 48%nat.
Proof.
  unfold generateInitialHotspots. cbn [hotspots].
  intros Hk. apply storeHotspots_lookup in Hk as (i & _ & -> & _).
  unfold hotspotAt.
  destruct (generateHotspot_fields Math_atan2 Number_toString Date_toISOString
              (nowAt i) (uuidAt i)
              (seededRand (xor (xor (Z.of_nat i) (seed sim)) 0xABCDEF)))
    as (_ & _ & _ & _ & _ & _ & _ & s' & Hstat).
  cbv zeta. rewrite Hstat.
  pose proof (generateHotspotStatistics_well_formed
                (RiskHotspot.total_count
                   (RiskHotspot.metadata
                      (generateHotspot Math_atan2 Number_toString
                         Date_toISOString (nowAt i) (uuidAt i)
                         (seededRand (xor (xor (Z.of_nat i) (seed sim))
                                        0xABCDEF))).1))
                (RiskHotspot.time_of_day_impact
                   (RiskHotspot.metadata
                      (generateHotspot Math_atan2 Number_toString
                         Date_toISOString (nowAt i) (uuidAt i)
                         (seededRand (xor (xor (Z.of_nat i) (seed sim))
                                        0xABCDEF))).1)) s') as Hwf.
  split_and!; [exact Hwf| |].
  - rewrite <- size_dom, (days_exact _ Hwf). vm_compute. reflexivity.
  - rewrite <- size_dom, (halfHours_exact _ Hwf). vm_compute. reflexivity.
Qed.
End HotspotShape.

(* ===================================================================== *)
(** ** The environment model and the initial cells *)
(* ===================================================================== *)

Section InitialCells.
Variable Math_log Math_cos Math_sin : number → number.
Variable Math_atan2 : number → number → number.
Variable Number_toString : number → string.
Variable Date_toISOString : number → string.
Variable h3_latLngToCell : number → number → Z → string.

Abbreviation environmentFor :=
  (generateEnvironmentForLocation Math_sin).
Abbreviation seedCell' := (seedCell Math_sin Date_toISOString).
Abbreviation seedCells' := (seedCells Math_sin Date_toISOString).
Abbreviation initialCells :=
  (generateInitialCells Math_log Math_cos Math_sin Math_atan2
     Date_toISOString h3_latLngToCell).

Lemma environment_pairs (lat lng : number) (timestampMs rngSeed s : Z) :
  let env := (environmentFor lat lng timestampMs rngSeed s).1 in
  let cond := Cell.conditions env in
  let localHour := (Date.getUTCHours timestampMs + 1) mod 24 in
  road_fits_rain (Cell.rain_intensity cond) (Cell.road_condition cond) = true
  ∧ Cell.is_night env = (localHour <? 6) || (21 <=? localHour).
Proof.
  unfold generateEnvironmentForLocation, bind, ret.
  repeat step_let. cbn [fst Cell.conditions Cell.rain_intensity
                          Cell.road_condition Cell.is_night].
  split; [|reflexivity].
  repeat match goal with
         | |- context [if ?b then _ else _] => destruct b
         end; reflexivity.
Qed.

(** X13. The environment model pairs rain and road condition in a fixed way:
    without rain or with LOW rain the road is DRY or SLIPPERY_ICE; with
    MEDIUM rain it is WET, SLIPPERY or SLIPPERY_ICE; SLIPPERY_WET comes with
    HIGH rain only, and under HIGH rain the road is never just WET unless
    the temperature is NaN. Neither value is ever UNRECOGNIZED. Night is the
    local hour (UTC + 1) before 6 or from 21 on. *)
Theorem environment_is_consistent (lat lng : number) (timestampMs rngSeed s : Z) :
  let env := (environmentFor lat lng timestampMs rngSeed s).1 in
  let cond := Cell.conditions env in
  let localHour := (Date.getUTCHours timestampMs + 1) mod 24 in
  road_fits_rain (Cell.rain_intensity cond) (Cell.road_condition cond) = true
  ∧ Cell.rain_intensity cond ≠ RainIntensity.UNRECOGNIZED
  ∧ Cell.road_condition cond ≠ RoadCondition.UNRECOGNIZED
  ∧ (PrimFloat.is_nan (Cell.temperature env) = false →
     Cell.rain_intensity cond = RainIntensity.HIGH →
     Cell.road_condition cond ≠ RoadCondition.WET)
  ∧ Cell.is_night env = (localHour <? 6) || (21 <=? localHour).
Proof.
  cbv zeta.
  destruct (environment_pairs lat lng timestampMs rngSeed s) as [Hfits Hnight].
  split_and!; [exact Hfits| | | |exact Hnight].
  - intros Hx. rewrite Hx in Hfits. discriminate Hfits.
  - intros Hx. rewrite Hx in Hfits.
    destruct (Cell.rain_intensity _); discriminate Hfits.
  - clear Hfits Hnight.
    unfold generateEnvironmentForLocation, bind, ret.
    repeat step_let. cbn [fst Cell.conditions Cell.rain_intensity
                            Cell.road_condition Cell.temperature].
    match goal with
    | |- context [Math_round ?x] =>
        generalize (Math_round x / 10)%float; intros temperature
    end.
    intros Hnan.
    repeat match goal with
           | |- context [if (?u <? ?c * ?k)%float then _ else _] =>
               destruct (u <? c * k)%float
           end; try discriminate.
    intros _.
    destruct (0 <? temperature)%float eqn:Hpos; [discriminate|].
    apply not_ltb_leb in Hpos; [|reflexivity|exact Hnan].
    rewrite Hpos. destruct (temperature <=? -5)%float; discriminate.
Qed.

Lemma seedCell_spec (now : Z) (i : nat) (loc : CellLocation) (sim : Simulation) :
  ∃ cell agg s',
    seedCell' now i loc sim
    = set_rngState s'
        (set_rawAgg (<[h3 loc := agg]> (rawAgg sim))
           (set_snapshot (<[h3 loc := cell]> (snapshot sim)) sim))
    ∧ Cell.h3_index (Cell.location cell) = h3 loc
    ∧ Cell.statistics cell = None
    ∧ seededFrom cell agg
    ∧ Cell.environment cell
      = (environmentFor (lat loc) (lng loc) now (Z.of_nat i) (rngState sim)).1.
Proof.
  unfold seedCell.
  destruct (environmentFor _ _ _ _ _) as [env s1] eqn:Eenv.
  repeat step_let.
  eexists _, _, _. split; [reflexivity|].
  unfold seededFrom. cbn. split_and!; reflexivity.
Qed.

Lemma seedCell_seeded_here (now : Z) (i : nat) (loc : CellLocation)
    (sim : Simulation) :
  seeded (seedCell' now i loc sim) (h3 loc).
Proof.
  destruct (seedCell_spec now i loc sim)
    as (cell & agg & s' & -> & Hh3 & Hst & Hfrom & Henv).
  exists cell, agg. cbn. rewrite !lookup_insert_eq.
  split_and!; try assumption; try reflexivity.
  rewrite Henv. apply environment_pairs.
Qed.

Lemma seedCell_other (now : Z) (i : nat) (loc : CellLocation)
    (sim : Simulation) (k : string) :
  k ≠ h3 loc →
  snapshot (seedCell' now i loc sim) !! k = snapshot sim !! k
  ∧ rawAgg (seedCell' now i loc sim) !! k = rawAgg sim !! k.
Proof.
  intros Hne.
  destruct (seedCell_spec now i loc sim) as (cell & agg & s' & -> & _).
  cbn. rewrite !lookup_insert_ne by congruence. split; reflexivity.
Qed.

Lemma seedCell_seeded_kept (now : Z) (i : nat) (loc : CellLocation)
    (sim : Simulation) (k : string) :
  seeded sim k → seeded (seedCell' now i loc sim) k.
Proof.
  intros Hk. destruct (decide (k = h3 loc)) as [->|Hne].
  - apply seedCell_seeded_here.
  - destruct (seedCell_other now i loc sim k Hne) as [Hs Ha].
    unfold seeded. rewrite Hs, Ha. exact Hk.
Qed.

Lemma seedCell_dom (now : Z) (i : nat) (loc : CellLocation) (sim : Simulation) :
  dom (snapshot (seedCell' now i loc sim)) = {[h3 loc]} ∪ dom (snapshot sim)
  ∧ dom (rawAgg (seedCell' now i loc sim)) = {[h3 loc]} ∪ dom (rawAgg sim)
  ∧ hotspots (seedCell' now i loc sim) = hotspots sim
  ∧ stats (seedCell' now i loc sim) = stats sim.
Proof.
  destruct (seedCell_spec now i loc sim) as (cell & agg & s' & -> & _).
  cbn. rewrite !dom_insert_L. split_and!; reflexivity.
Qed.

Lemma seedCells_dom (now : Z) (locs : list CellLocation) (i : nat)
    (sim : Simulation) :
  dom (snapshot (seedCells' now i locs sim))
  = dom (snapshot sim) ∪ list_to_set (h3 <$> locs)
  ∧ dom (rawAgg (seedCells' now i locs sim))
    = dom (rawAgg sim) ∪ list_to_set (h3 <$> locs)
  ∧ hotspots (seedCells' now i locs sim) = hotspots sim
  ∧ stats (seedCells' now i locs sim) = stats sim.
Proof.
  revert i sim. induction locs as [|loc locs IH]; intros i sim.
  - cbn. split_and!; try reflexivity; set_solver.
  - cbn [seedCells]. destruct (IH (S i) (seedCell' now i loc sim))
      as (-> & -> & -> & ->).
    destruct (seedCell_dom now i loc sim) as (-> & -> & -> & ->).
    cbn. split_and!; try reflexivity; set_solver.
Qed.

Lemma seedCells_other (now : Z) (locs : list CellLocation) (i : nat)
    (sim : Simulation) (k : string) :
  k ∉ h3 <$> locs →
  snapshot (seedCells' now i locs sim) !! k = snapshot sim !! k
  ∧ rawAgg (seedCells' now i locs sim) !! k = rawAgg sim !! k.
Proof.
  revert i sim. induction locs as [|loc locs IH]; intros i sim Hk.
  - split; reflexivity.
  - cbn [seedCells]. rewrite fmap_cons, not_elem_of_cons in Hk.
    destruct Hk as [Hne Hk].
    destruct (IH (S i) (seedCell' now i loc sim) Hk) as [-> ->].
    apply seedCell_other, Hne.
Qed.

Lemma seedCells_seeded (now : Z) (locs : list CellLocation) (i : nat)
    (sim : Simulation) (k : string) :
  seeded sim k ∨ k ∈ h3 <$> locs →
  seeded (seedCells' now i locs sim) k.
Proof.
  revert i sim. induction locs as [|loc locs IH]; intros i sim Hk.
  - destruct Hk as [Hk | Hk]; [exact Hk|]. inversion Hk.
  - cbn [seedCells]. apply IH.
    destruct Hk as [Hk | Hk].
    + left. apply seedCell_seeded_kept, Hk.
    + rewrite fmap_cons, elem_of_cons in Hk. destruct Hk as [-> | Hk].
      * left. apply seedCell_seeded_here.
      * right. exact Hk.
Qed.

Lemma size_list_to_set_bound (l : list string) :
  (size (list_to_set l : gset string) ≤ length l)%nat.
Proof.
  induction l as [|x l IH]; cbn.
  - rewrite size_empty. lia.
  - rewrite size_union_alt, size_singleton.
    pose proof (subseteq_size (list_to_set l ∖ {[x]}) (list_to_set l : gset string))
      as Hsub.
    assert (list_to_set l ∖ {[x]} ⊆ (list_to_set l : gset string)) as Hs
      by set_solver.
    specialize (Hsub Hs). lia.
Qed.

(** X14. [generateInitialCells] samples exactly [count] locations. It adds
    their cells to the snapshot and to the accumulator without clearing
    either: the keys afterwards are the keys before and the cells of the
    locations, so at most [count] entries are added (fewer when two
    locations fall into one cell), and an entry of a cell that holds none of
    the new locations stays as it was. Hotspots and statistics are not
    touched. *)
Theorem initial_cells_shape (sim : Simulation) (forceCount : option nat)
    (now : Z) :
  let sim' := initialCells sim forceCount now in
  let count := default (targetCellCount sim) forceCount in
  let cells := list_to_set (h3 <$> cellLocations sim') : gset string in
  length (cellLocations sim') = count
  ∧ dom (snapshot sim') = dom (snapshot sim) ∪ cells
  ∧ dom (rawAgg sim') = dom (rawAgg sim) ∪ cells
  ∧ (size (snapshot sim') ≤ size (snapshot sim) + count)%nat
  ∧ (∀ k, k ∉ cells →
       snapshot sim' !! k = snapshot sim !! k
       ∧ rawAgg sim' !! k = rawAgg sim !! k)
  ∧ hotspots sim' = hotspots sim
  ∧ stats sim' = stats sim.
Proof.
  cbv zeta. unfold generateInitialCells.
  set (count := default (targetCellCount sim) forceCount).
  set (locs := cellLocationAt Math_log Math_cos Math_atan2 h3_latLngToCell
                 (seed sim) (resolution sim) <$> seq 0 count).
  rewrite seedCells_cellLocations. cbn [cellLocations set_cellLocations].
  destruct (seedCells_dom now locs 0 (set_cellLocations locs sim))
    as (Hs & Ha & Hh & Hst).
  assert (length locs = count) as Hlen.
  { unfold locs. rewrite length_fmap, length_seq. reflexivity. }
  split_and!.
  - exact Hlen.
  - exact Hs.
  - exact Ha.
  - rewrite <- !size_dom, Hs. cbn [snapshot set_cellLocations].
    rewrite size_union_alt.
    pose proof (subseteq_size
                  (list_to_set (h3 <$> locs) ∖ dom (snapshot sim))
                  (list_to_set (h3 <$> locs) : gset string)) as Hsub.
    assert (list_to_set (h3 <$> locs) ∖ dom (snapshot sim)
            ⊆ (list_to_set (h3 <$> locs) : gset string)) as Hsub' by set_solver.
    specialize (Hsub Hsub').
    pose proof (size_list_to_set_bound (h3 <$> locs)) as Hb.
    rewrite length_fmap, Hlen in Hb. lia.
  - intros k Hk. rewrite elem_of_list_to_set in Hk.
    apply (seedCells_other now locs 0 (set_cellLocations locs sim) k Hk).
  - exact Hh.
  - exact Hst.
Qed.

(** X15. After [generateInitialCells] the cell of every sampled location has
    a snapshot entry that names the cell, carries no statistics and pairs
    rain and road condition as the environment model does, and an
    accumulator entry that stands for one event reporting that entry. *)
Theorem initial_cells_are_seeded (sim : Simulation) (forceCount : option nat)
    (now : Z) (loc : CellLocation) :
  let sim' := initialCells sim forceCount now in
  loc ∈ cellLocations sim' →
  seeded sim' (h3 loc).
Proof.
  cbv zeta. unfold generateInitialCells.
  rewrite seedCells_cellLocations. cbn [cellLocations set_cellLocations].
  intros Hloc. apply seedCells_seeded. right.
  apply list_elem_of_fmap. exists loc. split; [reflexivity|exact Hloc].
Qed.

Lemma initialCells_on_new (cells hots : nat) (interval sd res now : Z) :
  let simC := initialCells (new_Simulation cells hots interval sd res) None now in
  let sampled := list_to_set (h3 <$> cellLocations simC) : gset string in
  length (cellLocations simC) = cells
  ∧ dom (snapshot simC) = sampled
  ∧ dom (rawAgg simC) = sampled
  ∧ stats simC = ∅
  ∧ (∀ k, k ∈ sampled → seeded simC k).
Proof.
  cbv zeta. unfold generateInitialCells.
  set (sim0 := new_Simulation cells hots interval sd res).
  change (default (targetCellCount sim0) None) with cells.
  set (locs := cellLocationAt Math_log Math_cos Math_atan2 h3_latLngToCell
                 (seed sim0) (resolution sim0) <$> seq 0 cells).
  rewrite seedCells_cellLocations. cbn [cellLocations set_cellLocations].
  destruct (seedCells_dom now locs 0 (set_cellLocations locs sim0))
    as (Hs & Ha & _ & Hst).
  split_and!.
  - unfold locs. rewrite length_fmap, length_seq. reflexivity.
  - rewrite Hs. cbn. rewrite dom_empty_L. apply (left_id_L ∅ (∪)).
  - rewrite Ha. cbn. rewrite dom_empty_L. apply (left_id_L ∅ (∪)).
  - rewrite Hst. reflexivity.
  - intros k Hk. apply seedCells_seeded. right.
    apply elem_of_list_to_set in Hk. exact Hk.
Qed.
End InitialCells.

(* ===================================================================== *)
(** ** The order of numbers and the bounding-box queries *)
(* ===================================================================== *)

Lemma SFleb_trans (x y z : spec_float) :
  SFleb x y = true → SFleb y z = true → SFleb x z = true.
Proof.
  unfold SFleb.
  destruct x as [sx|sx| |sx mx ex], y as [sy|sy| |sy my ey],
    z as [sz|sz| |sz mz ez]; cbn;
    try discriminate; try reflexivity;
    try (destruct sx; cbn; (discriminate || reflexivity));
    try (destruct sy; cbn; (discriminate || reflexivity));
    try (destruct sz; cbn; (discriminate || reflexivity));
    try (destruct sx, sy; cbn; (discriminate || reflexivity));
    try (destruct sx, sz; cbn; (discriminate || reflexivity));
    try (destruct sy, sz; cbn; (discriminate || reflexivity));
    try (destruct sx, sy, sz; cbn; (discriminate || reflexivity)).
  all: destruct sx, sy, sz; cbn; try discriminate; try reflexivity.
  all: change (Pos.compare_cont Eq mx my) with (mx ?= my)%positive;
       change (Pos.compare_cont Eq my mz) with (my ?= mz)%positive;
       change (Pos.compare_cont Eq mx mz) with (mx ?= mz)%positive;
       destruct (Z.compare_spec ex ey), (Z.compare_spec ey ez),
         (Z.compare_spec ex ez); try lia; try discriminate; try reflexivity;
       subst;
       destruct (Pos.compare_spec mx my), (Pos.compare_spec my mz),
         (Pos.compare_spec mx mz); cbn; try lia; try discriminate;
       try reflexivity.
Qed.

Lemma leb_trans (a b c : number) :
  (a <=? b)%float = true → (b <=? c)%float = true → (a <=? c)%float = true.
Proof. rewrite !FloatAxioms.leb_spec. apply SFleb_trans. Qed.

(** X17. The two classifications of the flush are monotone: of two mean
    scores the higher one is never given the milder class, in the order that
    the scores of the classes define. *)
Theorem classification_is_monotone (a b : number) :
  (a <=? b)%float = true →
  (rainIntensityToScore (classifyRain a)
   <=? rainIntensityToScore (classifyRain b))%float = true
  ∧ (roadConditionToScore (classifyRoad a)
     <=? roadConditionToScore (classifyRoad b))%float = true.
Proof.
  intros Hab.
  assert (∀ t : number, (t <=? a)%float = true → (t <=? b)%float = true)
    as Hup by (intros t Ht; exact (leb_trans t a b Ht Hab)).
  unfold classifyRain, classifyRoad. split.
  - destruct (3.0 <=? a)%float eqn:E3.
    { rewrite (Hup _ E3). reflexivity. }
    destruct (1.2 <=? a)%float eqn:E2.
    { rewrite (Hup _ E2). destruct (3.0 <=? b)%float; reflexivity. }
    destruct (0.6 <=? a)%float eqn:E1.
    { rewrite (Hup _ E1).
      destruct (3.0 <=? b)%float; [reflexivity|].
      destruct (1.2 <=? b)%float; reflexivity. }
    destruct (3.0 <=? b)%float; [reflexivity|].
    destruct (1.2 <=? b)%float; [reflexivity|].
    destruct (0.6 <=? b)%float; reflexivity.
  - destruct (2.5 <=? a)%float eqn:E3.
    { rewrite (Hup _ E3). reflexivity. }
    destruct (1.8 <=? a)%float eqn:E2.
    { rewrite (Hup _ E2). destruct (2.5 <=? b)%float; reflexivity. }
    destruct (0.8 <=? a)%float eqn:E1.
    { rewrite (Hup _ E1).
      destruct (2.5 <=? b)%float; [reflexivity|].
      destruct (1.8 <=? b)%float; reflexivity. }
    destruct (2.5 <=? b)%float; [reflexivity|].
    destruct (1.8 <=? b)%float; [reflexivity|].
    destruct (0.8 <=? b)%float; reflexivity.
Qed.

Lemma inBbox_ordered (minLng minLat maxLng maxLat la ln : number) :
  inBbox minLng minLat maxLng maxLat la ln = true →
  (minLat <=? maxLat)%float = true ∧ (minLng <=? maxLng)%float = true.
Proof.
  unfold inBbox. rewrite !andb_true_iff. intros [[[H1 H2] H3] H4].
  split; eapply leb_trans; eassumption.
Qed.

Section BoundingBoxes.
Variable h3_cellToLatLng : string → number * number.

(** X19. A bounding box whose bounds are in the wrong order, [minLat] above
    [maxLat] or [minLng] above [maxLng], is not rejected: both queries
    return, and the result is empty. *)
Theorem inverted_bbox_matches_nothing (sim : Simulation)
    (minLng minLat maxLng maxLat : number) :
  (maxLat <? minLat)%float = true ∨ (maxLng <? minLng)%float = true →
  getSnapshotInBbox h3_cellToLatLng sim (Some [minLng; minLat; maxLng; maxLat])
  = Returned ∅
  ∧ getHotspotsInBbox sim (Some [minLng; minLat; maxLng; maxLat]) = Returned ∅.
Proof.
  intros Hinv.
  assert (∀ la ln, inBbox minLng minLat maxLng maxLat la ln = false) as Hout.
  { intros la ln. destruct (inBbox _ _ _ _ la ln) eqn:E; [|reflexivity].
    apply inBbox_ordered in E as [Hlat Hlng].
    destruct Hinv as [H | H].
    - rewrite FloatAxioms.ltb_spec in H. rewrite FloatAxioms.leb_spec in Hlat.
      unfold SFltb in H. unfold SFleb in Hlat.
      rewrite (SFcompare_antisym (Prim2SF minLat) (Prim2SF maxLat)) in H.
      destruct (SFcompare (Prim2SF minLat) (Prim2SF maxLat)) as [[]|];
        cbn in H; congruence.
    - rewrite FloatAxioms.ltb_spec in H. rewrite FloatAxioms.leb_spec in Hlng.
      unfold SFltb in H. unfold SFleb in Hlng.
      rewrite (SFcompare_antisym (Prim2SF minLng) (Prim2SF maxLng)) in H.
      destruct (SFcompare (Prim2SF minLng) (Prim2SF maxLng)) as [[]|];
        cbn in H; congruence. }
  unfold getSnapshotInBbox, getHotspotsInBbox.
  split; apply (f_equal Returned); apply map_empty; intros k;
    apply map_lookup_filter_None_2; right; intros x _; cbn.
  - destruct (h3_cellToLatLng k) as [la ln]. rewrite Hout. discriminate.
  - rewrite Hout. discriminate.
Qed.
End BoundingBoxes.

(* ===================================================================== *)
(** ** The routes *)
(* ===================================================================== *)

Section RouteProperties.
Variable Math_atan2 : number → number → number.
Variable Number_toString : number → string.
Variable Date_toISOString : number → string.
Variable h3_cellToLatLng : string → number * number.

Lemma roadSafetyHotspots_elem (sim : Simulation) (q : HotspotsQuery)
    (out : list RiskHotspot.t) (h : RiskHotspot.t) :
  roadSafetyHotspots sim q = Returned out →
  h ∈ out ↔
    ∃ minLng minLat maxLng maxLat k,
      q_bbox q = Some [minLng; minLat; maxLng; maxLat]
      ∧ hotspots sim !! k = Some h
      ∧ inBbox minLng minLat maxLng maxLat
          (RiskHotspot.latitude (RiskHotspot.location h))
          (RiskHotspot.longitude (RiskHotspot.location h)) = true
      ∧ q_min_confidence q
        < RiskHotspot.confidence (RiskHotspot.risk (RiskHotspot.metadata h))
      ∧ ∀ types, q_type q = Some types →
          RiskHotspot.type (RiskHotspot.risk (RiskHotspot.metadata h))
          ∈ types.
Proof.
  unfold roadSafetyHotspots.
  destruct (getHotspotsInBbox sim (q_bbox q)) as [found|e] eqn:Hq;
    [|discriminate].
  intros [= <-].
  assert (hotspotPasses q h = true ↔
            q_min_confidence q
            < RiskHotspot.confidence (RiskHotspot.risk (RiskHotspot.metadata h))
            ∧ ∀ types, q_type q = Some types →
                RiskHotspot.type (RiskHotspot.risk (RiskHotspot.metadata h))
                ∈ types) as Hpass.
  { unfold hotspotPasses. rewrite andb_true_iff, Z.ltb_lt.
    destruct (q_type q) as [types|].
    - rewrite bool_decide_eq_true. split.
      + intros [H1 H2]. split; [exact H1|]. intros ? [= <-]. exact H2.
      + intros [H1 H2]. split; [exact H1|]. apply H2. reflexivity.
    - split.
      + intros [H1 _]. split; [exact H1|]. intros ? Hd. discriminate Hd.
      + intros [H1 _]. split; [exact H1|reflexivity]. }
  assert (h ∈ (map_to_list found).*2 ↔ ∃ k, found !! k = Some h) as Hvals.
  { rewrite list_elem_of_fmap. split.
    - intros [[k v] [-> Hkv]]. exists k. apply elem_of_map_to_list, Hkv.
    - intros [k Hk]. exists (k, h). split; [reflexivity|].
      apply elem_of_map_to_list, Hk. }
  rewrite list_elem_of_filter, Hpass, Hvals. unfold getHotspotsInBbox in Hq.
  destruct (q_bbox q) as [[|a [|b [|c [|d [|e l]]]]]|]; try discriminate Hq.
  injection Hq as <-. split.
  - intros [[Hc Ht] [k Hk]]. apply map_lookup_filter_Some in Hk as [Hk Hin].
    exists a, b, c, d, k. split_and!; try assumption. reflexivity.
  - intros (a' & b' & c' & d' & k & [= <- <- <- <-] & Hk & Hin & Hc & Ht).
    split; [split; assumption|]. exists k.
    apply map_lookup_filter_Some. split; assumption.
Qed.

(** X20. The hotspots route answers with the stored hotspots within the box
    whose confidence is strictly above [min_confidence] and, when [type] is
    given, whose risk type is one of the listed codes: a hotspot whose
    confidence equals [min_confidence] is left out, and an empty list of
    types leaves nothing. *)
Theorem hotspots_route_filter (sim : Simulation) (q : HotspotsQuery)
    (out : list RiskHotspot.t) :
  roadSafetyHotspots sim q = Returned out →
  (∀ h, h ∈ out ↔
     ∃ minLng minLat maxLng maxLat k,
       q_bbox q = Some [minLng; minLat; maxLng; maxLat]
       ∧ hotspots sim !! k = Some h
       ∧ inBbox minLng minLat maxLng maxLat
           (RiskHotspot.latitude (RiskHotspot.location h))
           (RiskHotspot.longitude (RiskHotspot.location h)) = true
       ∧ q_min_confidence q
         < RiskHotspot.confidence (RiskHotspot.risk (RiskHotspot.metadata h))
       ∧ ∀ types, q_type q = Some types →
           RiskHotspot.type (RiskHotspot.risk (RiskHotspot.metadata h))
           ∈ types)
  ∧ (∀ h, q_min_confidence q
          = RiskHotspot.confidence (RiskHotspot.risk (RiskHotspot.metadata h)) →
          h ∉ out)
  ∧ (q_type q = Some [] → out = []).
Proof.
  intros Hout. split_and!.
  - intros h. apply roadSafetyHotspots_elem, Hout.
  - intros h Heq Hin.
    apply (roadSafetyHotspots_elem _ _ _ _ Hout) in Hin
      as (? & ? & ? & ? & k & _ & _ & _ & Hc & _).
    lia.
  - intros Hty. destruct out as [|h out]; [reflexivity|]. exfalso.
    assert (h ∈ h :: out) as Hin by apply list_elem_of_here.
    apply (roadSafetyHotspots_elem _ _ _ _ Hout) in Hin
      as (? & ? & ? & ? & k & _ & _ & _ & _ & Ht).
    specialize (Ht [] Hty). inversion Ht.
Qed.

(** X21. No generated hotspot has a confidence above 99: for the hotspots of
    [generateInitialHotspots] the route answers [min_confidence] 99 or 100
    with an empty list, whatever the box. *)
Theorem top_confidence_is_never_served (sim : Simulation)
    (forceCount : option nat) (nowAt : nat → Z) (uuidAt : nat → string)
    (q : HotspotsQuery) (out : list RiskHotspot.t) :
  99 ≤ q_min_confidence q →
  roadSafetyHotspots
    (generateInitialHotspots Math_atan2 Number_toString Date_toISOString
       sim forceCount nowAt uuidAt) q = Returned out →
  out = [].
Proof.
  intros Hmin Hout.
  destruct out as [|h out]; [reflexivity|]. exfalso.
  assert (h ∈ h :: out) as Hin by apply list_elem_of_here.
  apply (roadSafetyHotspots_elem _ _ _ _ Hout) in Hin
    as (? & ? & ? & ? & k & _ & Hk & _ & Hc & _).
  apply (hotspot_ranges Math_atan2 Number_toString Date_toISOString) in Hk
    as [Hconf _].
  lia.
Qed.
End RouteProperties.

Section CellsRoute.
Variable Date_toISOString : number → string.
Variable h3_cellToLatLng : string → number * number.

Abbreviation getCell' := (getCell Date_toISOString).
Abbreviation cellsByIds' := (cellsByIds Date_toISOString).

(** What a call of [getCell] with [includeStatistics] leaves of the
    state: everything but [#stats] and [#rngState], and every statistics
    record that was cached. *)
Lemma getCell_frame (sim : Simulation) (k : string) (now : Z) :
  let sim' := (getCell' sim k (Some (Some true)) now).2 in
  snapshot sim' = snapshot sim
  ∧ rawAgg sim' = rawAgg sim
  ∧ hotspots sim' = hotspots sim
  ∧ cellLocations sim' = cellLocations sim
  ∧ (∀ k' st, stats sim !! k' = Some st → stats sim' !! k' = Some st)
  ∧ (is_Some (snapshot sim !! k) → is_Some (stats sim' !! k)).
Proof.
  cbv zeta. unfold getCell.
  destruct (snapshot sim !! k) as [cell|] eqn:Hcell; cbn [default negb].
  2:{ cbn. split_and!; try reflexivity; [auto|]. intros [? Hx]. discriminate Hx. }
  destruct (stats sim !! k) as [st|] eqn:Hst.
  - cbn. split_and!; try reflexivity; [auto|]. intros _. rewrite Hst. eauto.
  - destruct (generateInitialStatisticsForCell _ _ _ _) as [st s'] eqn:Hgen.
    cbn. split_and!; try reflexivity.
    + intros k' st' Hk'. destruct (decide (k = k')) as [<-|Hne].
      * rewrite Hst in Hk'. discriminate Hk'.
      * rewrite lookup_insert_ne by exact Hne. exact Hk'.
    + intros _. rewrite lookup_insert_eq. eauto.
Qed.

Lemma getCell_result (sim : Simulation) (k : string) (now : Z) :
  match (getCell' sim k (Some (Some true)) now).1 with
  | Some c =>
      ∃ cell, snapshot sim !! k = Some cell
              ∧ with_statistics c None = with_statistics cell None
              ∧ is_Some (Cell.statistics c)
  | None => snapshot sim !! k = None
  end.
Proof.
  unfold getCell.
  destruct (snapshot sim !! k) as [cell|] eqn:Hcell; cbn [default negb];
    [|reflexivity].
  destruct (stats sim !! k) as [st|] eqn:Hst.
  - cbn. exists cell. split_and!; [reflexivity..|eauto].
  - destruct (generateInitialStatisticsForCell _ _ _ _) as [st s'] eqn:Hgen.
    cbn. exists cell. split_and!; [reflexivity..|eauto].
Qed.

Lemma cellsByIds_spec (ids : list string) (sim : Simulation) (nowAt : nat → Z)
    (i : nat) :
  let cells := (cellsByIds' sim ids nowAt i).1 in
  let sim' := (cellsByIds' sim ids nowAt i).2 in
  (λ c, with_statistics c None) <$> cells
  = (λ c, with_statistics c None) <$> omap (λ k, snapshot sim !! k) ids
  ∧ Forall (λ c, is_Some (Cell.statistics c)) cells
  ∧ snapshot sim' = snapshot sim
  ∧ rawAgg sim' = rawAgg sim
  ∧ hotspots sim' = hotspots sim
  ∧ cellLocations sim' = cellLocations sim
  ∧ (∀ k st, stats sim !! k = Some st → stats sim' !! k = Some st)
  ∧ (∀ k, k ∈ ids → is_Some (snapshot sim !! k) → is_Some (stats sim' !! k)).
Proof.
  cbv zeta. revert sim i. induction ids as [|k ids IH]; intros sim i.
  - cbn. split_and!; try reflexivity; [apply Forall_nil_2|auto|].
    intros k Hk. inversion Hk.
  - cbn [cellsByIds].
    pose proof (getCell_frame sim k (nowAt i)) as Hframe.
    pose proof (getCell_result sim k (nowAt i)) as Hres.
    destruct (getCell' sim k (Some (Some true)) (nowAt i)) as [r sim1].
    cbn [fst snd] in Hframe, Hres.
    destruct Hframe as (Hs1 & Ha1 & Hh1 & Hl1 & Hst1 & Hnew1).
    specialize (IH sim1 (S i)).
    destruct (cellsByIds' sim1 ids nowAt (S i)) as [cells sim2].
    cbn [fst snd] in IH |- *.
    destruct IH as (IHc & IHf & IHs & IHa & IHh & IHl & IHst & IHnew).
    rewrite Hs1 in IHc, IHnew.
    split_and!.
    + cbn [omap list_omap]. destruct r as [c|].
      * destruct Hres as (cell & -> & Heq & _).
        rewrite !fmap_cons, IHc, Heq. reflexivity.
      * rewrite Hres. exact IHc.
    + destruct r as [c|]; [|exact IHf].
      destruct Hres as (cell & _ & _ & Hsome).
      apply Forall_cons_2; assumption.
    + rewrite IHs. exact Hs1.
    + rewrite IHa. exact Ha1.
    + rewrite IHh. exact Hh1.
    + rewrite IHl. exact Hl1.
    + intros k' st Hk'. apply IHst, Hst1, Hk'.
    + intros k' Hk' Hsome. apply elem_of_cons in Hk' as [-> | Hk'].
      * destruct (Hnew1 Hsome) as [st Hst]. rewrite (IHst _ _ Hst). eauto.
      * apply IHnew; assumption.
Qed.

(** X22. The cells route with [h3_indexes] answers with the cells of the
    listed identifiers that the snapshot holds, in the order of the list,
    each with statistics; an identifier without a cell is skipped silently,
    and a [bbox] given next to [h3_indexes] is ignored. The request changes
    the object: it caches statistics for every listed cell that exists, and
    nothing else but [#rngState]. *)
Theorem cells_route_by_ids (sim : Simulation) (ids : list string)
    (bbox : option (list number)) (nowAt : nat → Z) :
  ∃ cells sim',
    weatherCells Date_toISOString h3_cellToLatLng sim (Some ids) bbox nowAt
    = (Returned (CellList cells), sim')
    ∧ (λ c, with_statistics c None) <$> cells
      = (λ c, with_statistics c None) <$> omap (λ k, snapshot sim !! k) ids
    ∧ Forall (λ c, is_Some (Cell.statistics c)) cells
    ∧ snapshot sim' = snapshot sim
    ∧ rawAgg sim' = rawAgg sim
    ∧ hotspots sim' = hotspots sim
    ∧ (∀ k, k ∈ ids → is_Some (snapshot sim !! k) → is_Some (stats sim' !! k)).
Proof.
  unfold weatherCells.
  pose proof (cellsByIds_spec ids sim nowAt 0) as Hspec.
  destruct (cellsByIds' sim ids nowAt 0) as [cells sim'].
  cbn [fst snd] in Hspec.
  destruct Hspec as (Hc & Hf & Hs & Ha & Hh & _ & _ & Hnew).
  exists cells, sim'. split_and!; try assumption. reflexivity.
Qed.
End CellsRoute.

(* ===================================================================== *)
(** ** The event producer and the two timers *)
(* ===================================================================== *)

Lemma array_at_elem {A} (xs : list A) (i : number) (x : A) :
  array_at xs i = Some x → x ∈ xs.
Proof.
  unfold array_at. destruct (to_scaled i) as [[m e]|]; [|discriminate].
  destruct (_ && _); [|discriminate].
  apply list_elem_of_lookup_2.
Qed.

(** What one call of [#produceRandomRawEvent] does when it returns: with
    no cell locations, nothing at all; otherwise it pushes one event for
    the cell of one of the locations. *)
Lemma produceRandomRawEvent_spec (sim sim' : Simulation) (now : Z) :
  produceRandomRawEvent sim now = Returned sim' →
  (cellLocations sim = [] ∧ sim' = sim)
  ∨ ∃ loc event s,
      loc ∈ cellLocations sim
      ∧ sim' = pushRawEvent (set_rngState s sim) (h3 loc) event now
      ∧ ev_count event = Some 1%float
      ∧ ev_timestamp event = Some (of_Z now).
Proof.
  unfold produceRandomRawEvent.
  destruct (cellLocations sim) as [|l0 ls] eqn:Hlocs.
  { intros [= <-]. left. split; reflexivity. }
  destruct (randUniform 0 (rngState sim)) as [u s1].
  destruct (array_at (l0 :: ls) _) as [loc|] eqn:Hat; [|discriminate].
  destruct (randomRawEvent _ _ now s1) as [event s2] eqn:Hev.
  intros [= <-]. right. exists loc, event, s2.
  split_and!; [eapply array_at_elem, Hat|reflexivity| |].
  - revert Hev. unfold randomRawEvent, bind, ret. repeat step_let.
    intros [= <- _]. reflexivity.
  - revert Hev. unfold randomRawEvent, bind, ret. repeat step_let.
    intros [= <- _]. reflexivity.
Qed.

Lemma pushRawEvent_dom (sim : Simulation) (k : string) (ev : RawEvent) (t : Z) :
  dom (rawAgg (pushRawEvent sim k ev t)) = {[k]} ∪ dom (rawAgg sim).
Proof. cbn. apply dom_insert_L. Qed.

Lemma produceRandomRawEvent_frame (sim sim' : Simulation) (now : Z) :
  produceRandomRawEvent sim now = Returned sim' →
  snapshot sim' = snapshot sim
  ∧ hotspots sim' = hotspots sim
  ∧ stats sim' = stats sim
  ∧ cellLocations sim' = cellLocations sim
  ∧ dom (rawAgg sim')
    ⊆ dom (rawAgg sim) ∪ list_to_set (h3 <$> cellLocations sim).
Proof.
  intros Hrun. apply produceRandomRawEvent_spec in Hrun
    as [[Hnil ->] | (loc & event & s & Hloc & -> & _ & _)].
  { split_and!; try reflexivity. set_solver. }
  split_and!; try reflexivity.
  rewrite pushRawEvent_dom. cbn.
  assert (h3 loc ∈ (list_to_set (h3 <$> cellLocations sim) : gset string)).
  { apply elem_of_list_to_set, list_elem_of_fmap. eauto. }
  set_solver.
Qed.

(** X23. One call of [#produceRandomRawEvent] that returns leaves the
    snapshot, the hotspots, the statistics and the cell locations as they
    were. With no cell locations it does nothing at all; otherwise the
    accumulator gains at most one entry, and that entry belongs to the cell
    of a sampled location. *)
Theorem producer_feeds_sampled_cells (sim sim' : Simulation) (now : Z) :
  produceRandomRawEvent sim now = Returned sim' →
  snapshot sim' = snapshot sim
  ∧ hotspots sim' = hotspots sim
  ∧ stats sim' = stats sim
  ∧ cellLocations sim' = cellLocations sim
  ∧ (cellLocations sim = [] → sim' = sim)
  ∧ dom (rawAgg sim) ⊆ dom (rawAgg sim')
  ∧ dom (rawAgg sim')
    ⊆ dom (rawAgg sim) ∪ list_to_set (h3 <$> cellLocations sim)
  ∧ (size (rawAgg sim') ≤ S (size (rawAgg sim)))%nat.
Proof.
  intros Hrun. apply produceRandomRawEvent_spec in Hrun
    as [[Hnil ->] | (loc & event & s & Hloc & -> & _ & _)].
  { split_and!; try reflexivity; [set_solver..|lia]. }
  split_and!; try reflexivity.
  - intros Hnil. rewrite Hnil in Hloc. inversion Hloc.
  - rewrite pushRawEvent_dom. cbn. set_solver.
  - rewrite pushRawEvent_dom. cbn.
    assert (h3 loc ∈ (list_to_set (h3 <$> cellLocations sim) : gset string)).
    { apply elem_of_list_to_set, list_elem_of_fmap. eauto. }
    set_solver.
  - cbn. apply map_size_insert_bound.
Qed.

Section Timers.
Variable Math_log Math_cos Math_sin : number → number.
Variable Math_atan2 : number → number → number.
Variable Number_toString : number → string.
Variable Date_toISOString : number → string.
Variable h3_latLngToCell : number → number → Z → string.

Lemma tick_invariant (sim sim' : Simulation) (t : Tick) :
  tick Date_toISOString sim t = Returned sim' →
  let cells := list_to_set (h3 <$> cellLocations sim) : gset string in
  dom (snapshot sim) ⊆ cells →
  dom (rawAgg sim) ⊆ cells →
  cellLocations sim' = cellLocations sim
  ∧ hotspots sim' = hotspots sim
  ∧ stats sim' = stats sim
  ∧ dom (snapshot sim') ⊆ cells
  ∧ dom (rawAgg sim') ⊆ cells.
Proof.
  intros Hrun cells Hs Ha. destruct t as [now | now clock]; cbn in Hrun.
  - apply produceRandomRawEvent_frame in Hrun.
    destruct Hrun as (Hs' & -> & -> & Hl' & Hsub).
    rewrite Hs'. split_and!; try reflexivity; [exact Hl'|exact Hs|].
    fold cells in Hsub. set_solver.
  - destruct (flush_frame Date_toISOString _ _ _ _ Hrun)
      as (He & -> & -> & _ & -> & _).
    split_and!; try reflexivity.
    + rewrite (flush_dom Date_toISOString _ _ _ _ Hrun). exact Ha.
    + rewrite He, dom_empty_L. set_solver.
Qed.

Lemma runTicks_invariant (ticks : list Tick) (sim sim' : Simulation) :
  runTicks Date_toISOString sim ticks = Returned sim' →
  let cells := list_to_set (h3 <$> cellLocations sim) : gset string in
  dom (snapshot sim) ⊆ cells →
  dom (rawAgg sim) ⊆ cells →
  cellLocations sim' = cellLocations sim
  ∧ hotspots sim' = hotspots sim
  ∧ stats sim' = stats sim
  ∧ dom (snapshot sim') ⊆ cells
  ∧ dom (rawAgg sim') ⊆ cells.
Proof.
  revert sim. induction ticks as [|t ticks IH]; intros sim Hrun cells Hs Ha.
  - injection Hrun as <-. split_and!; try reflexivity; assumption.
  - cbn [runTicks] in Hrun.
    destruct (tick Date_toISOString sim t) as [sim1|e] eqn:Ht;
      [|discriminate Hrun].
    destruct (tick_invariant sim sim1 t Ht Hs Ha)
      as (Hl1 & Hh1 & Hst1 & Hs1 & Ha1).
    fold cells in Hs1, Ha1.
    specialize (IH sim1 Hrun). cbv zeta in IH. rewrite Hl1 in IH.
    destruct (IH Hs1 Ha1) as (-> & -> & -> & Hs2 & Ha2).
    split_and!; try assumption; reflexivity.
Qed.

(** X24. After [generateInitialData] on a new object the two timers never
    take the snapshot beyond the sampled cells: whatever the producer and
    the flush do, in any order, every snapshot and accumulator entry belongs
    to the cell of a sampled location, so the snapshot never holds more than
    [targetCellCount] cells; locations, hotspots and statistics stay as they
    were. *)
Theorem timers_stay_within_sampled_cells
    (cells hots : nat) (interval sd res now : Z)
    (nowAt : nat → Z) (uuidAt : nat → string)
    (ticks : list Tick) (sim' : Simulation) :
  let sim1 :=
    generateInitialData Math_log Math_cos Math_sin Math_atan2 Number_toString
      Date_toISOString h3_latLngToCell
      (new_Simulation cells hots interval sd res) now nowAt uuidAt in
  let sampled := list_to_set (h3 <$> cellLocations sim1) : gset string in
  runTicks Date_toISOString sim1 ticks = Returned sim' →
  cellLocations sim' = cellLocations sim1
  ∧ hotspots sim' = hotspots sim1
  ∧ stats sim' = ∅
  ∧ dom (snapshot sim') ⊆ sampled
  ∧ dom (rawAgg sim') ⊆ sampled
  ∧ (size (snapshot sim') ≤ cells)%nat.
Proof.
  cbv zeta. unfold generateInitialData.
  set (simC := generateInitialCells Math_log Math_cos Math_sin Math_atan2
                 Date_toISOString h3_latLngToCell
                 (new_Simulation cells hots interval sd res) None now).
  set (sim1 := generateInitialHotspots _ _ _ simC None nowAt uuidAt).
  intros Hrun.
  destruct (initialCells_on_new Math_log Math_cos Math_sin Math_atan2
              Date_toISOString h3_latLngToCell cells hots interval sd res now)
    as (Hlen & Hds & Hda & Hst & _).
  fold simC in Hlen, Hds, Hda, Hst.
  assert (cellLocations sim1 = cellLocations simC) as Hl by reflexivity.
  destruct (runTicks_invariant ticks sim1 sim' Hrun)
    as (Hl' & Hh' & Hst' & Hs' & Ha').
  { change (snapshot sim1) with (snapshot simC). rewrite Hl, Hds. reflexivity. }
  { change (rawAgg sim1) with (rawAgg simC). rewrite Hl, Hda. reflexivity. }
  split_and!; try assumption.
  - rewrite Hst'. change (stats sim1) with (stats simC). exact Hst.
  - rewrite <- size_dom.
    etransitivity; [apply subseteq_size, Hs'|].
    etransitivity; [apply size_list_to_set_bound|].
    rewrite length_fmap, Hl, Hlen. reflexivity.
Qed.
(** Calls of the producer that return: the snapshot and the locations
    stay, the accumulator keeps its entries and gains entries of sampled
    cells only. *)
Lemma producer_run (produced : list Z) (sim sim' : Simulation) :
  runTicks Date_toISOString sim (Produce <$> produced) = Returned sim' →
  snapshot sim' = snapshot sim
  ∧ cellLocations sim' = cellLocations sim
  ∧ dom (rawAgg sim) ⊆ dom (rawAgg sim')
  ∧ dom (rawAgg sim')
    ⊆ dom (rawAgg sim) ∪ list_to_set (h3 <$> cellLocations sim).
Proof.
  revert sim. induction produced as [|n rest IH]; intros sim Hrun.
  - injection Hrun as <-. split_and!; try reflexivity; set_solver.
  - rewrite fmap_cons in Hrun. cbn [runTicks tick] in Hrun.
    destruct (produceRandomRawEvent sim n) as [sim1|e] eqn:Hp;
      [|discriminate Hrun].
    destruct (IH sim1 Hrun) as (Hs & Hl & Hsub & Hsup).
    assert (dom (rawAgg sim) ⊆ dom (rawAgg sim1)) as Hgrow.
    { pose proof Hp as Hp'. apply produceRandomRawEvent_spec in Hp'
        as [[_ ->] | (loc & event & s & _ & -> & _ & _)]; [reflexivity|].
      rewrite pushRawEvent_dom. cbn. set_solver. }
    apply produceRandomRawEvent_frame in Hp as (Hs1 & _ & _ & Hl1 & Hsup1).
    rewrite Hl1 in Hsup, Hl. rewrite Hs1 in Hs.
    split_and!; [exact Hs|exact Hl|set_solver|set_solver].
Qed.

(** X16. After [generateInitialData] on a new object, any number of calls of
    the producer that return, and then the first flush, on an accumulator
    whose time values are all valid dates: the flush returns and publishes a
    summary for exactly the cells of the initial snapshot, at most
    [targetCellCount] of them, and each summary keeps the night flag of the
    initial entry. When the producer was not called in between, each summary
    also repeats the rain intensity and the fog and cross-wind flags of the
    initial entry; the road condition is repeated too, except that
    SLIPPERY_WET is published as SLIPPERY. *)
Theorem first_flush_republishes_initial_cells
    (cells hots : nat) (interval sd res now : Z)
    (nowAt : nat → Z) (uuidAt : nat → string)
    (produced : list Z) (simP : Simulation) (now' : Z) (clock : string → Z) :
  let sim1 :=
    generateInitialData Math_log Math_cos Math_sin Math_atan2 Number_toString
      Date_toISOString h3_latLngToCell
      (new_Simulation cells hots interval sd res) now nowAt uuidAt in
  runTicks Date_toISOString sim1 (Produce <$> produced) = Returned simP →
  flushable simP now' →
  ∃ sim2,
    applyRawAggToSnapshotBatch Date_toISOString simP now' clock = Returned sim2
    ∧ dom (snapshot sim2) = dom (snapshot sim1)
    ∧ (size (snapshot sim2) ≤ cells)%nat
    ∧ length (cellLocations sim1) = cells
    ∧ ∀ k c, snapshot sim1 !! k = Some c →
        ∃ c', snapshot sim2 !! k = Some c'
          ∧ Cell.is_night (Cell.environment c')
            = Cell.is_night (Cell.environment c)
          ∧ (produced = [] →
             Cell.rain_intensity (Cell.conditions (Cell.environment c'))
             = Cell.rain_intensity (Cell.conditions (Cell.environment c))
             ∧ Cell.road_condition (Cell.conditions (Cell.environment c'))
               = publishedRoad
                   (Cell.road_condition (Cell.conditions (Cell.environment c)))
             ∧ Cell.fog (Cell.conditions (Cell.environment c'))
               = Cell.fog (Cell.conditions (Cell.environment c))
             ∧ Cell.cross_wind (Cell.conditions (Cell.environment c'))
               = Cell.cross_wind (Cell.conditions (Cell.environment c))).
Proof.
  cbv zeta. unfold generateInitialData.
  set (simC := generateInitialCells Math_log Math_cos Math_sin Math_atan2
                 Date_toISOString h3_latLngToCell
                 (new_Simulation cells hots interval sd res) None now).
  set (sim1 := generateInitialHotspots _ _ _ simC None nowAt uuidAt).
  intros Hrun Hf.
  assert (snapshot sim1 = snapshot simC) as Hsnap by reflexivity.
  assert (rawAgg sim1 = rawAgg simC) as Hagg by reflexivity.
  assert (cellLocations sim1 = cellLocations simC) as Hlocs by reflexivity.
  destruct (initialCells_on_new Math_log Math_cos Math_sin Math_atan2
              Date_toISOString h3_latLngToCell cells hots interval sd res now)
    as (Hlen & Hds & Hda & _ & Hseeded).
  fold simC in Hlen, Hds, Hda, Hseeded.
  destruct (producer_run produced sim1 simP Hrun) as (HsP & _ & Hsub & Hsup).
  assert (dom (rawAgg simP) = dom (snapshot simC)) as HdP.
  { rewrite Hagg, Hda, Hlocs in Hsup. rewrite Hagg, Hda in Hsub.
    rewrite Hds. set_solver. }
  pose proof (flush_returns Date_toISOString simP now' clock Hf) as E.
  eexists. split; [exact E|].
  match type of E with _ = Returned ?s => set (sim2 := s) in * end.
  pose proof (flush_dom Date_toISOString _ _ _ _ E) as Hd2.
  split_and!.
  - rewrite Hd2, HdP, Hsnap. reflexivity.
  - rewrite <- size_dom, Hd2, HdP, Hds.
    etransitivity; [apply size_list_to_set_bound|].
    rewrite length_fmap, Hlen. reflexivity.
  - rewrite Hlocs. exact Hlen.
  - intros k c Hc.
    assert (k ∈ dom (snapshot simC)) as Hk
      by (apply elem_of_dom; rewrite <- Hsnap, Hc; eauto).
    assert (is_Some (rawAgg simP !! k)) as [aggP HaggP]
      by (apply elem_of_dom; rewrite HdP; exact Hk).
    eexists. split.
    { rewrite (flush_lookup _ _ _ _ _ k E), HaggP. reflexivity. }
    split.
    { cbn [summarise Cell.is_night Cell.environment].
      rewrite HsP, Hc. reflexivity. }
    intros ->. injection Hrun as <-.
    rewrite Hds in Hk.
    destruct (Hseeded k Hk)
      as (c0 & agg & Hc0 & Hagg0 & _ & _ & Hfrom & Hfits).
    rewrite Hsnap, Hc0 in Hc. injection Hc as <-.
    rewrite Hagg, Hagg0 in HaggP. injection HaggP as <-.
    destruct Hfrom as (_ & Hcount & _ & _ & Hfog & Hwind & Hrain & Hroad).
    unfold summarise.
    cbn [Cell.rain_intensity Cell.road_condition Cell.fog Cell.cross_wind
         Cell.conditions Cell.environment].
    rewrite Hcount, Hfog, Hwind, Hrain, Hroad.
    split_and!.
    + destruct (Cell.rain_intensity _), (Cell.road_condition _);
        try discriminate Hfits; vm_compute; reflexivity.
    + destruct (Cell.road_condition _); vm_compute; reflexivity.
    + destruct (Cell.fog _); vm_compute; reflexivity.
    + destruct (Cell.cross_wind _); vm_compute; reflexivity.
Qed.
End Timers.

(* ===================================================================== *)
(** ** The calendar *)
(* ===================================================================== *)

Lemma getUTCFullYear_spec (ms : Z) :
  let y := Date.getUTCFullYear ms in
  Date.days_of_year_start y ≤ ms / Date.msPerDay
  < Date.days_of_year_start (y + 1).
Proof.
  cbv zeta. unfold Date.getUTCFullYear.
  generalize (ms / Date.msPerDay). intros days.
  unfold Date.days_of_year_start.
  repeat match goal with
         | |- context [if ?b then _ else _] => destruct b eqn:?
         end;
    rewrite ?Z.ltb_lt, ?Z.ltb_ge, ?Z.leb_le, ?Z.leb_gt in *;
    Z.div_mod_to_equations; lia.
Qed.

(** X25. [#dayOfYear] counts from one: for a time stamp from 1970 on it is
    the number of days since the first of January of the year, plus one, so
    it lies between 1 and 366. *)
Theorem dayOfYear_is_one_based (ms : Z) :
  0 ≤ ms →
  dayOfYear ms
  = ms / Date.msPerDay
    - Date.days_of_year_start (Date.getUTCFullYear ms) + 1
  ∧ 1 ≤ dayOfYear ms ≤ 366.
Proof.
  intros Hms. pose proof (getUTCFullYear_spec ms) as Hy. cbv zeta in Hy.
  set (y := Date.getUTCFullYear ms) in *.
  assert (0 ≤ ms / Date.msPerDay) as Hdays
    by (apply Z.div_pos; [exact Hms|reflexivity]).
  assert (1970 ≤ y) as Hyear.
  { destruct (Z.le_gt_cases 1970 y) as [|Hlt]; [assumption|exfalso].
    unfold Date.days_of_year_start in Hy.
    Z.div_mod_to_equations; lia. }
  assert (dayOfYear ms
          = ms / Date.msPerDay - Date.days_of_year_start y + 1) as Heq.
  { unfold dayOfYear. fold y. unfold Date.UTC_y_0_0.
    replace ((0 <=? y) && (y <=? 99)) with false
      by (symmetry; apply andb_false_iff; right; apply Z.leb_gt; lia).
    change (1000 * 60 * 60 * 24) with Date.msPerDay.
    replace (ms - (Date.days_of_year_start y - 1) * Date.msPerDay)
      with (ms + (1 - Date.days_of_year_start y) * Date.msPerDay) by lia.
    rewrite Z.div_add by discriminate. lia. }
  split; [exact Heq|]. rewrite Heq.
  unfold Date.days_of_year_start in *.
  Z.div_mod_to_equations; lia.
Qed.

(* ===================================================================== *)
(** ** Night *)
(* ===================================================================== *)

Section Night.
Variable Math_sin : number → number.
Variable Date_toISOString : number → string.

(** X26. The two places that decide [is_night] disagree in the evening: from
    21 to 23 o'clock local time (UTC + 1) the environment model, which makes
    the initial cells, says night, and the flush, for a cell it has no
    previous entry of, says day. *)
Theorem evening_is_night_for_initial_cells_only
    (lat lng : number) (timestampMs rngSeed s : Z)
    (old : gmap string Cell.t) (now : Z) (k : string) (agg : RawAgg) :
  21 ≤ (Date.getUTCHours timestampMs + 1) mod 24 →
  old !! k = None →
  Cell.is_night
    (generateEnvironmentForLocation Math_sin lat lng timestampMs rngSeed s).1
  = true
  ∧ Cell.is_night
      (Cell.environment (summarise Date_toISOString old now timestampMs k agg))
    = false.
Proof.
  intros Hhour Hold. split.
  - destruct (environment_pairs Math_sin lat lng timestampMs rngSeed s)
      as (_ & ->).
    apply orb_true_iff. right. apply Z.leb_le, Hhour.
  - cbn. rewrite Hold. apply Z.ltb_ge. lia.
Qed.
End Night.

(* ===================================================================== *)
(** ** The life cycle *)
(* ===================================================================== *)

Lemma is_set_Some (n : Z) : n ≠ 0 → is_set (Some n) = true.
Proof. intros Hn. cbn. apply negb_true_iff, Z.eqb_neq, Hn. Qed.

Lemma stop_clears (sim : Simulation) (t : Timers) :
  lifecycle_state sim t →
  rawTimerId (stop t) = None
  ∧ snapshotTimerId (stop t) = None
  ∧ intervals (stop t) = ∅.
Proof.
  intros [Hr Hs Hi | id1 id2 H1 H2 H12 Hr Hs Hi]; unfold stop.
  - rewrite Hr. cbn [is_set]. rewrite Hs. cbn [is_set]. auto.
  - rewrite Hr, (is_set_Some id1 H1). cbn [snapshotTimerId].
    rewrite Hs, (is_set_Some id2 H2). split_and!; try reflexivity.
    cbn. rewrite Hi.
    rewrite delete_insert_ne by congruence.
    rewrite !delete_insert_eq, !delete_empty. reflexivity.
Qed.

Lemma lifecycleCall_state (sim : Simulation) (t : Timers) (c : LifecycleCall) :
  runtime_ids c → lifecycle_state sim t →
  lifecycle_state sim (lifecycleCall sim t c).
Proof.
  intros Hids Hst. destruct c as [a b|]; cbn [lifecycleCall].
  - destruct Hids as (Ha & Hb & Hab). unfold start.
    destruct Hst as [Hr Hs Hi | id1 id2 H1 H2 H12 Hr Hs Hi].
    + rewrite Hr. cbn [is_set]. apply (running _ _ a b); try assumption;
        try reflexivity. cbn. rewrite Hi. reflexivity.
    + rewrite Hr, (is_set_Some id1 H1).
      apply (running _ _ id1 id2); assumption.
  - destruct (stop_clears sim t Hst) as (Hr & Hs & Hi).
    apply stopped; assumption.
Qed.

Lemma lifecycle_calls_state (sim : Simulation) (calls : list LifecycleCall)
    (t : Timers) :
  Forall runtime_ids calls → lifecycle_state sim t →
  lifecycle_state sim (foldl (lifecycleCall sim) t calls).
Proof.
  revert t. induction calls as [|c calls IH]; intros t Hall Hst; [exact Hst|].
  apply Forall_cons in Hall as [Hc Hall]. cbn [foldl].
  apply IH; [exact Hall|]. apply lifecycleCall_state; assumption.
Qed.

(** X27. Whatever calls of [start()] and [stop()] are made on a new object,
    in any order, the object never has more than its two intervals active:
    [start()] on a running object schedules nothing, [stop()] clears both
    intervals, and the intervals that are active are the two that the timer
    fields record, the producer every 200 ms and the flush every
    [snapshotIntervalMs]. *)
Theorem timers_are_never_leaked (sim : Simulation)
    (calls : list LifecycleCall) :
  Forall runtime_ids calls →
  let t := foldl (lifecycleCall sim) no_timers calls in
  (size (intervals t) ≤ 2)%nat
  ∧ intervals (stop t) = ∅
  ∧ (∀ id1 id2, is_set (rawTimerId t) = true → start sim t id1 id2 = t)
  ∧ (∀ id job delay, intervals t !! id = Some (job, delay) →
       (rawTimerId t = Some id ∧ job = ProduceEvents ∧ delay = 200)
       ∨ (snapshotTimerId t = Some id ∧ job = PublishSnapshot
          ∧ delay = snapshotIntervalMs sim)).
Proof.
  intros Hall t.
  assert (lifecycle_state sim t) as Hst.
  { apply lifecycle_calls_state; [exact Hall|]. apply stopped; reflexivity. }
  split_and!.
  - destruct Hst as [Hr Hs Hi | id1 id2 H1 H2 H12 Hr Hs Hi]; rewrite Hi.
    + rewrite map_size_empty. lia.
    + rewrite map_size_insert_None, map_size_insert_None, map_size_empty;
        [lia|apply lookup_empty|].
      rewrite lookup_insert_ne by congruence. apply lookup_empty.
  - apply (stop_clears sim t Hst).
  - intros id1 id2 Hset. unfold start. rewrite Hset. reflexivity.
  - intros id job delay Hid.
    destruct Hst as [Hr Hs Hi | a b H1 H2 H12 Hr Hs Hi]; rewrite Hi in Hid.
    + rewrite lookup_empty in Hid. discriminate Hid.
    + apply lookup_insert_Some in Hid as [[<- [= <- <-]] | [Hne Hid]].
      * right. split_and!; [exact Hs|reflexivity..].
      * apply lookup_insert_Some in Hid as [[<- [= <- <-]] | [_ Hid]].
        -- left. split_and!; [exact Hr|reflexivity..].
        -- rewrite lookup_empty in Hid. discriminate Hid.
Qed.

(* ===================================================================== *)
(** ** The clamps of the flush and the picks of the sampler *)
(* ===================================================================== *)

Section PublishedRanges.
Variable Date_toISOString : number → string.

(** X28. Every summary that a flush publishes has a confidence between 0 and
    100 and a total count of at least 1, or NaN in their place: the clamps
    hold for every number, the infinities included, and NaN is the only
    value that passes them. *)
Theorem published_ranges_or_nan (sim sim' : Simulation) (now : Z)
    (clock : string → Z) (k : string) (c : Cell.t) :
  applyRawAggToSnapshotBatch Date_toISOString sim now clock = Returned sim' →
  snapshot sim' !! k = Some c →
  let confidence := Cell.confidence (Cell.metadata c) in
  let total_count := Cell.total_count (Cell.metadata c) in
  (confidence = nan
   ∨ (0 <=? confidence)%float = true ∧ (confidence <=? 100)%float = true)
  ∧ (total_count = nan ∨ (1 <=? total_count)%float = true).
Proof.
  intros E. rewrite (flush_lookup _ _ _ _ _ k E).
  destruct (rawAgg sim !! k) as [agg|]; [|discriminate].
  intros [= <-]. cbv zeta.
  destruct (summarise_ranges Date_toISOString (snapshot sim) now (clock k) k agg)
    as [Hc Ht].
  split.
  - destruct (PrimFloat.is_nan _) in Hc; [left|right]; exact Hc.
  - destruct (PrimFloat.is_nan _) in Ht; [left|right]; exact Ht.
Qed.

(** A number above 8.64e15 is positive or [+∞]. *)
Lemma SFltb_above (m : positive) (e : Z) (x : spec_float) :
  SFltb (S754_finite false m e) x = true →
  x = S754_infinity false ∨ ∃ m' e', x = S754_finite false m' e'.
Proof.
  unfold SFltb. destruct x as [s|[]| |[] m' e']; cbn; try discriminate; eauto.
Qed.

(** A timestamp above 8.64e15 becomes the [lastTs] of a new accumulator
    entry, is not replaced by the clock reading of the flush, and is not a
    valid date. *)
Lemma beyond_the_range_of_dates (ts now : number) :
  (8.64e15 <? ts)%float = true →
  Math_max 0 ts = ts ∧ or_else ts now = ts ∧ Date_valid ts = false.
Proof.
  intros H. rewrite FloatAxioms.ltb_spec in H.
  assert (PrimFloat.is_nan ts = false) as Hnan.
  { destruct (PrimFloat.is_nan ts) eqn:E; [|reflexivity].
    rewrite (is_nan_Prim2SF ts E) in H. discriminate H. }
  assert (Prim2SF ts = S754_infinity false
          ∨ ∃ m' e', Prim2SF ts = S754_finite false m' e') as Hpos.
  { revert H.
    let c := eval vm_compute in (Prim2SF 8.64e15) in
    change (Prim2SF 8.64e15) with c.
    apply SFltb_above. }
  assert ((0 <? ts)%float = true) as H0.
  { rewrite FloatAxioms.ltb_spec.
    destruct Hpos as [-> | (m' & e' & ->)]; reflexivity. }
  split_and!.
  - unfold Math_max. rewrite Hnan, H0. reflexivity.
  - unfold or_else, is_zero_or_nan, PrimFloat.is_zero.
    rewrite Hnan, FloatAxioms.eqb_spec.
    destruct Hpos as [-> | (m' & e' & ->)]; reflexivity.
  - unfold Date_valid. rewrite FloatAxioms.leb_spec, FloatAxioms.abs_spec.
    unfold SFltb in H. unfold SFleb.
    rewrite (SFcompare_antisym (Prim2SF 8.64e15) (SFabs (Prim2SF ts))).
    destruct Hpos as [E | (m' & e' & E)]; rewrite E in H |- *; cbn [SFabs];
      destruct (SFcompare _ _) as [[]|]; cbn; congruence.
Qed.

(** X30. One event with a [timestamp] above 8.64e15, the greatest time value
    of a [Date], for a cell without an accumulator entry blocks the flush:
    whatever is pushed for other cells afterwards, the flush throws the
    [RangeError] of [toISOString] and so neither replaces the snapshot nor
    clears the accumulator, and the next flush finds the same entry. *)
Theorem out_of_range_timestamp_blocks_the_flush (sim : Simulation)
    (k : string) (ev : RawEvent) (t : Z) (ts : number)
    (others : list (string * RawEvent * Z)) (now : Z) (clock : string → Z) :
  rawAgg sim !! k = None →
  ev_timestamp ev = Some ts →
  (8.64e15 <? ts)%float = true →
  Forall (λ c, c.1.1 ≠ k) others →
  applyRawAggToSnapshotBatch Date_toISOString
    (pushAll (pushRawEvent sim k ev t) others) now clock
  = Thrown invalid_time_error
  ∧ snapshot (pushAll (pushRawEvent sim k ev t) others) = snapshot sim
  ∧ is_Some (rawAgg (pushAll (pushRawEvent sim k ev t) others) !! k).
Proof.
  intros Hnone Hts Habove Hothers.
  destruct (beyond_the_range_of_dates ts (of_Z now) Habove)
    as (Hmax & Hor & Hinvalid).
  pose proof (pushAll_other others (pushRawEvent sim k ev t) k Hothers) as Hk.
  cbn [pushRawEvent rawAgg set_rawAgg] in Hk.
  rewrite lookup_insert_eq, Hnone, Hts in Hk.
  cbn [default from_option id emptyBucket lastTs] in Hk. rewrite Hmax in Hk.
  split_and!.
  - apply flush_throws. intros Hf. specialize (Hf _ _ Hk).
    cbn [lastTs] in Hf. rewrite Hor, Hinvalid in Hf. discriminate Hf.
  - destruct (pushAll_frame (pushRawEvent sim k ev t) others) as (-> & _).
    reflexivity.
  - rewrite Hk. eauto.
Qed.
End PublishedRanges.

Lemma pickCity_walk_elem (cs : list City) (v : number) (c : City) :
  pickCity_walk cs v = Some c → c ∈ cs.
Proof.
  revert v. induction cs as [|c0 cs IH]; intros v; cbn; [discriminate|].
  destruct (v <=? weight c0)%float.
  - intros [= <-]. apply list_elem_of_here.
  - intros Hc. apply list_elem_of_further, (IH _ Hc).
Qed.

(** X29. The sampler never reads outside its two tables: [pickCity] returns
    one of the twelve cities, the first one when the walk along the weights
    comes to no city, and the highway that is picked is one of the eleven
    polylines, each of three points or more. *)
Theorem picks_come_from_the_tables (s : Z) :
  (pickCity s).1 ∈ cities
  ∧ (pickHighway s).1 ∈ highways
  ∧ (3 ≤ length (pickHighway s).1)%nat.
Proof.
  assert ((pickHighway s).1 ∈ highways) as Hh.
  { unfold pickHighway, bind, ret.
    destruct (floor_r_times _ s) as [hIdx s'] eqn:E. cbn [fst].
    apply floor_r_times_range in E; [|cbn; lia]. cbn in E.
    assert (Z.to_nat hIdx < length highways)%nat as Hlt by (cbn; lia).
    destruct (lookup_lt_is_Some_2 highways _ Hlt) as [poly Hpoly].
    rewrite (nth_lookup_Some _ _ _ _ Hpoly).
    apply (list_elem_of_lookup_2 _ _ _ Hpoly). }
  split_and!; [|exact Hh|].
  - unfold pickCity, bind, ret. destruct (r s) as [u s']. cbn [fst].
    destruct (pickCity_walk cities _) as [c|] eqn:E; cbn [default].
    + apply (pickCity_walk_elem _ _ _ E).
    + apply list_elem_of_here.
  - revert Hh. generalize ((pickHighway s).1). intros poly Hpoly.
    unfold highways in Hpoly.
    repeat (apply elem_of_cons in Hpoly as [-> | Hpoly]; [cbn; lia|]).
    inversion Hpoly.
Qed.

(* ===================================================================== *)
(** ** Further closed examples *)
(* ===================================================================== *)

Lemma single_report_published_witness :
  ∃ sim' c,
    applyRawAggToSnapshotBatch Sample.Date_toISOString
      (pushRawEvent Sample.sim0 Scenario.cell
         (Sample.weatherEvent RainIntensity.HIGH RoadCondition.SLIPPERY_WET)
         1793558400000)
      1793559300000 (λ _, 1793559300000) = Returned sim'
    ∧ snapshot sim' !! Scenario.cell = Some c
    ∧ Cell.rain_intensity (Cell.conditions (Cell.environment c))
      = RainIntensity.HIGH
    ∧ Cell.road_condition (Cell.conditions (Cell.environment c))
      = RoadCondition.SLIPPERY.
Proof.
  destruct (single_report_published Sample.Date_toISOString Sample.sim0
              Scenario.cell
              (Sample.weatherEvent RainIntensity.HIGH RoadCondition.SLIPPERY_WET)
              1793558400000 1793559300000 (λ _, 1793559300000) eq_refl
              ltac:(refine (bool_decide_unpack _ _); vm_compute; exact I))
    as (sim' & c & E & Hc & Hrain & Hroad & _).
  exists sim', c. split_and!; assumption.
Defined.

Lemma published_summary_shape_witness :
  ∃ sim' c,
    applyRawAggToSnapshotBatch Sample.Date_toISOString
      (pushRawEvent Sample.sim0 Scenario.cell (temperatureOnly 10.0)
         1793558400000)
      1793559300000 (λ _, 1793559300000) = Returned sim'
    ∧ snapshot sim' !! Scenario.cell = Some c
    ∧ Cell.h3_index (Cell.location c) = Scenario.cell
    ∧ Cell.statistics c = None.
Proof.
  pose proof (flush_returns Sample.Date_toISOString
                (pushRawEvent Sample.sim0 Scenario.cell (temperatureOnly 10.0)
                   1793558400000)
                1793559300000 (λ _, 1793559300000)
                ltac:(refine (bool_decide_unpack _ _); vm_compute; exact I)) as E.
  match type of E with _ = Returned ?s => set (sim' := s) in * end.
  destruct (snapshot sim' !! Scenario.cell) as [c|] eqn:Hc;
    [|vm_compute in Hc; discriminate Hc].
  exists sim', c. split; [exact E|]. split; [exact Hc|].
  destruct (published_summary_shape Sample.Date_toISOString _ sim'
              1793559300000 (λ _, 1793559300000) Scenario.cell c E Hc)
    as (Hk & Hst & _).
  split; assumption.
Defined.

Lemma published_ranges_or_nan_witness :
  ∃ sim' c,
    applyRawAggToSnapshotBatch Sample.Date_toISOString
      (pushRawEvent Sample.sim0 Scenario.cell (temperatureOnly 10.0)
         1793558400000)
      1793559300000 (λ _, 1793559300000) = Returned sim'
    ∧ snapshot sim' !! Scenario.cell = Some c
    ∧ (Cell.confidence (Cell.metadata c) = nan
       ∨ (0 <=? Cell.confidence (Cell.metadata c))%float = true
         ∧ (Cell.confidence (Cell.metadata c) <=? 100)%float = true).
Proof.
  pose proof (flush_returns Sample.Date_toISOString
                (pushRawEvent Sample.sim0 Scenario.cell (temperatureOnly 10.0)
                   1793558400000)
                1793559300000 (λ _, 1793559300000)
                ltac:(refine (bool_decide_unpack _ _); vm_compute; exact I)) as E.
  match type of E with _ = Returned ?s => set (sim' := s) in * end.
  destruct (snapshot sim' !! Scenario.cell) as [c|] eqn:Hc;
    [|vm_compute in Hc; discriminate Hc].
  exists sim', c. split; [exact E|]. split; [exact Hc|].
  exact (proj1 (published_ranges_or_nan Sample.Date_toISOString _ sim'
                  1793559300000 (λ _, 1793559300000) Scenario.cell c E Hc)).
Defined.

(** The flush that follows the flush of [Sample.withCell]. *)
Lemma flush_without_events_empties_witness :
  ∃ sim',
    applyRawAggToSnapshotBatch Sample.Date_toISOString Sample.withCell
      1793560200000 (λ _, 1793560200000) = Returned sim'
    ∧ snapshot sim' = ∅
    ∧ getCell Sample.Date_toISOString sim' Scenario.cell None 1793560300000
      = (None, sim').
Proof.
  destruct (flush_without_events_empties Sample.Date_toISOString
              Sample.h3_cellToLatLng Sample.withCell
              1793560200000 (λ _, 1793560200000)
              ltac:(vm_compute; reflexivity))
    as (sim' & E & Hs & _ & Hget & _).
  exists sim'. split_and!; [exact E|exact Hs|apply Hget].
Defined.

(** An event stamped 1e16 for one cell, then an event for another cell:
    the flush throws. *)
Lemma out_of_range_timestamp_blocks_the_flush_witness :
  applyRawAggToSnapshotBatch Sample.Date_toISOString
    (pushAll
       (pushRawEvent Sample.sim0 Scenario.cell Scenario.farFuture 1793558400000)
       [("49.00:13.00", temperatureOnly 4.0, 1793558400200)])
    1793559300000 (λ _, 1793559300000)
  = Thrown invalid_time_error.
Proof.
  apply (out_of_range_timestamp_blocks_the_flush Sample.Date_toISOString
           Sample.sim0 Scenario.cell Scenario.farFuture 1793558400000 1e16
           [("49.00:13.00", temperatureOnly 4.0, 1793558400200)]
           1793559300000 (λ _, 1793559300000)).
  - reflexivity.
  - reflexivity.
  - vm_compute. reflexivity.
  - apply Forall_cons_2; [discriminate|apply Forall_nil_2].
Defined.

(** [generateInitialData], one call of the producer, the first flush. *)
Lemma first_flush_republishes_initial_cells_witness :
  ∃ sim2,
    applyRawAggToSnapshotBatch Sample.Date_toISOString Scenario.fed
      1793559300000 (λ _, 1793559300000) = Returned sim2
    ∧ dom (snapshot sim2) = dom (snapshot Scenario.served)
    ∧ (size (snapshot sim2) ≤ 2)%nat.
Proof.
  destruct (first_flush_republishes_initial_cells
              Sample.Math_log Sample.Math_cos Sample.Math_sin Sample.Math_atan2
              Sample.Number_toString Sample.Date_toISOString
              Sample.h3_latLngToCell
              2 1 900000 42 9 1793558400000 Sample.clock Sample.uuidsA
              [1793558400200] Scenario.fed 1793559300000 (λ _, 1793559300000)
              ltac:(vm_compute; reflexivity)
              ltac:(refine (bool_decide_unpack _ _); vm_compute; exact I))
    as (sim2 & E & Hdom & Hsize & _).
  exists sim2. split_and!; [exact E|exact Hdom|exact Hsize].
Defined.

Lemma is_night_is_frozen_witness :
  ∃ c0 c,
    snapshot Sample.withCell !! Scenario.cell = Some c0
    ∧ snapshot (runIntervals Sample.Date_toISOString Sample.withCell
                  [Scenario.nextInterval]) !! Scenario.cell = Some c
    ∧ Cell.is_night (Cell.environment c) = Cell.is_night (Cell.environment c0).
Proof.
  destruct (snapshot Sample.withCell !! Scenario.cell) as [c0|] eqn:Hc0;
    [|vm_compute in Hc0; discriminate Hc0].
  destruct (is_night_is_frozen Sample.Date_toISOString Sample.withCell
              Scenario.cell c0 [Scenario.nextInterval] Hc0)
    as (c & Hc & Hnight).
  { apply Forall_cons_2; [|apply Forall_nil_2]. apply list_elem_of_here. }
  exists c0, c. split_and!; [reflexivity|assumption..].
Defined.

Lemma evening_is_night_for_initial_cells_only_witness :
  Cell.is_night
    (generateEnvironmentForLocation Sample.Math_sin 50.0 14.44
       1793565600000 0 42).1 = true
  ∧ Cell.is_night
      (Cell.environment
         (summarise Sample.Date_toISOString ∅ 1793565600000 1793565600000
            Scenario.cell emptyBucket)) = false.
Proof.
  apply (evening_is_night_for_initial_cells_only Sample.Math_sin
           Sample.Date_toISOString 50.0 14.44 1793565600000 0 42 ∅
           1793565600000 Scenario.cell emptyBucket).
  - vm_compute. discriminate.
  - reflexivity.
Defined.

Lemma cached_statistics_outlive_flushes_witness :
  ∃ st c,
    stats Scenario.withStatistics !! Scenario.cell = Some st
    ∧ getCell Sample.Date_toISOString
        (runIntervals Sample.Date_toISOString Scenario.withStatistics
           [Scenario.nextInterval])
        Scenario.cell (Some (Some true)) 1793560300000
      = (Some (with_statistics c (Some st)),
         runIntervals Sample.Date_toISOString Scenario.withStatistics
           [Scenario.nextInterval])
    ∧ Cell.temperature (Cell.environment c) = 12%float.
Proof.
  destruct (stats Scenario.withStatistics !! Scenario.cell) as [st|] eqn:Hst;
    [|vm_compute in Hst; discriminate Hst].
  destruct (snapshot (runIntervals Sample.Date_toISOString
                        Scenario.withStatistics [Scenario.nextInterval])
              !! Scenario.cell) as [c|] eqn:Hc;
    [|vm_compute in Hc; discriminate Hc].
  exists st, c. split_and!.
  - reflexivity.
  - apply (cached_statistics_outlive_flushes Sample.Date_toISOString
             Scenario.withStatistics Scenario.cell st [Scenario.nextInterval]
             1793560300000 c Hst Hc).
  - vm_compute in Hc. injection Hc as <-. reflexivity.
Defined.

Lemma merge_before_first_read_witness :
  ∃ c,
    snapshot Sample.withCell !! Scenario.cell = Some c
    ∧ getCell Sample.Date_toISOString
        (addOrMergeStatistics Sample.withCell Scenario.cell noUpdate)
        Scenario.cell (Some (Some true)) 1793559400000
      = (Some (with_statistics c
                 (Some (mergeStatistics generateInitialStatisticsPlaceholder
                          noUpdate))),
         addOrMergeStatistics Sample.withCell Scenario.cell noUpdate).
Proof.
  destruct (snapshot Sample.withCell !! Scenario.cell) as [c|] eqn:Hc;
    [|vm_compute in Hc; discriminate Hc].
  exists c. split; [reflexivity|].
  apply (merge_before_first_read Sample.Date_toISOString Sample.withCell
           Scenario.cell c noUpdate 1793559400000 Hc eq_refl).
Defined.

Lemma initial_cells_are_seeded_witness :
  seeded Scenario.seededCells
    (h3 (cellLocationAt Sample.Math_log Sample.Math_cos Sample.Math_atan2
           Sample.h3_latLngToCell (seed Sample.sim0) (resolution Sample.sim0)
           0)).
Proof.
  apply (initial_cells_are_seeded Sample.Math_log Sample.Math_cos
           Sample.Math_sin Sample.Math_atan2 Sample.Date_toISOString
           Sample.h3_latLngToCell Sample.sim0 (Some 2%nat) 1793558400000).
  vm_compute. apply list_elem_of_here.
Defined.

Lemma stored_hotspot_fields_witness :
  let h := hotspotAt Sample.Math_atan2 Sample.Number_toString
             Sample.Date_toISOString (seed Sample.sim0) Sample.clock
             Sample.uuidsA 0 in
  RiskHotspot.type (RiskHotspot.risk (RiskHotspot.metadata h)) ∈ RISK_TYPES
  ∧ 50 ≤ RiskHotspot.confidence (RiskHotspot.risk (RiskHotspot.metadata h)) ≤ 99
  ∧ (size (hotspots (Sample.withHotspot Sample.uuidsA)) ≤ 1)%nat.
Proof.
  cbv zeta.
  destruct (stored_hotspot_fields Sample.Math_atan2 Sample.Number_toString
              Sample.Date_toISOString Sample.sim0 (Some 1%nat) Sample.clock
              Sample.uuidsA "49.66293_12.77865" _ sample_hotspot_stored)
    as (Hty & _ & Hc & _ & _ & _ & _ & Hsize).
  split; [exact Hty|]. split; [exact Hc | exact Hsize].
Defined.

Lemma stored_hotspot_histograms_witness :
  let h := hotspotAt Sample.Math_atan2 Sample.Number_toString
             Sample.Date_toISOString (seed Sample.sim0) Sample.clock
             Sample.uuidsA 0 in
  well_formed (RiskHotspot.distribution (RiskHotspot.statistics h))
  ∧ size (RiskHotspot.by_time
            (RiskHotspot.distribution (RiskHotspot.statistics h))) = 48%nat.
Proof.
  cbv zeta.
  destruct (stored_hotspot_histograms Sample.Math_atan2 Sample.Number_toString
              Sample.Date_toISOString Sample.sim0 (Some 1%nat) Sample.clock
              Sample.uuidsA "49.66293_12.77865" _ sample_hotspot_stored)
    as (Hwf & _ & Htime).
  split; assumption.
Defined.

Lemma classification_is_monotone_witness :
  (rainIntensityToScore (classifyRain 1.0)
   <=? rainIntensityToScore (classifyRain 3.5))%float = true
  ∧ (roadConditionToScore (classifyRoad 1.0)
     <=? roadConditionToScore (classifyRoad 3.5))%float = true.
Proof.
  apply (classification_is_monotone 1.0 3.5). vm_compute. reflexivity.
Defined.

Lemma inverted_bbox_matches_nothing_witness :
  getSnapshotInBbox Sample.h3_cellToLatLng Sample.withCell
    (Some [14.0; 51.0; 15.0; 49.0]%float) = Returned ∅
  ∧ getHotspotsInBbox (Sample.withHotspot Sample.uuidsA)
      (Some [12.0; 50.0; 13.0; 49.0]%float) = Returned ∅.
Proof.
  split.
  - apply (inverted_bbox_matches_nothing Sample.h3_cellToLatLng
             Sample.withCell 14.0 51.0 15.0 49.0).
    left. vm_compute. reflexivity.
  - apply (inverted_bbox_matches_nothing Sample.h3_cellToLatLng
             (Sample.withHotspot Sample.uuidsA) 12.0 50.0 13.0 49.0).
    left. vm_compute. reflexivity.
Defined.

(** The hotspot of [Sample.withHotspot] has confidence 84: it is served
    for [min_confidence] 83 and not for 84. *)
Lemma hotspots_route_filter_witness :
  ∃ out,
    roadSafetyHotspots (Sample.withHotspot Sample.uuidsA) (Scenario.query 84)
    = Returned out
    ∧ hotspotAt Sample.Math_atan2 Sample.Number_toString
        Sample.Date_toISOString (seed Sample.sim0) Sample.clock Sample.uuidsA 0
      ∉ out.
Proof.
  destruct (roadSafetyHotspots (Sample.withHotspot Sample.uuidsA)
              (Scenario.query 84)) as [out|e] eqn:Hout;
    [|vm_compute in Hout; discriminate Hout].
  exists out. split; [reflexivity|].
  apply (proj1 (proj2 (hotspots_route_filter
                         (Sample.withHotspot Sample.uuidsA)
                         (Scenario.query 84) out Hout))).
  vm_compute. reflexivity.
Defined.

Lemma top_confidence_is_never_served_witness :
  roadSafetyHotspots (Sample.withHotspot Sample.uuidsA) (Scenario.query 99)
  = Returned [].
Proof.
  destruct (roadSafetyHotspots (Sample.withHotspot Sample.uuidsA)
              (Scenario.query 99)) as [out|e] eqn:Hout;
    [|vm_compute in Hout; discriminate Hout].
  apply (f_equal Returned).
  apply (top_confidence_is_never_served Sample.Math_atan2
           Sample.Number_toString Sample.Date_toISOString Sample.sim0
           (Some 1%nat) Sample.clock Sample.uuidsA (Scenario.query 99) out).
  - cbn. lia.
  - exact Hout.
Defined.

Lemma producer_feeds_sampled_cells_witness :
  ∃ sim',
    produceRandomRawEvent Scenario.seededCells 1793558400200 = Returned sim'
    ∧ snapshot sim' = snapshot Scenario.seededCells
    ∧ (size (rawAgg sim') ≤ S (size (rawAgg Scenario.seededCells)))%nat.
Proof.
  destruct (produceRandomRawEvent Scenario.seededCells 1793558400200)
    as [sim'|e] eqn:Hrun; [|vm_compute in Hrun; discriminate Hrun].
  exists sim'. split; [reflexivity|].
  destruct (producer_feeds_sampled_cells Scenario.seededCells sim'
              1793558400200 Hrun) as (Hs & _ & _ & _ & _ & _ & _ & Hsize).
  split; assumption.
Defined.

Lemma timers_stay_within_sampled_cells_witness :
  ∃ sim',
    runTicks Sample.Date_toISOString Scenario.served Scenario.ticks
    = Returned sim'
    ∧ (size (snapshot sim') ≤ 2)%nat.
Proof.
  destruct (runTicks Sample.Date_toISOString Scenario.served Scenario.ticks)
    as [sim'|e] eqn:Hrun; [|vm_compute in Hrun; discriminate Hrun].
  exists sim'. split; [reflexivity|].
  apply (timers_stay_within_sampled_cells Sample.Math_log Sample.Math_cos
           Sample.Math_sin Sample.Math_atan2 Sample.Number_toString
           Sample.Date_toISOString Sample.h3_latLngToCell
           2 1 900000 42 9 1793558400000 Sample.clock Sample.uuidsA
           Scenario.ticks sim' Hrun).
Defined.

Lemma dayOfYear_is_one_based_witness :
  dayOfYear 1793558400000 = 305 ∧ 1 ≤ dayOfYear 1793558400000 ≤ 366.
Proof.
  split; [reflexivity|].
  apply (dayOfYear_is_one_based 1793558400000). lia.
Defined.

Lemma timers_are_never_leaked_witness :
  let t := foldl (lifecycleCall Sample.sim0) no_timers Scenario.calls in
  (size (intervals t) ≤ 2)%nat ∧ intervals (stop t) = ∅.
Proof.
  cbv zeta.
  destruct (timers_are_never_leaked Sample.sim0 Scenario.calls)
    as (Hsize & Hstop & _).
  { unfold Scenario.calls.
    repeat (apply Forall_cons_2; [cbn; try split_and!; (lia || exact I)|]).
    apply Forall_nil_2. }
  split; assumption.
Defined.
